(** * DropTruck voice agent: booking extraction and confirmation tracking

    A shallow embedding of [src/core/prompt.py] ([BookingData]), of
    [src/app/llm.py] ([LLMAgent]) and of the request of
    [src/core/api_client.py] ([send_booking]): the field extractors of
    [_extract_booking_info], the keyword detector [_detect_confirmation],
    the history window [_get_recent_messages], the turn driver
    [generate_response] and the end-of-call test [is_call_complete],
    followed by the properties the specification states about them and
    by further properties of the code.

    Conventions.
    - Text is a [string] of 8-bit characters; the character classes follow
      Python on the ASCII range (code points above 127 are taken as
      caseless symbols that are neither blank nor part of a word).
    - Python's [None] is [None], a [str] value is [Some s]; truthiness of
      such a value is [truthy].
    - What the process reads from outside (the clock, the catalogue
      database, the text-completion service, the [fuzzywuzzy] scorers) is
      an explicit argument of the function that reads it.
    - The optional [logger] only receives messages and never feeds back
      into the agent; it is left out. *)

From Stdlib Require Import ZArith Ascii String DecimalString Lia Bool.
From stdpp Require Import gmap strings list.

Open Scope string_scope.

#[local] Arguments String.append !_ _ /.

(** ** Characters *)

Module Char.

Definition ord (c : ascii) : nat := nat_of_ascii c.

Definition between (lo hi : nat) (c : ascii) : bool :=
  Nat.leb lo (ord c) && Nat.leb (ord c) hi.

Definition is_upper : ascii -> bool := between 65 90.
Definition is_lower : ascii -> bool := between 97 122.
Definition is_alpha (c : ascii) : bool := is_upper c || is_lower c.
Definition is_digit : ascii -> bool := between 48 57.
Definition is_alnum (c : ascii) : bool := is_alpha c || is_digit c.

(** [str.isspace] and the class [\s]: tab to carriage return, the four
    separators 0x1c-0x1f, and the blank. *)
Definition is_space (c : ascii) : bool :=
  between 9 13 c || between 28 32 c.

(** The class [\w]. *)
Definition is_word (c : ascii) : bool :=
  is_alnum c || Ascii.eqb c "_".

Definition to_lower (c : ascii) : ascii :=
  if is_upper c then ascii_of_nat (ord c + 32) else c.

Definition to_upper (c : ascii) : ascii :=
  if is_lower c then ascii_of_nat (ord c - 32) else c.

End Char.

(** ** The [str] methods the agent uses *)

Module Py.

(** Truth value of an optional string: [None] and [""] are false. *)
Definition truthy (v : option string) : bool :=
  match v with
  | None => false
  | Some s => negb (String.eqb s "")
  end.

(** [v or ""] *)
Definition or_empty (v : option string) : string :=
  match v with
  | Some s => s
  | None => ""
  end.

Definition len (s : string) : nat := String.length s.

Fixpoint lower (s : string) : string :=
  match s with
  | EmptyString => EmptyString
  | String c t => String (Char.to_lower c) (lower t)
  end.

(** [str.title]: a cased character is upper-cased when the previous
    character is not cased, lower-cased otherwise. *)
Fixpoint title_from (prev_cased : bool) (s : string) : string :=
  match s with
  | EmptyString => EmptyString
  | String c t =>
      if Char.is_alpha c
      then String (if prev_cased then Char.to_lower c else Char.to_upper c)
                  (title_from true t)
      else String c (title_from false t)
  end.

Definition title : string -> string := title_from false.

Fixpoint lstrip (s : string) : string :=
  match s with
  | String c t => if Char.is_space c then lstrip t else s
  | EmptyString => EmptyString
  end.

Fixpoint rstrip (s : string) : string :=
  match s with
  | EmptyString => EmptyString
  | String c t =>
      match rstrip t with
      | EmptyString => if Char.is_space c then EmptyString else String c EmptyString
      | t' => String c t'
      end
  end.

Definition strip (s : string) : string := rstrip (lstrip s).

Fixpoint startswith (p s : string) : bool :=
  match p, s with
  | EmptyString, _ => true
  | String a p', String b s' => Ascii.eqb a b && startswith p' s'
  | String _ _, EmptyString => false
  end.

(** [needle in hay] *)
Fixpoint contains (needle hay : string) : bool :=
  startswith needle hay ||
  match hay with
  | EmptyString => false
  | String _ t => contains needle t
  end.

(** [s[n:]] *)
Fixpoint drop (n : nat) (s : string) : string :=
  match n, s with
  | O, _ => s
  | S n', String _ t => drop n' t
  | S _, EmptyString => EmptyString
  end.

(** [s[:n]] *)
Fixpoint take (n : nat) (s : string) : string :=
  match n, s with
  | O, _ => EmptyString
  | S n', String c t => String c (take n' t)
  | S _, EmptyString => EmptyString
  end.

(** [str.split()] with no argument: the maximal runs of non-blank
    characters.  [cur] holds the run being read, reversed. *)
Fixpoint split_from (cur : list ascii) (s : string) : list string :=
  let flush := match cur with
               | [] => []
               | _ => [string_of_list_ascii (rev cur)]
               end in
  match s with
  | EmptyString => flush
  | String c t =>
      if Char.is_space c then flush ++ split_from [] t
      else split_from (c :: cur) t
  end.

Definition split : string -> list string := split_from [].

(** [sep.join(parts)] *)
Fixpoint join (sep : string) (parts : list string) : string :=
  match parts with
  | [] => ""
  | [p] => p
  | p :: rest => p +:+ sep +:+ join sep rest
  end.

(** [s.replace(old, new)] for a non-empty [old]: occurrences are replaced
    left to right without overlap; [skip] counts the characters of an
    occurrence still to be passed over. *)
Fixpoint replace_from (old new : string) (skip : nat) (s : string) : string :=
  match s with
  | EmptyString => EmptyString
  | String c t =>
      match skip with
      | S k => replace_from old new k t
      | O =>
          if startswith old s
          then new +:+ replace_from old new (len old - 1) t
          else String c (replace_from old new 0 t)
      end
  end.

Definition replace (old new s : string) : string := replace_from old new 0 s.

(** [x in xs] for a list of strings *)
Definition mem (x : string) (xs : list string) : bool :=
  existsb (String.eqb x) xs.

(** [lst[-k:]]: as [-0] is [0], a zero [k] keeps the whole list. *)
Definition last_items {A} (k : nat) (l : list A) : list A :=
  match k with
  | O => l
  | _ => skipn (length l - k) l
  end.

End Py.

(** ** Regular expressions

    [re.search] as a backtracking matcher: alternatives are tried left to
    right, a greedy repetition tries one more round before it tries to
    stop, a lazy one the other way round, and the first start position
    with a match wins.  Only the constructs of the agent's patterns are
    covered. *)

Module Re.

Inductive regex : Type :=
| Lit (s : string)                    (* the characters of [s] *)
| Cls (p : ascii -> bool)             (* one character of a class *)
| Cat (r1 r2 : regex)                 (* r1 r2 *)
| Alt (r1 r2 : regex)                 (* r1|r2 *)
| Rep (greedy : bool) (lo : nat) (hi : option nat) (r : regex)
| Grp (i : nat) (r : regex)           (* capturing group number i *)
| Eol                                 (* $ *)
| Wordb.                              (* \b *)

(** A position in the subject: the character before it, its index and
    the text from it on. *)
Record cursor : Type := Cursor {
  before : option ascii;
  pos : nat;
  rest : string
}.

Definition caps : Type := list (nat * string).

Definition step (c : ascii) (t : string) (cu : cursor) : cursor :=
  Cursor (Some c) (S (pos cu)) t.

(** Read the literal [l] at the cursor. *)
Fixpoint eat (l : string) (cu : cursor) : option cursor :=
  match l with
  | EmptyString => Some cu
  | String a l' =>
      match rest cu with
      | String c t => if Ascii.eqb a c then eat l' (step c t cu) else None
      | EmptyString => None
      end
  end.

Definition word_at (c : option ascii) : bool :=
  match c with
  | Some a => Char.is_word a
  | None => false
  end.

Definition peek (cu : cursor) : option ascii :=
  match rest cu with
  | String c _ => Some c
  | EmptyString => None
  end.

(** [$] holds at the end of the text and before a final line feed. *)
Definition at_end (cu : cursor) : bool :=
  match rest cu with
  | EmptyString => true
  | String c EmptyString => Ascii.eqb c "010"
  | _ => false
  end.

Definition below (hi : option nat) (n : nat) : bool :=
  match hi with
  | Some h => Nat.ltb n h
  | None => true
  end.

(** The rounds of a repetition whose body is matched by [body]: [n]
    rounds are done, [k] is what follows the repetition.  A greedy
    repetition tries one more round before it tries to stop, a lazy one
    stops as soon as it may.  A round has to move forward, so there are
    at most as many rounds as characters left; [fuel] starts above that
    number. *)
Fixpoint rounds {A : Type}
    (body : cursor -> caps -> (cursor -> caps -> option A) -> option A)
    (greedy : bool) (lo : nat) (hi : option nat)
    (k : cursor -> caps -> option A)
    (fuel n : nat) (cu : cursor) (cs : caps) {struct fuel} : option A :=
  match fuel with
  | O => None
  | S fuel' =>
      let again (_ : unit) :=
        if below hi n
        then body cu cs (fun cu' cs' =>
               if Nat.ltb (pos cu) (pos cu')
               then rounds body greedy lo hi k fuel' (S n) cu' cs'
               else None)
        else None in
      let stop (_ : unit) := if Nat.leb lo n then k cu cs else None in
      if greedy then
        match again tt with
        | Some x => Some x
        | None => stop tt
        end
      else
        match stop tt with
        | Some x => Some x
        | None => again tt
        end
  end.

(** [run r cu cs k]: match [r] at [cu] and hand the end position and the
    groups to [k]; when [k] refuses, the next way of matching [r] is
    tried. *)
Fixpoint run {A : Type} (r : regex) (cu : cursor) (cs : caps)
    (k : cursor -> caps -> option A) {struct r} : option A :=
  match r with
  | Lit l =>
      match eat l cu with
      | Some cu' => k cu' cs
      | None => None
      end
  | Cls p =>
      match rest cu with
      | String c t => if p c then k (step c t cu) cs else None
      | EmptyString => None
      end
  | Cat r1 r2 => run r1 cu cs (fun cu' cs' => run r2 cu' cs' k)
  | Alt r1 r2 =>
      match run r1 cu cs k with
      | Some x => Some x
      | None => run r2 cu cs k
      end
  | Rep greedy lo hi r' =>
      rounds (run r') greedy lo hi k (S (Py.len (rest cu))) 0 cu cs
  | Grp i r' =>
      run r' cu cs (fun cu' cs' =>
        k cu' ((i, Py.take (pos cu' - pos cu) (rest cu)) :: cs'))
  | Eol => if at_end cu then k cu cs else None
  | Wordb =>
      if xorb (word_at (before cu)) (word_at (peek cu)) then k cu cs else None
  end.

(** One attempt at a given start position. *)
Definition match_here (r : regex) (cu : cursor) : option caps :=
  run r cu [] (fun _ cs => Some cs).

(** [re.search]: the leftmost start position with a match. *)
Fixpoint scan (r : regex) (prev : option ascii) (i : nat) (s : string)
    : option caps :=
  match match_here r (Cursor prev i s) with
  | Some cs => Some cs
  | None =>
      match s with
      | String c t => scan r (Some c) (S i) t
      | EmptyString => None
      end
  end.

Definition search (r : regex) (s : string) : option caps := scan r None 0 s.

(** [m.group(i)] of a group that took part in the match. *)
Fixpoint group (i : nat) (cs : caps) : string :=
  match cs with
  | [] => ""
  | (j, s) :: cs' => if Nat.eqb i j then s else group i cs'
  end.

(** Pattern syntax. *)
Fixpoint seq (rs : list regex) : regex :=
  match rs with
  | [] => Lit ""
  | [r] => r
  | r :: rs' => Cat r (seq rs')
  end.
Fixpoint alt (rs : list regex) : regex :=
  match rs with
  | [] => Lit ""
  | [r] => r
  | r :: rs' => Alt r (alt rs')
  end.
Definition opt (r : regex) : regex := Rep true 0 (Some 1) r.     (* r?  *)
Definition star (r : regex) : regex := Rep true 0 None r.        (* r*  *)
Definition plus (r : regex) : regex := Rep true 1 None r.        (* r+  *)
Definition plus_lazy (r : regex) : regex := Rep false 1 None r.  (* r+? *)
Definition times (n : nat) (r : regex) : regex := Rep true n (Some n) r.
Definition sp : regex := Cls Char.is_space.                      (* \s *)
Definition dg : regex := Cls Char.is_digit.                      (* \d *)

End Re.

(** ** [core/prompt.py]: the booking record *)

(** An attribute value: [None], a string, or a bound method of the class. *)
Inductive value : Type :=
| VNone
| VStr (s : string)
| VMethod (name : string).

Definition value_of (v : option string) : value :=
  match v with
  | Some s => VStr s
  | None => VNone
  end.

(** The ten attributes [__init__] creates.  [shadowed] holds the instance
    attributes that [setattr] may later create under the name of a method;
    it starts empty. *)
Record BookingData : Type := mkBooking {
  customer_name : option string;
  contact : option string;
  lead_source : option string;
  pickup_location : option string;
  drop_location : option string;
  vehicle_type : option string;
  body_type : option string;
  goods_type : option string;
  trip_date : option string;
  confirmation_status : string;
  shadowed : gmap string string
}.

Definition new_booking : BookingData :=
  mkBooking None None None None None None None None None "pending" ∅.

Definition set_customer_name (v : option string) (b : BookingData) :=
  mkBooking v (contact b) (lead_source b) (pickup_location b) (drop_location b)
    (vehicle_type b) (body_type b) (goods_type b) (trip_date b)
    (confirmation_status b) (shadowed b).
Definition set_contact (v : option string) (b : BookingData) :=
  mkBooking (customer_name b) v (lead_source b) (pickup_location b) (drop_location b)
    (vehicle_type b) (body_type b) (goods_type b) (trip_date b)
    (confirmation_status b) (shadowed b).
Definition set_lead_source (v : option string) (b : BookingData) :=
  mkBooking (customer_name b) (contact b) v (pickup_location b) (drop_location b)
    (vehicle_type b) (body_type b) (goods_type b) (trip_date b)
    (confirmation_status b) (shadowed b).
Definition set_pickup_location (v : option string) (b : BookingData) :=
  mkBooking (customer_name b) (contact b) (lead_source b) v (drop_location b)
    (vehicle_type b) (body_type b) (goods_type b) (trip_date b)
    (confirmation_status b) (shadowed b).
Definition set_drop_location (v : option string) (b : BookingData) :=
  mkBooking (customer_name b) (contact b) (lead_source b) (pickup_location b) v
    (vehicle_type b) (body_type b) (goods_type b) (trip_date b)
    (confirmation_status b) (shadowed b).
Definition set_vehicle_type (v : option string) (b : BookingData) :=
  mkBooking (customer_name b) (contact b) (lead_source b) (pickup_location b)
    (drop_location b) v (body_type b) (goods_type b) (trip_date b)
    (confirmation_status b) (shadowed b).
Definition set_body_type (v : option string) (b : BookingData) :=
  mkBooking (customer_name b) (contact b) (lead_source b) (pickup_location b)
    (drop_location b) (vehicle_type b) v (goods_type b) (trip_date b)
    (confirmation_status b) (shadowed b).
Definition set_goods_type (v : option string) (b : BookingData) :=
  mkBooking (customer_name b) (contact b) (lead_source b) (pickup_location b)
    (drop_location b) (vehicle_type b) (body_type b) v (trip_date b)
    (confirmation_status b) (shadowed b).
Definition set_trip_date (v : option string) (b : BookingData) :=
  mkBooking (customer_name b) (contact b) (lead_source b) (pickup_location b)
    (drop_location b) (vehicle_type b) (body_type b) (goods_type b) v
    (confirmation_status b) (shadowed b).
Definition set_confirmation_status (v : string) (b : BookingData) :=
  mkBooking (customer_name b) (contact b) (lead_source b) (pickup_location b)
    (drop_location b) (vehicle_type b) (body_type b) (goods_type b) (trip_date b)
    v (shadowed b).

(** The names the class body binds: its methods and its docstring.  The
    attributes every object inherits from [object] are not modelled. *)
Definition class_attrs : list string :=
  ["__init__"; "update_field"; "get_missing_fields"; "is_complete";
   "to_dict"; "__str__"; "__doc__"].


(** [getattr(self, name)], instance attributes before class attributes;
    [None] when the lookup raises [AttributeError]. *)
Definition getattr (b : BookingData) (name : string) : option value :=
  if String.eqb name "customer_name" then Some (value_of (customer_name b))
  else if String.eqb name "contact" then Some (value_of (contact b))
  else if String.eqb name "lead_source" then Some (value_of (lead_source b))
  else if String.eqb name "pickup_location" then Some (value_of (pickup_location b))
  else if String.eqb name "drop_location" then Some (value_of (drop_location b))
  else if String.eqb name "vehicle_type" then Some (value_of (vehicle_type b))
  else if String.eqb name "body_type" then Some (value_of (body_type b))
  else if String.eqb name "goods_type" then Some (value_of (goods_type b))
  else if String.eqb name "trip_date" then Some (value_of (trip_date b))
  else if String.eqb name "confirmation_status" then Some (VStr (confirmation_status b))
  else match shadowed b !! name with
       | Some s => Some (VStr s)
       | None => if Py.mem name class_attrs then Some (VMethod name) else None
       end.




Definition is_complete (b : BookingData) : bool :=
  Py.truthy (pickup_location b) && Py.truthy (drop_location b) &&
  Py.truthy (vehicle_type b) && Py.truthy (body_type b) &&
  Py.truthy (goods_type b) && Py.truthy (trip_date b).

(** [REQUIRED_FIELDS]: the required attributes and their labels, in the
    order of the dictionary. *)
Definition REQUIRED_FIELDS : list (string * string) :=
  [ ("pickup_location", "Pickup Location (City / Area / Full Address)");
    ("drop_location", "Drop Location");
    ("vehicle_type", "Vehicle Type (Truck or specific vehicle model)");
    ("body_type", "Body Type (Open or Container)");
    ("goods_type", "Goods/Material Type (e.g., cement, FMCG, machinery)");
    ("trip_date", "Trip Date (Required date of the trip)") ].

(** [getattr(self, field_key) is None] *)
Definition is_None (v : option value) : bool :=
  match v with
  | Some VNone => true
  | _ => false
  end.

Definition get_missing_fields (b : BookingData) : list string :=
  fold_left
    (fun missing kv =>
       if is_None (getattr b (fst kv)) then (missing ++ [snd kv])%list else missing)
    REQUIRED_FIELDS [].

(** [to_dict]: a dictionary read by key only; its values are [None] or a
    string. *)
Definition to_dict (b : BookingData) : gmap string (option string) :=
  list_to_map
    [ ("customer_name", customer_name b);
      ("contact", contact b);
      ("lead_source", lead_source b);
      ("pickup_location", pickup_location b);
      ("drop_location", drop_location b);
      ("vehicle_type", vehicle_type b);
      ("body_type", body_type b);
      ("goods_type", goods_type b);
      ("trip_date", trip_date b);
      ("confirmation_status", Some (confirmation_status b)) ].

(** ** The calendar: [datetime.now()], [timedelta(days=k)], [strftime]

    A date is its proleptic Gregorian ordinal ([date.toordinal()]); adding
    [timedelta(days=k)] adds [k].  [ord2ymd] follows the standard
    library's conversion and [strftime_ymd] renders ["%Y-%m-%d"] for the
    years 1000 to 9999. *)

Module Calendar.

Open Scope Z_scope.

Definition days_before_month (m : Z) : Z :=
  match m with
  | 1 => 0 | 2 => 31 | 3 => 59 | 4 => 90 | 5 => 120 | 6 => 151
  | 7 => 181 | 8 => 212 | 9 => 243 | 10 => 273 | 11 => 304 | 12 => 334
  | _ => 0
  end.

Definition days_in_month (m : Z) : Z :=
  match m with
  | 2 => 28
  | 4 | 6 | 9 | 11 => 30
  | _ => 31
  end.

Definition ord2ymd (n : Z) : Z * Z * Z :=
  let n := n - 1 in
  let n400 := n / 146097 in
  let n := n mod 146097 in
  let year := n400 * 400 + 1 in
  let n100 := n / 36524 in
  let n := n mod 36524 in
  let n4 := n / 1461 in
  let n := n mod 1461 in
  let n1 := n / 365 in
  let n := n mod 365 in
  let year := year + n100 * 100 + n4 * 4 + n1 in
  if (n1 =? 4) || (n100 =? 4) then (year - 1, 12, 31)
  else
    let leapyear := (n1 =? 3) && (negb (n4 =? 24) || (n100 =? 3)) in
    let month := Z.shiftr (n + 50) 5 in
    let preceding :=
      days_before_month month + (if (2 <? month) && leapyear then 1 else 0) in
    if n <? preceding then
      let month := month - 1 in
      let preceding :=
        preceding -
        (days_in_month month + (if (month =? 2) && leapyear then 1 else 0)) in
      (year, month, n - preceding + 1)
    else (year, month, n - preceding + 1).

Definition digit (d : Z) : ascii := ascii_of_nat (48 + Z.to_nat (d mod 10)).

Definition two_digits (n : Z) : string :=
  String (digit (n / 10)) (String (digit n) EmptyString).

Definition four_digits (n : Z) : string :=
  String (digit (n / 1000)) (String (digit (n / 100)) (two_digits n)).

Definition strftime_ymd (n : Z) : string :=
  let '(y, m, d) := ord2ymd n in
  four_digits y +:+ "-" +:+ two_digits m +:+ "-" +:+ two_digits d.

End Calendar.

(** ** [app/llm.py]: the agent *)

(** The two [fuzzywuzzy] scorers the agent calls, [fuzz.ratio] and
    [fuzz.partial_ratio].  The library is not part of the repository:
    the agent is defined for any pair of scorers. *)
Record Fuzz : Type := mkFuzz {
  ratio : string -> string -> Z;
  partial_ratio : string -> string -> Z
}.

(** What the library documents about a scorer: a score lies between 0 and
    100 and two equal strings score 100. *)
Record FuzzLaws (fz : Fuzz) : Prop := mkFuzzLaws {
  ratio_range : forall a b, (0 <= ratio fz a b <= 100)%Z;
  ratio_same : forall a, a <> "" -> ratio fz a a = 100%Z;
  partial_range : forall a b, (0 <= partial_ratio fz a b <= 100)%Z;
  partial_same : forall a, a <> "" -> partial_ratio fz a a = 100%Z
}.

(** What one run of [_extract_booking_info] reads from outside: the local
    date and the rows of [DBClient().get_body_types()] (their names; no
    rows when the database cannot be reached). *)
Record env : Type := mkEnv {
  today : Z;
  db_bodies : list string
}.

Record message : Type := mkMessage {
  role : string;
  content : string
}.

Record LLMAgent : Type := mkAgent {
  api_key : option string;
  conversation_history : list message;
  booking_data : BookingData;
  vehicle_keywords : list (string * string);
  body_types : list (string * string)
}.

Definition with_booking (b : BookingData) (a : LLMAgent) : LLMAgent :=
  mkAgent (api_key a) (conversation_history a) b (vehicle_keywords a) (body_types a).

Definition with_history (h : list message) (a : LLMAgent) : LLMAgent :=
  mkAgent (api_key a) h (booking_data a) (vehicle_keywords a) (body_types a).

(** [d[k] = v] on a dictionary kept in insertion order. *)
Fixpoint dict_set (k v : string) (d : list (string * string)) : list (string * string) :=
  match d with
  | [] => [(k, v)]
  | (k', v') :: d' =>
      if String.eqb k k' then (k, v) :: d' else (k', v') :: dict_set k v d'
  end.

Definition default_vehicle_keywords : list (string * string) :=
  [ ("tata ace", "Tata Ace"); ("tata ac", "Tata Ace"); ("ace", "Tata Ace");
    ("dost", "Dost"); ("bada dost", "Bada Dost"); ("bolero", "Bolero");
    ("bolero pickup", "Bolero"); ("407", "407"); ("eicher", "Eicher");
    ("ashok leyland", "Ashok Leyland");
    ("12 feet", "12 Feet"); ("14 feet", "14 Feet"); ("17 feet", "17 Feet");
    ("19 feet", "19 Feet"); ("20 feet", "20 Feet"); ("22 feet", "22 Feet");
    ("24 feet", "24 Feet"); ("32 feet", "32 Feet Multi-Axle");
    ("32 feet multi-axle", "32 Feet Multi-Axle");
    ("32 feet multi axle", "32 Feet Multi-Axle");
    ("trailer", "Trailer"); ("20 feet trailer", "20 Feet Trailer");
    ("24 feet trailer", "24 Feet Trailer"); ("40 feet trailer", "40 Feet Trailer");
    ("low-bed", "Low-Bed Trailer"); ("low bed", "Low-Bed Trailer");
    ("semi-bed", "Semi-Bed Trailer"); ("semi bed", "Semi-Bed Trailer");
    ("high-bed", "High-Bed Trailer"); ("high bed", "High-Bed Trailer");
    ("6-wheel", "6-Wheel Truck"); ("6 wheel", "6-Wheel Truck");
    ("10-wheel", "10-Wheel Truck"); ("10 wheel", "10-Wheel Truck");
    ("12-wheel", "12-Wheel Truck"); ("12 wheel", "12-Wheel Truck");
    ("14-wheel", "14-Wheel Truck"); ("14 wheel", "14-Wheel Truck");
    ("16-wheel", "16-Wheel Truck"); ("16 wheel", "16-Wheel Truck");
    ("car-carrier", "Car-Carrier"); ("car carrier", "Car-Carrier");
    ("part-load", "Part-Load"); ("part load", "Part-Load") ].

Definition default_body_types : list (string * string) :=
  [ ("open", "Open"); ("container", "Container") ].

Definition add_truck (d : list (string * string)) (name : string) :=
  dict_set (Py.replace "-" " " (Py.lower name)) name
    (dict_set (Py.lower name) name d).

Definition add_body (d : list (string * string)) (name : string) :=
  dict_set (Py.lower name) name d.

Definition SYSTEM_PROMPT : string :=
  "You are DropTruck Sales Agent. Speak in short, clear 1–2 sentences. Never mention AI or rules. Listen fully and acknowledge before asking the next question.
Your job is to strictly collect the following fields in this exact order: customer_name → number_1 → pickup city → drop city → truck type → body type → material → required date.
Ask each field directly and do not move to the next field until the current one is answered. Do not skip or merge fields.
If the user gives extra or out-of-order information, store it silently but continue asking missing fields in order.
After all fields are collected, say: “Name [name], mobile [number], pickup [pickup], drop [drop], truck [truck], body [body], material [material], date [date]. Correct?”
Confirmation words: yes, yeah, yep, ok, okay, right, correct, sure, perfect, absolutely, exactly, done, confirmed.
After confirmation, say “Your booking is confirmed.” and then output BOOKING_CONFIRMED.
".

Definition system_turn : message := mkMessage "system" SYSTEM_PROMPT.

(** [LLMAgent.__init__]: [key] is the key after the fallback to the
    process environment, [db_trucks] and [db_body_rows] the names the
    catalogue returned (none when it cannot be reached). *)
Definition __init__ (key : option string) (db_trucks db_body_rows : list string)
    : LLMAgent :=
  mkAgent key
    (if Py.truthy key then [system_turn] else [])
    new_booking
    (fold_left add_truck db_trucks default_vehicle_keywords)
    (fold_left add_body db_body_rows default_body_types).

(** *** The patterns of [_extract_booking_info] *)

Module Pat.
Import Re.

Definition letter_or_blank (c : ascii) : bool :=      (* [a-zA-Z\s] *)
  Char.is_alpha c || Char.is_space c.
Definition alnum_or_blank (c : ascii) : bool :=       (* [a-zA-Z0-9\s] *)
  Char.is_alnum c || Char.is_space c.
Definition six_to_nine : ascii -> bool :=             (* [6-9] *)
  Char.between 54 57.
Definition blank_or_dash (c : ascii) : bool :=        (* [\s-] *)
  Char.is_space c || Ascii.eqb c "-".
Definition blank_or_colon (c : ascii) : bool :=       (* [\s:] *)
  Char.is_space c || Ascii.eqb c ":".

(** (?:\s+and|\s+my|\.|,|$) *)
Definition name_end : regex :=
  alt [Cat (plus sp) (Lit "and"); Cat (plus sp) (Lit "my"); Lit "."; Lit ","; Eol].

Definition name_patterns : list regex :=
  [ seq [alt [Lit "my name is"; Lit "i am"; Lit "this is"; Lit "name is"; Lit "i'm"];
         plus sp; Grp 1 (plus_lazy (Cls letter_or_blank)); name_end];
    seq [Lit "name"; plus sp; Grp 1 (plus_lazy (Cls letter_or_blank)); name_end] ].

(** [6-9]\d{9} *)
Definition ten_digits : regex := Cat (Cls six_to_nine) (times 9 dg).

(** \b([6-9]\d{9})\b *)
Definition plain_phone : regex := seq [Wordb; Grp 1 ten_digits; Wordb].

(** \b([6-9]\d[\s-]?\d{3}[\s-]?\d{5})\b *)
Definition grouped_phone : regex :=
  seq [Wordb;
       Grp 1 (seq [Cls six_to_nine; dg; opt (Cls blank_or_dash); times 3 dg;
                   opt (Cls blank_or_dash); times 5 dg]);
       Wordb].

(** (?:number|mobile|phone|contact)[\s:]+([6-9]\d{9}) *)
Definition keyword_phone : regex :=
  seq [alt [Lit "number"; Lit "mobile"; Lit "phone"; Lit "contact"];
       plus (Cls blank_or_colon); Grp 1 ten_digits].

Definition phone_patterns : list regex :=
  [plain_phone; grouped_phone; keyword_phone].

Definition from_to_pattern : regex :=
  seq [alt [Lit "from"; Lit "pickup"; Lit "trip from"]; plus sp;
       Grp 1 (plus_lazy (Cls letter_or_blank)); plus sp;
       alt [Lit "to"; Lit "drop"]; plus sp;
       Grp 2 (plus_lazy (Cls letter_or_blank));
       alt [sp; Lit ","; Eol; Lit "."; seq [Wordb; Lit "and"; Wordb]]].

Definition confirmation_pattern : regex :=
  seq [Lit "pickup"; plus sp; opt (Cat (Lit "in") (plus sp));
       Grp 1 (plus_lazy (Cls letter_or_blank)); Lit ","; star sp;
       Lit "drop"; plus sp; opt (Cat (Lit "in") (plus sp));
       Grp 2 (plus_lazy (Cls letter_or_blank));
       alt [Lit ","; Lit "truck"; Cat (plus sp) (Lit "truck"); Lit "."; Eol]].

Definition truck_type_pattern : regex :=
  seq [Lit "truck"; plus sp; opt (Cat (Lit "type") (plus sp));
       Grp 1 (plus_lazy (Cls alnum_or_blank));
       alt [Lit ","; Lit "body"; Cat (plus sp) (Lit "open");
            Cat (plus sp) (Lit "container"); Lit "."; Eol]].

Definition feet_pattern : regex :=
  seq [Grp 1 (plus dg); star sp; alt [Lit "feet"; Lit "ft"; Lit "foot"]].

(** (?:\s+from|\s+to|,|\.|$) *)
Definition material_end : regex :=
  alt [Cat (plus sp) (Lit "from"); Cat (plus sp) (Lit "to"); Lit ","; Lit "."; Eol].

Definition after_verb (verb : string) : regex :=
  seq [Lit verb; plus sp; Grp 1 (plus_lazy (Cls alnum_or_blank)); material_end].

Definition after_noun (noun : string) : regex :=
  seq [Lit noun; plus sp; opt (Cat (Lit "is") (plus sp));
       Grp 1 (plus_lazy (Cls alnum_or_blank)); material_end].

Definition material_patterns : list regex :=
  [ after_verb "carrying"; after_verb "transporting"; after_verb "moving";
    after_noun "material"; after_noun "goods"; after_noun "load" ].

Definition conf_material_pattern : regex :=
  seq [Lit "material"; plus sp; Grp 1 (plus_lazy (Cls alnum_or_blank));
       alt [Lit ","; Lit "date"; Lit "."; Eol]].

(** The patterns of [_extract_from_confirmation]. *)
Definition echo_name_pattern : regex :=
  seq [Lit "name"; plus sp; Grp 1 (plus_lazy (Cls letter_or_blank));
       alt [Lit ","; Cat (plus sp) (Lit "mobile")]].

Definition echo_phone_patterns : list regex :=
  [ seq [Lit "mobile"; plus sp; Grp 1 ten_digits];
    seq [Lit "mobile"; plus sp; Lit "("; Grp 1 (times 3 dg); Lit ")"; star sp;
         Grp 2 (times 3 dg); Lit "-"; Grp 3 (times 4 dg)];
    seq [Lit "number"; plus sp; Grp 1 ten_digits] ].

End Pat.

(** *** The text searches of [_extract_booking_info]

    Each extractor first reads the text, then guards its update on the
    record.  The readings are the functions below; they do not depend on
    the record. *)

Module Find.
Import Re Pat.

(** The first element of [l] on which [f] succeeds ([for ... break]). *)
Fixpoint first_some {A B : Type} (f : A -> option B) (l : list A) : option B :=
  match l with
  | [] => None
  | x :: l' =>
      match f x with
      | Some y => Some y
      | None => first_some f l'
      end
  end.

Definition stop_words : list string :=
  ["is"; "and"; "my"; "the"; "from"; "to"; "for"; "i"; "said"; "please";
   "you"; "your"].

Definition name_cities : list string :=
  ["chennai"; "bangalore"; "mumbai"; "delhi"; "pune"; "hyderabad"].

(** What a match of a name pattern yields after the stop-word filter. *)
Definition name_of (cs : caps) : option string :=
  let name := Py.title (Py.strip (group 1 cs)) in
  let name_parts :=
    List.filter (fun word => negb (Py.mem (Py.lower word) stop_words))
                (Py.split name) in
  match name_parts with
  | [] => None
  | _ =>
      if Nat.leb 2 (Py.len (Py.join " " name_parts)) then
        let clean_name := Py.join " " name_parts in
        if negb (Py.mem (Py.lower clean_name) name_cities)
        then Some clean_name else None
      else None
  end.

Definition name (text_lower : string) : option string :=
  first_some (fun pattern =>
                match search pattern text_lower with
                | Some cs => name_of cs
                | None => None
                end) name_patterns.

Definition word_to_num (word : string) : option string :=
  if String.eqb word "zero" then Some "0"
  else if String.eqb word "one" then Some "1"
  else if String.eqb word "two" then Some "2"
  else if String.eqb word "three" then Some "3"
  else if String.eqb word "four" then Some "4"
  else if String.eqb word "five" then Some "5"
  else if String.eqb word "six" then Some "6"
  else if String.eqb word "seven" then Some "7"
  else if String.eqb word "eight" then Some "8"
  else if String.eqb word "nine" then Some "9"
  else if String.eqb word "double" then Some ""
  else if String.eqb word "triple" then Some ""
  else None.

(** The [while] loop of [words_to_digits]: a ["double"] or ["triple"]
    followed by a known word emits that word's digit two or three times
    and passes over both words. *)
Fixpoint digits_of (words : list string) : string :=
  match words with
  | [] => ""
  | word :: after =>
      match word_to_num word with
      | None => digits_of after
      | Some digit =>
          match after with
          | next :: after' =>
              match word_to_num next with
              | Some d =>
                  if String.eqb word "double" then d +:+ d +:+ digits_of after'
                  else if String.eqb word "triple"
                       then d +:+ d +:+ d +:+ digits_of after'
                       else digit +:+ digits_of after
              | None => digit +:+ digits_of after
              end
          | [] => digit
          end
      end
  end.

Definition words_to_digits (text_str : string) : string :=
  digits_of (Py.split (Py.lower text_str)).

(** [spoken_number and len(spoken_number) == 10 and spoken_number[0] in '6789'] *)
Definition spoken_ok (spoken_number : string) : bool :=
  Nat.eqb (Py.len spoken_number) 10 &&
  match spoken_number with
  | String c _ => six_to_nine c
  | EmptyString => false
  end.

Definition strip_separators (s : string) : string :=
  Py.replace "-" "" (Py.replace " " "" s).

Definition written_phone (text : string) : option string :=
  first_some (fun pattern =>
                match search pattern text with
                | Some cs =>
                    let phone := strip_separators (group 1 cs) in
                    if Nat.eqb (Py.len phone) 10 then Some phone else None
                | None => None
                end) phone_patterns.

Definition phone (text : string) : option string :=
  let spoken_number := words_to_digits text in
  if spoken_ok spoken_number then Some spoken_number else written_phone text.

(** The captures of the "from X to Y" form, title-cased. *)
Definition from_to (text_lower : string) : option (string * string) :=
  match search from_to_pattern text_lower with
  | Some cs => Some (Py.title (Py.strip (group 1 cs)),
                     Py.title (Py.strip (group 2 cs)))
  | None => None
  end.

Definition strip_prefix (prefix s : string) : string :=
  if Py.startswith prefix (Py.lower s)
  then Py.title (Py.drop (Py.len prefix) s) else s.

(** The captures of the "pickup X, drop Y" form after the clean-up of
    leading "in ", "from " and "at ". *)
Definition echo (text_lower : string) : option (string * string) :=
  match search confirmation_pattern text_lower with
  | Some cs =>
      let clean s := fold_left (fun s prefix => strip_prefix prefix s)
                               ["in "; "from "; "at "] s in
      Some (clean (Py.title (Py.strip (group 1 cs))),
            clean (Py.title (Py.strip (group 2 cs))))
  | None => None
  end.

Definition truck_mentioned (text_lower : string) : option string :=
  match search truck_type_pattern text_lower with
  | Some cs => Some (Py.strip (group 1 cs))
  | None => None
  end.

Definition feet (text_lower : string) : option string :=
  match search feet_pattern text_lower with
  | Some cs => Some (group 1 cs)
  | None => None
  end.

Definition material (text_lower : string) : option string :=
  first_some (fun pattern =>
                match search pattern text_lower with
                | Some cs =>
                    let material :=
                      Py.replace " And " " and "
                        (Py.title (Py.strip (group 1 cs))) in
                    if Nat.ltb 2 (Py.len material) then Some material else None
                | None => None
                end) material_patterns.

Definition echo_material (text_lower : string) : option string :=
  match search conf_material_pattern text_lower with
  | Some cs =>
      let material := Py.title (Py.strip (group 1 cs)) in
      if Nat.ltb 2 (Py.len material) then Some material else None
  | None => None
  end.

End Find.

(** *** [_extract_booking_info], one extractor after the other *)

Section Extraction.

Variable fz : Fuzz.

Definition extract_name (text_lower : string) (b : BookingData) : BookingData :=
  if negb (Py.truthy (customer_name b)) then
    match Find.name text_lower with
    | Some clean_name => set_customer_name (Some clean_name) b
    | None => b
    end
  else b.

Definition extract_phone (text : string) (b : BookingData) : BookingData :=
  if negb (Py.truthy (contact b)) then
    match Find.phone text with
    | Some phone => set_contact (Some phone) b
    | None => b
    end
  else b.

(** [not field or len(new) > len(field or "")] *)
Definition empty_or_shorter (field : option string) (new : string) : bool :=
  negb (Py.truthy field) || Nat.ltb (Py.len (Py.or_empty field)) (Py.len new).

Definition extract_from_to (text_lower : string) (b : BookingData) : BookingData :=
  match Find.from_to text_lower with
  | Some (pickup, drop) =>
      let b := if empty_or_shorter (pickup_location b) pickup
               then set_pickup_location (Some pickup) b else b in
      if empty_or_shorter (drop_location b) drop
      then set_drop_location (Some drop) b else b
  | None => b
  end.

(** [value and len(value) > 2] *)
Definition long_enough (s : string) : bool := Nat.ltb 2 (Py.len s).

Definition extract_echo (text_lower : string) (b : BookingData) : BookingData :=
  match Find.echo text_lower with
  | Some (pickup, drop) =>
      let b := if long_enough pickup
               then set_pickup_location (Some pickup) b else b in
      if long_enough drop then set_drop_location (Some drop) b else b
  | None => b
  end.

(** The local table of body types: the two defaults, then the rows the
    database returned for this call. *)
Definition local_body_types (e : env) : list (string * string) :=
  fold_left add_body (db_bodies e) default_body_types.

Definition extract_body (e : env) (text_lower : string) (b : BookingData)
    : BookingData :=
  match body_type b with
  | None =>
      match Find.first_some
              (fun kv => if Py.contains (fst kv) text_lower
                         then Some (snd kv) else None)
              (local_body_types e) with
      | Some name => set_body_type (Some name) b
      | None => b
      end
  | Some _ => b
  end.

(** The three locals of the fuzzy stage. *)
Record best : Type := mkBest {
  best_match : option string;
  best_score : Z;
  best_vehicle : option string
}.

(** The innermost loop, over the keyword table: a better score of at
    least 85 updates [best_score] and [best_match]. *)
Definition score_phrase (keywords : list (string * string)) (phrase : string)
    (st : best) : best :=
  fold_left
    (fun st kv =>
       let score := partial_ratio fz phrase (fst kv) in
       if Z.ltb (best_score st) score && Z.leb 85 score
       then mkBest (Some (fst kv)) score (best_vehicle st)
       else st)
    keywords st.

(** [range(a, b)] *)
Definition range (a b : nat) : list nat := seq a (b - a).

(** [" ".join(words[i:j])] *)
Definition phrase_of (words : list string) (i j : nat) : string :=
  Py.join " " (firstn (j - i) (skipn i words)).

Definition skipped (phrase : string) : bool :=
  Nat.ltb (Py.len phrase) 3 && negb (Py.mem phrase ["ac"; "407"]).

Definition fuzzy_scan (keywords : list (string * string)) (text_lower : string)
    : best :=
  let words := Py.split text_lower in
  fold_left
    (fun st i =>
       fold_left
         (fun st j =>
            let phrase := phrase_of words i j in
            if skipped phrase then st else score_phrase keywords phrase st)
         (range (i + 1) (Nat.min (i + 5) (length words + 1))) st)
    (range 0 (length words))
    (mkBest None 0 None).

Definition extract_vehicle_fuzzy (keywords : list (string * string))
    (text_lower : string) (b : BookingData) : BookingData :=
  if negb (Py.truthy (vehicle_type b)) then
    let st := fuzzy_scan keywords text_lower in
    if Py.truthy (best_vehicle st) && Z.leb 85 (best_score st)
    then set_vehicle_type (best_vehicle st) b
    else b
  else b.

(** The keyword loop of the "truck [type] X" stage: score and canonical
    name of the best keyword so far. *)
Definition best_keyword (keywords : list (string * string)) (mention : string)
    : Z * option string :=
  fold_left
    (fun st kv =>
       let score := ratio fz (Py.lower mention) (fst kv) in
       if Z.ltb (fst st) score && Z.leb 65 score
       then (score, Some (snd kv))
       else st)
    keywords (0%Z, None).

Definition extract_vehicle_truck (keywords : list (string * string))
    (text_lower : string) (b : BookingData) : BookingData :=
  match Find.truck_mentioned text_lower with
  | Some truck_mentioned =>
      let best_vehicle := snd (best_keyword keywords truck_mentioned) in
      if Py.truthy best_vehicle then set_vehicle_type best_vehicle b else b
  | None => b
  end.

Definition extract_vehicle_fallback (text_lower : string) (b : BookingData)
    : BookingData :=
  if negb (Py.truthy (vehicle_type b)) then
    match Find.feet text_lower with
    | Some feet => set_vehicle_type (Some (feet +:+ " Feet")) b
    | None =>
        if Py.contains "truck" text_lower
        then set_vehicle_type (Some "Truck") b
        else b
    end
  else b.

Definition extract_goods (text_lower : string) (b : BookingData) : BookingData :=
  if negb (Py.truthy (goods_type b)) then
    match Find.material text_lower with
    | Some material => set_goods_type (Some material) b
    | None => b
    end
  else b.

Definition extract_echo_goods (text_lower : string) (b : BookingData)
    : BookingData :=
  if negb (Py.truthy (goods_type b)) then
    match Find.echo_material text_lower with
    | Some material => set_goods_type (Some material) b
    | None => b
    end
  else b.

Definition extract_trip_date (e : env) (text_lower : string) (b : BookingData)
    : BookingData :=
  if negb (Py.truthy (trip_date b)) then
    if Py.contains "today" text_lower || Py.contains "now" text_lower then
      set_trip_date (Some (Calendar.strftime_ymd (today e))) b
    else if Py.contains "tomorrow" text_lower then
      set_trip_date (Some (Calendar.strftime_ymd (today e + 1))) b
    else if Py.contains "day after tomorrow" text_lower
            || Py.contains "overmorrow" text_lower then
      set_trip_date (Some (Calendar.strftime_ymd (today e + 2))) b
    else b
  else b.

(** The extractors on the record, in the order of the source. *)
Definition extract_all (keywords : list (string * string)) (e : env)
    (text : string) (b : BookingData) : BookingData :=
  let text_lower := Py.lower text in
  let b := extract_name text_lower b in
  let b := extract_phone text b in
  let b := extract_from_to text_lower b in
  let b := extract_echo text_lower b in
  let b := extract_body e text_lower b in
  let b := extract_vehicle_fuzzy keywords text_lower b in
  let b := extract_vehicle_truck keywords text_lower b in
  let b := extract_vehicle_fallback text_lower b in
  let b := extract_goods text_lower b in
  let b := extract_echo_goods text_lower b in
  extract_trip_date e text_lower b.

Definition _extract_booking_info (e : env) (text : string) (a : LLMAgent)
    : LLMAgent :=
  with_booking (extract_all (vehicle_keywords a) e text (booking_data a)) a.

End Extraction.

(** *** [_extract_from_confirmation] *)

Definition echo_cities : list string :=
  ["chennai"; "bangalore"; "mumbai"; "delhi"; "pune"; "hyderabad"; "goa"; "kolkata"].

Definition find_echo_name (text_lower : string) : option string :=
  match Re.search Pat.echo_name_pattern text_lower with
  | Some cs =>
      let name := Py.title (Py.strip (Re.group 1 cs)) in
      if negb (Py.mem (Py.lower name) echo_cities) then Some name else None
  | None => None
  end.

(** [match.group(1)] for a pattern with one group, the groups joined
    otherwise. *)
Definition echo_phone_of (n_groups : nat) (cs : Re.caps) : string :=
  match n_groups with
  | 1 => Re.group 1 cs
  | _ => Re.group 1 cs +:+ Re.group 2 cs +:+ Re.group 3 cs
  end.

Definition find_echo_phone (text_lower : string) : option string :=
  Find.first_some
    (fun p : nat * Re.regex =>
       match Re.search (snd p) text_lower with
       | Some cs =>
           let phone := echo_phone_of (fst p) cs in
           if Nat.eqb (Py.len phone) 10 then Some phone else None
       | None => None
       end)
    (combine [1; 3; 1] Pat.echo_phone_patterns).

Definition _extract_from_confirmation (text : string) (a : LLMAgent) : LLMAgent :=
  let text_lower := Py.lower text in
  let b := booking_data a in
  let b := if negb (Py.truthy (customer_name b)) then
             match find_echo_name text_lower with
             | Some name => set_customer_name (Some name) b
             | None => b
             end
           else b in
  let b := if negb (Py.truthy (contact b)) then
             match find_echo_phone text_lower with
             | Some phone => set_contact (Some phone) b
             | None => b
             end
           else b in
  with_booking b a.

(** *** [_detect_confirmation] *)

Definition confirmation_keywords : list string :=
  ["yes"; "yeah"; "yep"; "ok"; "okay"; "correct"; "right"; "sure";
   "fine"; "perfect"; "that's right"; "confirmed"; "done";
   "absolutely"; "exactly"].

Definition rejection_keywords : list string :=
  ["no"; "not interested"; "cancel"; "don't want"; "not now"].

(** [any(keyword in text_lower for keyword in keywords)] *)
Definition any_keyword (keywords : list string) (text_lower : string) : bool :=
  existsb (fun keyword => Py.contains keyword text_lower) keywords.

Definition detect (text : string) (b : BookingData) : BookingData :=
  let text_lower := Py.lower text in
  let b := if any_keyword confirmation_keywords text_lower then
             if String.eqb (confirmation_status b) "pending"
             then set_confirmation_status "confirmed" b else b
           else b in
  if any_keyword rejection_keywords text_lower then
    if String.eqb (confirmation_status b) "pending"
    then set_confirmation_status "not_interested" b else b
  else b.

Definition _detect_confirmation (text : string) (a : LLMAgent) : LLMAgent :=
  with_booking (detect text (booking_data a)) a.

Definition check_booking_confirmed_marker (response_text : string) : bool :=
  Py.contains "BOOKING_CONFIRMED" response_text.

(** *** [_get_recent_messages] *)

Definition is_system (msg : message) : bool := String.eqb (role msg) "system".

Definition _get_recent_messages (max_exchanges : nat) (a : LLMAgent) : list message :=
  let system_messages := List.filter is_system (conversation_history a) in
  let other_messages :=
    List.filter (fun msg => negb (is_system msg)) (conversation_history a) in
  let recent_other := Py.last_items (max_exchanges * 2) other_messages in
  system_messages ++ recent_other.

(** *** [generate_response] *)

(** What one call reads from outside: the clock and the catalogue at each
    of its two extraction runs, and the completion service, which answers
    the messages it is sent with a text or fails ([None], the exception
    the call catches). *)
Record turn : Type := mkTurn {
  at_input : env;
  llm : list message -> option string;
  at_reply : env
}.

Definition reprompt : string := "I didn't catch that. Could you please repeat?".
Definition trouble : string :=
  "I'm having trouble processing that right now. Could you try again?".

Definition append_message (r c : string) (a : LLMAgent) : LLMAgent :=
  with_history (conversation_history a ++ [mkMessage r c]) a.

Section Turn.

Variable fz : Fuzz.

Definition generate_response (t : turn) (user_text : string) (a : LLMAgent)
    : LLMAgent * string :=
  if String.eqb user_text "" || String.eqb (Py.strip user_text) "" then
    (a, reprompt)
  else
    let a := _extract_booking_info fz (at_input t) user_text a in
    let a := _detect_confirmation user_text a in
    if negb (Py.truthy (api_key a)) then
      (a, "[Echo Mode] You said: " +:+ user_text)
    else
      let a := append_message "user" user_text a in
      let recent_messages := _get_recent_messages 10 a in
      match llm t recent_messages with
      | Some response_text =>
          let a := _extract_booking_info fz (at_reply t) response_text a in
          let a := _extract_from_confirmation response_text a in
          let a := if check_booking_confirmed_marker response_text
                   then with_booking
                          (set_confirmation_status "confirmed" (booking_data a)) a
                   else a in
          let a := append_message "assistant" response_text a in
          (a, response_text)
      | None => (a, trouble)
      end.

(** The window the call sends to the completion service, when it sends
    one. *)
Definition window_sent (t : turn) (user_text : string) (a : LLMAgent)
    : option (list message) :=
  if String.eqb user_text "" || String.eqb (Py.strip user_text) "" then None
  else
    let a := _extract_booking_info fz (at_input t) user_text a in
    let a := _detect_confirmation user_text a in
    if negb (Py.truthy (api_key a)) then None
    else Some (_get_recent_messages 10 (append_message "user" user_text a)).

(** A conversation: the calls of [generate_response] one after the
    other, each with its own surroundings and input. *)
Fixpoint converse (calls : list (turn * string)) (a : LLMAgent) : LLMAgent :=
  match calls with
  | [] => a
  | (t, user_text) :: calls' => converse calls' (fst (generate_response t user_text a))
  end.

End Turn.

(** *** [is_call_complete], the accessors and [get_conversation_summary] *)

Definition closing_phrases : list string :=
  ["have a great day"; "have a good day"; "thank you for your time";
   "goodbye"; "bye"; "our sales person will contact you soon";
   "you can contact droptruck anytime"].

(** The loop over the reversed history: the content of the last
    [assistant] turn, lower-cased. *)
Definition last_assistant_message (h : list message) : option string :=
  Find.first_some
    (fun msg => if String.eqb (role msg) "assistant"
                then Some (Py.lower (content msg)) else None)
    (rev h).

Definition is_call_complete (a : LLMAgent) : bool :=
  match conversation_history a with
  | [] => false
  | _ =>
      let last_message := last_assistant_message (conversation_history a) in
      if negb (Py.truthy last_message) then false
      else if Py.contains "booking_confirmed" (Py.or_empty last_message) then true
      else any_keyword closing_phrases (Py.or_empty last_message)
  end.

Definition get_booking_data (a : LLMAgent) : BookingData := booking_data a.

Definition is_booking_complete (a : LLMAgent) : bool :=
  is_complete (booking_data a).

(** [str(n)] for a length. *)
Definition str_of_len (n : nat) : string :=
  NilZero.string_of_uint (Nat.to_uint n).

(** [[msg for msg in self.conversation_history if msg["role"] == r]] *)
Definition messages_of (r : string) (a : LLMAgent) : list message :=
  List.filter (fun msg => String.eqb (role msg) r) (conversation_history a).

Definition get_conversation_summary (a : LLMAgent) : string :=
  let user_messages := messages_of "user" a in
  let assistant_messages := messages_of "assistant" a in
  "Conversation: " +:+ str_of_len (length user_messages) +:+ " user messages, "
  +:+ str_of_len (length assistant_messages) +:+ " assistant messages".

(** ** [core/api_client.py]: the booking request

    [send_booking] takes a dictionary; its values are taken to be [None]
    or strings, as [to_dict] produces them.  The catalogue database and
    the HTTP service are outside: the look-ups and the answer to the
    request are arguments. *)

(** A value of the request: [None], a string, or an identifier of the
    catalogue. *)
Inductive payload_value : Type :=
| PNone
| PStr (s : string)
| PId (n : Z).

(** The catalogue as [send_booking] sees it: whether [DBClient()] can be
    set up, and the two look-ups, which answer an identifier, answer
    [None] (the inner [None]), or raise (the outer [None]). *)
Record catalogue : Type := mkCatalogue {
  db_up : bool;
  get_truck_type_id : string -> option (option Z);
  get_body_type_id : string -> option (option Z)
}.

(** [booking_data.get(key)] *)
Definition dict_value (booking_data : gmap string (option string)) (key : string)
    : option string :=
  match booking_data !! key with
  | Some v => v
  | None => None
  end.

(** The inner [try]: the identifiers at the moment it is left, normally
    or by an exception. *)
Definition fetch_ids (db : catalogue) (booking_data : gmap string (option string))
    : option Z * option Z :=
  if negb (db_up db) then (None, None)
  else
    match (if Py.truthy (dict_value booking_data "vehicle_type")
           then get_truck_type_id db (Py.or_empty (dict_value booking_data "vehicle_type"))
           else Some None) with
    | None => (None, None)
    | Some truck_type_id =>
        match (if Py.truthy (dict_value booking_data "body_type")
               then get_body_type_id db (Py.or_empty (dict_value booking_data "body_type"))
               else Some None) with
        | None => (truck_type_id, None)
        | Some body_type_id => (truck_type_id, body_type_id)
        end
    end.

(** [booking_data.get(key, "")] *)
Definition get_or_empty (booking_data : gmap string (option string)) (key : string)
    : payload_value :=
  match booking_data !! key with
  | Some (Some s) => PStr s
  | Some None => PNone
  | None => PStr ""
  end.

(** [id if id else value] *)
Definition id_or (id : option Z) (value : payload_value) : payload_value :=
  match id with
  | Some n => if Z.eqb n 0 then value else PId n
  | None => value
  end.

Definition payload (db : catalogue) (booking_data : gmap string (option string))
    : list (string * payload_value) :=
  let ids := fetch_ids db booking_data in
  [ ("name", get_or_empty booking_data "customer_name");
    ("contact", get_or_empty booking_data "contact");
    ("pickup_location", get_or_empty booking_data "pickup_location");
    ("drop_location", get_or_empty booking_data "drop_location");
    ("truck_type", id_or (fst ids) (get_or_empty booking_data "vehicle_type"));
    ("body_type", id_or (snd ids) (get_or_empty booking_data "body_type"));
    ("material", get_or_empty booking_data "goods_type");
    ("required_date", get_or_empty booking_data "trip_date") ].

(** What [requests.post] does: it raises, or answers with a status code
    and a body that [response.json()] can decode or not. *)
Inductive post_result : Type :=
| ConnectionError
| Timeout
| OtherError
| Response (status_code : Z) (json_body : bool).

Definition send_booking (db : catalogue)
    (post : list (string * payload_value) -> post_result)
    (booking_data : gmap string (option string)) : bool :=
  match post (payload db booking_data) with
  | Response status_code json_body =>
      if Z.eqb status_code 200 || Z.eqb status_code 201
      then json_body
      else false
  | ConnectionError | Timeout | OtherError => false
  end.

(** ** Sample surroundings

    A scorer that meets [FuzzLaws] (equal strings score 100, all others
    0), a clock reading and a completion service, used where a statement
    is instantiated on concrete input. *)

Definition exact_score (a b : string) : Z :=
  if String.eqb a b then 100%Z else 0%Z.

Definition exact_fuzz : Fuzz := mkFuzz exact_score exact_score.

(** 1 January 2024, catalogue unreachable. *)
Definition new_year : env := mkEnv 738886 [].

Definition silent_turn : turn := mkTurn new_year (fun _ => None) new_year.

Definition answering (reply : string) : turn :=
  mkTurn new_year (fun _ => Some reply) new_year.

(** ** Vocabulary of the statements *)

(** The nine optional fields of the record, by name. *)
Inductive field : Type :=
| FName | FContact | FLead | FPickup | FDrop | FVehicle | FBody | FGoods | FDate.

Definition get (f : field) (b : BookingData) : option string :=
  match f with
  | FName => customer_name b
  | FContact => contact b
  | FLead => lead_source b
  | FPickup => pickup_location b
  | FDrop => drop_location b
  | FVehicle => vehicle_type b
  | FBody => body_type b
  | FGoods => goods_type b
  | FDate => trip_date b
  end.

(** [b'] differs from [b] at most in the fields [fs]. *)
Definition differs_in (fs : list field) (b b' : BookingData) : Prop :=
  (forall f, f ∉ fs -> get f b' = get f b) /\
  confirmation_status b' = confirmation_status b /\
  shadowed b' = shadowed b.

(** Every character of the text is blank. *)
Fixpoint all_blank (s : string) : bool :=
  match s with
  | EmptyString => true
  | String c t => Char.is_space c && all_blank t
  end.

(** The confirmation state has left [pending]. *)
Definition settled (b : BookingData) : Prop :=
  confirmation_status b = "confirmed" \/ confirmation_status b = "not_interested".

Definition status_of (a : LLMAgent) : string :=
  confirmation_status (booking_data a).

Definition user_turn (text : string) : message := mkMessage "user" text.

(** The number of [system] turns of a history. *)
Definition system_turns (h : list message) : nat :=
  length (List.filter is_system h).

(** Every character of [s] is in the class [p]. *)
Fixpoint all_chars (p : ascii -> bool) (s : string) : bool :=
  match s with
  | EmptyString => true
  | String c t => p c && all_chars p t
  end.


(** The reply of this call carries the marker [BOOKING_CONFIRMED]. *)
Definition marked_reply (fz : Fuzz) (t : turn) (user_text : string) (a : LLMAgent)
    : bool :=
  match window_sent fz t user_text a with
  | Some window =>
      match llm t window with
      | Some response_text => check_booking_confirmed_marker response_text
      | None => false
      end
  | None => false
  end.

(** The shape of the history of an agent that holds a key: the system
    turn, then turns of other roles. *)
Definition keyed (a : LLMAgent) : Prop :=
  Py.truthy (api_key a) = true /\
  exists rest,
    conversation_history a = system_turn :: rest /\
    forallb (fun m => negb (is_system m)) rest = true.

(** The shape without a key: no history at all. *)
Definition keyless (a : LLMAgent) : Prop :=
  Py.truthy (api_key a) = false /\ conversation_history a = [].

(** What the extraction leaves in [vehicle_type], [pickup_location] and
    [drop_location], as a function of the text and of the value the field
    had: the stages that write the field, in their order. *)
Definition vehicle_after (fz : Fuzz) (keywords : list (string * string))
    (text_lower : string) (v : option string) : option string :=
  let v :=
    match Find.truck_mentioned text_lower with
    | Some mention =>
        let found := snd (best_keyword fz keywords mention) in
        if Py.truthy found then found else v
    | None => v
    end in
  if negb (Py.truthy v) then
    match Find.feet text_lower with
    | Some feet => Some (feet +:+ " Feet")
    | None => if Py.contains "truck" text_lower then Some "Truck" else v
    end
  else v.

Definition pickup_after (text_lower : string) (p : option string) : option string :=
  let p :=
    match Find.from_to text_lower with
    | Some (pickup, _) => if empty_or_shorter p pickup then Some pickup else p
    | None => p
    end in
  match Find.echo text_lower with
  | Some (pickup, _) => if long_enough pickup then Some pickup else p
  | None => p
  end.

Definition drop_after (text_lower : string) (d : option string) : option string :=
  let d :=
    match Find.from_to text_lower with
    | Some (_, drop) => if empty_or_shorter d drop then Some drop else d
    | None => d
    end in
  match Find.echo text_lower with
  | Some (_, drop) => if long_enough drop then Some drop else d
  | None => d
  end.

(** The third end-to-end scenario of the specification. *)
Definition echo_utterance : string :=
  "Pickup in Chennai, drop in Bangalore, truck 32 feet multi-axle".

(** An agent whose record already names a vehicle. *)
Definition agent_with_truck : LLMAgent :=
  with_booking (set_vehicle_type (Some "Truck") new_booking) (__init__ None [] []).

(** The fields whose extractors are all guarded by the field being empty
    ([lead_source] has no extractor at all). *)
Definition write_once : list field :=
  [FName; FContact; FLead; FBody; FGoods; FDate].

(** The confirmation echo of a vehicle, as the system prompt words it. *)
Definition truck_echo : string := "truck tata ace, body open".

(** An agent whose record already holds a name and both locations. *)
Definition agent_with_route : LLMAgent :=
  with_booking
    (set_drop_location (Some "Bangalore")
       (set_pickup_location (Some "Chennai")
          (set_customer_name (Some "Ravi Kumar") new_booking)))
    (__init__ None [] []).

(** The last character of [s], or [c] when [s] is empty. *)
Fixpoint last_char (s : string) (c : option ascii) : option ascii :=
  match s with
  | EmptyString => c
  | String a t => last_char t (Some a)
  end.

(** The cursor once it has read [s], with [t] left. *)
Definition after (s t : string) (cu : Re.cursor) : Re.cursor :=
  Re.Cursor (last_char s (Re.before cu)) (Re.pos cu + Py.len s) t.






(** A spoken digit: the digit word alone, or after "double" or "triple". *)
Inductive spoken : Type :=
| Once (n : nat)
| Twice (n : nat)
| Thrice (n : nat).

Definition digit_words : list string :=
  ["zero"; "one"; "two"; "three"; "four"; "five"; "six"; "seven"; "eight"; "nine"].

Definition digit_word (n : nat) : string := nth n digit_words "zero".

Definition digit_numeral (n : nat) : string :=
  String (ascii_of_nat (48 + n)) EmptyString.

(** The digit a spoken digit names; a word past "nine" is not one. *)
Definition spoken_digit (t : spoken) : nat :=
  match t with
  | Once n | Twice n | Thrice n => n
  end.

(** The words of a spoken digit and the numerals it stands for. *)
Definition spoken_words (t : spoken) : list string :=
  match t with
  | Once n => [digit_word n]
  | Twice n => ["double"; digit_word n]
  | Thrice n => ["triple"; digit_word n]
  end.

Definition spoken_numerals (t : spoken) : string :=
  match t with
  | Once n => digit_numeral n
  | Twice n => digit_numeral n +:+ digit_numeral n
  | Thrice n => digit_numeral n +:+ digit_numeral n +:+ digit_numeral n
  end.

(** A word as [split] returns it: not empty, no blank in it. *)
Definition is_token (w : string) : bool :=
  negb (String.eqb w "") && all_chars (fun c => negb (Char.is_space c)) w.

(** No upper-case letter in the text. *)
Definition is_lowered (s : string) : bool :=
  all_chars (fun c => negb (Char.is_upper c)) s.

(** [b'] keeps or overwrites each field of [b], and overwrites a
    non-empty field with a non-empty string only. *)
Definition refines (b b' : BookingData) : Prop :=
  forall f,
    get f b' = get f b \/
    exists s, get f b' = Some s /\ (Py.truthy (get f b) = true -> s <> "").

(** The required fields, in the order of [REQUIRED_FIELDS], and their
    labels. *)
Definition required : list field := [FPickup; FDrop; FVehicle; FBody; FGoods; FDate].

Definition key_of (f : field) : string :=
  match f with
  | FName => "customer_name"
  | FContact => "contact"
  | FLead => "lead_source"
  | FPickup => "pickup_location"
  | FDrop => "drop_location"
  | FVehicle => "vehicle_type"
  | FBody => "body_type"
  | FGoods => "goods_type"
  | FDate => "trip_date"
  end.

Definition label_of (f : field) : string :=
  match List.find (fun kv => String.eqb (fst kv) (key_of f)) REQUIRED_FIELDS with
  | Some kv => snd kv
  | None => ""
  end.

Definition is_unset (v : option string) : bool :=
  match v with
  | None => true
  | Some _ => false
  end.

(** The field holds the empty string. *)
Definition holds_empty (v : option string) : bool :=
  match v with
  | Some s => String.eqb s ""
  | None => false
  end.

(** The reply [r] is one that ends the call. *)
Definition closes (r : string) : bool :=
  Py.contains "booking_confirmed" (Py.lower r)
  || any_keyword closing_phrases (Py.lower r).

(** What a call appends to the history. *)
Definition appended (fz : Fuzz) (t : turn) (user_text : string) (a : LLMAgent)
    : list message :=
  match window_sent fz t user_text a with
  | Some w =>
      user_turn user_text ::
      match llm t w with
      | Some response_text => [mkMessage "assistant" response_text]
      | None => []
      end
  | None => []
  end.
(** The number of turns of the role [r] in a list of messages. *)
Definition turns_of (r : string) (h : list message) : nat :=
  length (List.filter (fun msg => String.eqb (role msg) r) h).

(** [d.get(k)] on a dictionary kept in insertion order. *)
Fixpoint dict_get (k : string) (d : list (string * string)) : option string :=
  match d with
  | [] => None
  | (k', v) :: d' => if String.eqb k k' then Some v else dict_get k d'
  end.

(** The keys under which [__init__] files a catalogue truck: its name in
    lower case, and that with blanks for hyphens. *)
Definition truck_key (k name : string) : bool :=
  String.eqb k (Py.lower name)
  || String.eqb k (Py.replace "-" " " (Py.lower name)).

(** The key under which a catalogue body type is filed. *)
Definition body_key (k name : string) : bool := String.eqb k (Py.lower name).

(** The last name of the catalogue filed under [k], the default entry
    when there is none. *)
Definition filed (is_key : string -> string -> bool) (k : string)
    (names : list string) (defaults : list (string * string)) : option string :=
  match last (List.filter (is_key k) names) with
  | Some name => Some name
  | None => dict_get k defaults
  end.

(** The three values of the confirmation state. *)
Definition known_status (s : string) : bool :=
  Py.mem s ["pending"; "confirmed"; "not_interested"].

(** A name is none, or not one of the six cities the name extractor
    lists. *)
Definition name_ok (v : option string) : bool :=
  match v with
  | Some n => negb (Py.mem (Py.lower n) Find.name_cities)
  | None => true
  end.
(** A word in lower case: one letter at least, nothing but the letters
    a to z. *)
Definition lower_word (w : string) : bool :=
  negb (String.eqb w "") && all_chars Char.is_lower w.
(** The utterance "from X to Y" in its six wordings. *)
Definition route_text (start x mid y : string) : string :=
  start +:+ " " +:+ x +:+ " " +:+ mid +:+ " " +:+ y.
(** The five ways of introducing one's name that the first name pattern
    knows. *)
Definition name_intros : list string :=
  ["my name is"; "i am"; "this is"; "name is"; "i'm"].
(** The three verbs after which the goods are named. *)
Definition goods_verbs : list string := ["carrying"; "transporting"; "moving"].
(** A field of the record as a value of the request. *)
Definition sent (v : option string) : payload_value :=
  match v with
  | Some s => PStr s
  | None => PNone
  end.

(** The entry of a key in a request. *)
Fixpoint entry (key : string) (p : list (string * payload_value))
    : option payload_value :=
  match p with
  | [] => None
  | (k, v) :: p' => if String.eqb key k then Some v else entry key p'
  end.

(** The identifier sent for a label: the one the catalogue answers, if
    the label is not empty and the answer is an identifier other than
    0. *)
Definition id_sent (lookup : string -> option (option Z)) (label : option string)
    : option Z :=
  if Py.truthy label then
    match lookup (Py.or_empty label) with
    | Some (Some n) => if Z.eqb n 0 then None else Some n
    | _ => None
    end
  else None.

(** The look-up raised. *)
Definition raised (answer : option (option Z)) : bool :=
  match answer with
  | None => true
  | Some _ => false
  end.

(** * Properties *)

(** ** Text *)

Lemma startswith_app p s : Py.startswith p (p +:+ s) = true.
Proof.
  induction p as [|a p IH]; simpl; [done|].
  by rewrite Ascii.eqb_refl, IH.
Qed.

Lemma startswith_split p s :
  Py.startswith p s = true -> exists t, s = p +:+ t.
Proof.
  revert s; induction p as [|a p IH]; intros s H; simpl in *.
  - by exists s.
  - destruct s as [|b s]; [done|].
    apply andb_true_iff in H as [Hab Hps].
    apply Ascii.eqb_eq in Hab as ->.
    destruct (IH _ Hps) as [t ->]. by exists t.
Qed.

Lemma contains_app pre needle post :
  Py.contains needle (pre +:+ needle +:+ post) = true.
Proof.
  induction pre as [|c pre IH].
  - simpl. destruct (needle +:+ post) eqn:E; simpl;
      rewrite <- ?E, startswith_app; done.
  - change (String c pre +:+ needle +:+ post)
      with (String c (pre +:+ needle +:+ post)).
    simpl. rewrite IH. apply orb_true_r.
Qed.

Lemma contains_split needle hay :
  Py.contains needle hay = true ->
  exists pre post, hay = pre +:+ needle +:+ post.
Proof.
  induction hay as [|c hay IH]; simpl; intros H.
  - apply orb_true_iff in H as [H|H]; [|done].
    apply startswith_split in H as [t ->]. by exists "", t.
  - apply orb_true_iff in H as [H|H].
    + apply startswith_split in H as [t ->]. by exists "", t.
    + destruct (IH H) as (pre & post & ->). by exists (String c pre), post.
Qed.

Lemma append_assoc (a b c : string) : (a +:+ b) +:+ c = a +:+ b +:+ c.
Proof. induction a as [|x a IH]; simpl; [done|by rewrite IH]. Qed.

Lemma append_nil (a : string) : a +:+ "" = a.
Proof. induction a as [|x a IH]; simpl; [done|by rewrite IH]. Qed.

(** A text that contains a phrase contains every tail of the phrase. *)
Lemma contains_tail front back hay :
  Py.contains (front +:+ back) hay = true -> Py.contains back hay = true.
Proof.
  intros H. apply contains_split in H as (pre & post & ->).
  rewrite append_assoc, <- (append_assoc pre front).
  apply contains_app.
Qed.

Lemma lstrip_blank s : all_blank s = true -> Py.lstrip s = "".
Proof.
  induction s as [|c s IH]; simpl; [done|].
  intros [Hc Hs]%andb_true_iff. rewrite Hc. auto.
Qed.

Lemma blank_lstrip s : Py.lstrip s = "" -> all_blank s = true.
Proof.
  induction s as [|c s IH]; simpl; [done|].
  destruct (Char.is_space c); simpl; [auto|done].
Qed.

Lemma lstrip_head s :
  Py.lstrip s = "" \/
  exists c t, Py.lstrip s = String c t /\ Char.is_space c = false.
Proof.
  induction s as [|c s IH]; simpl; [by left|].
  destruct (Char.is_space c) eqn:E; [done|]. right. by exists c, s.
Qed.

Lemma rstrip_head c t : Char.is_space c = false -> Py.rstrip (String c t) <> "".
Proof. intros H. simpl. rewrite H. by destruct (Py.rstrip t). Qed.

(** [strip] leaves nothing exactly of the texts made of blanks. *)
Lemma strip_empty s : Py.strip s = "" <-> all_blank s = true.
Proof.
  unfold Py.strip. split.
  - intros H. apply blank_lstrip.
    destruct (lstrip_head s) as [E|(c & t & E & Hc)]; [done|].
    rewrite E in H. by apply rstrip_head in H.
  - intros H. by rewrite lstrip_blank.
Qed.

Lemma to_lower_space c : Char.is_space (Char.to_lower c) = Char.is_space c.
Proof.
  destruct c as [[] [] [] [] [] [] [] []]; reflexivity.
Qed.

Lemma all_blank_lower s : all_blank (Py.lower s) = all_blank s.
Proof.
  induction s as [|c s IH]; simpl; [done|]. by rewrite to_lower_space, IH.
Qed.

(** A text made of blanks contains no phrase that starts with a visible
    character. *)
Lemma blank_contains kw s :
  all_blank s = true ->
  match kw with
  | String c _ => Char.is_space c = false
  | EmptyString => False
  end ->
  Py.contains kw s = false.
Proof.
  destruct kw as [|a kw]; [done|]. intros Hs Ha.
  induction s as [|c s IH]; simpl; [done|].
  simpl in Hs. apply andb_true_iff in Hs as [Hc Hs].
  rewrite (IH Hs), orb_false_r.
  destruct (Ascii.eqb_spec a c) as [->|]; [congruence|done].
Qed.

Lemma blank_any_keyword kws s :
  forallb (fun kw => match kw with
                     | String c _ => negb (Char.is_space c)
                     | EmptyString => false
                     end) kws = true ->
  all_blank s = true ->
  any_keyword kws (Py.lower s) = false.
Proof.
  intros Hk Hs. unfold any_keyword.
  induction kws as [|kw kws IH]; simpl in *; [done|].
  apply andb_true_iff in Hk as [Hkw Hk]. rewrite (IH Hk), orb_false_r.
  apply blank_contains; [by rewrite all_blank_lower|].
  destruct kw; [done|]. by apply negb_true_iff.
Qed.

(** ** The record *)






(** ** The turn driver *)



(** ** What each extractor may change *)

Lemma differs_in_refl fs b : differs_in fs b b.
Proof. by repeat split. Qed.

Lemma differs_in_trans fs b1 b2 b3 :
  differs_in fs b1 b2 -> differs_in fs b2 b3 -> differs_in fs b1 b3.
Proof.
  intros (H1 & S1 & M1) (H2 & S2 & M2). repeat split; try congruence.
  intros f Hf. by rewrite H2, H1.
Qed.

Lemma differs_in_weaken fs fs' b b' :
  fs ⊆ fs' -> differs_in fs b b' -> differs_in fs' b b'.
Proof. intros Hsub (H & S & M). repeat split; auto. Qed.

Ltac frame :=
  repeat case_match;
  (split; [intros [] Hf; simpl; try reflexivity;
           exfalso; apply Hf; repeat constructor
          | split; reflexivity]).

Lemma extract_name_frame t b : differs_in [FName] b (extract_name t b).
Proof. unfold extract_name. frame. Qed.

Lemma extract_phone_frame t b : differs_in [FContact] b (extract_phone t b).
Proof. unfold extract_phone. frame. Qed.

Lemma extract_from_to_frame t b :
  differs_in [FPickup; FDrop] b (extract_from_to t b).
Proof. unfold extract_from_to. frame. Qed.

Lemma extract_echo_frame t b : differs_in [FPickup; FDrop] b (extract_echo t b).
Proof. unfold extract_echo. frame. Qed.

Lemma extract_body_frame e t b : differs_in [FBody] b (extract_body e t b).
Proof. unfold extract_body. frame. Qed.

Lemma extract_vehicle_fuzzy_frame fz kw t b :
  differs_in [FVehicle] b (extract_vehicle_fuzzy fz kw t b).
Proof. unfold extract_vehicle_fuzzy. frame. Qed.

Lemma extract_vehicle_truck_frame fz kw t b :
  differs_in [FVehicle] b (extract_vehicle_truck fz kw t b).
Proof. unfold extract_vehicle_truck. frame. Qed.

Lemma extract_vehicle_fallback_frame t b :
  differs_in [FVehicle] b (extract_vehicle_fallback t b).
Proof. unfold extract_vehicle_fallback. frame. Qed.

Lemma extract_goods_frame t b : differs_in [FGoods] b (extract_goods t b).
Proof. unfold extract_goods. frame. Qed.

Lemma extract_echo_goods_frame t b :
  differs_in [FGoods] b (extract_echo_goods t b).
Proof. unfold extract_echo_goods. frame. Qed.

Lemma extract_trip_date_frame e t b :
  differs_in [FDate] b (extract_trip_date e t b).
Proof. unfold extract_trip_date. frame. Qed.

Create HintDb frames.
#[local] Hint Resolve extract_name_frame extract_phone_frame
  extract_from_to_frame extract_echo_frame extract_body_frame
  extract_vehicle_fuzzy_frame extract_vehicle_truck_frame
  extract_vehicle_fallback_frame extract_goods_frame
  extract_echo_goods_frame extract_trip_date_frame : frames.

(** A field that a step cannot change reads the same after it. *)
Lemma frame_get fs f b b' : differs_in fs b b' -> f ∉ fs -> get f b' = get f b.
Proof. intros (H & _) Hf. auto. Qed.

Ltac not_in := by (intros Hin; repeat (apply elem_of_cons in Hin as [Hin|Hin]; [done|]);
                   by apply elem_of_nil in Hin).

Ltac sub_list :=
  let x := fresh in let Hx := fresh in
  intros x Hx;
  repeat (apply elem_of_cons in Hx as [->|Hx]; [repeat constructor|]);
  by apply elem_of_nil in Hx.

Lemma booking_after fz e text a :
  booking_data (_extract_booking_info fz e text a)
  = extract_all fz (vehicle_keywords a) e text (booking_data a).
Proof. reflexivity. Qed.

(** The whole extraction never touches [lead_source], the confirmation
    state or the attributes stored under method names. *)
Lemma extract_all_frame fz kw e text b :
  differs_in [FName; FContact; FPickup; FDrop; FBody; FVehicle; FGoods; FDate]
    b (extract_all fz kw e text b).
Proof.
  unfold extract_all.
  repeat (eapply differs_in_trans;
          [|eapply differs_in_weaken; [|eauto with frames]; sub_list]).
  apply differs_in_refl.
Qed.

Lemma extract_status fz e text a :
  status_of (_extract_booking_info fz e text a) = status_of a.
Proof.
  unfold status_of, _extract_booking_info. simpl.
  by destruct (extract_all_frame fz (vehicle_keywords a) e text (booking_data a))
    as (_ & -> & _).
Qed.

Lemma echo_extract_status text a :
  status_of (_extract_from_confirmation text a) = status_of a.
Proof.
  unfold status_of, _extract_from_confirmation. simpl.
  repeat case_match; reflexivity.
Qed.

(** ** The confirmation state *)

Lemma detect_status_only text b1 b2 :
  confirmation_status b1 = confirmation_status b2 ->
  confirmation_status (detect text b1) = confirmation_status (detect text b2).
Proof.
  intros H. unfold detect.
  repeat case_match; simpl in *; congruence.
Qed.

Lemma detect_confirms text b :
  confirmation_status b = "pending" ->
  any_keyword confirmation_keywords (Py.lower text) = true ->
  confirmation_status (detect text b) = "confirmed".
Proof.
  intros Hp Hc. unfold detect. rewrite Hc, Hp.
  by destruct (any_keyword rejection_keywords (Py.lower text)).
Qed.

Lemma detect_rejects text b :
  confirmation_status b = "pending" ->
  any_keyword confirmation_keywords (Py.lower text) = false ->
  any_keyword rejection_keywords (Py.lower text) = true ->
  confirmation_status (detect text b) = "not_interested".
Proof.
  intros Hp Hc Hr. unfold detect. by rewrite Hc, Hr, Hp.
Qed.

Lemma detect_settled text b :
  settled b -> confirmation_status (detect text b) = confirmation_status b.
Proof.
  intros Hs. unfold detect.
  destruct Hs as [H|H]; rewrite H;
    destruct (any_keyword confirmation_keywords (Py.lower text));
    destruct (any_keyword rejection_keywords (Py.lower text));
    simpl; rewrite ?H; done.
Qed.

Lemma keywords_visible :
  forallb (fun kw => match kw with
                     | String c _ => negb (Char.is_space c)
                     | EmptyString => false
                     end) (confirmation_keywords ++ rejection_keywords) = true.
Proof. reflexivity. Qed.

(** A text with a keyword in it is not blank. *)
Lemma keyword_not_blank text :
  any_keyword (confirmation_keywords ++ rejection_keywords) (Py.lower text) = true ->
  all_blank text = false.
Proof.
  intros H. destruct (all_blank text) eqn:E; [|done].
  by rewrite (blank_any_keyword _ _ keywords_visible E) in H.
Qed.

Lemma any_keyword_app ks1 ks2 s :
  any_keyword (ks1 ++ ks2) s = any_keyword ks1 s || any_keyword ks2 s.
Proof. unfold any_keyword. apply existsb_app. Qed.

Lemma status_append r c a : status_of (append_message r c a) = status_of a.
Proof. reflexivity. Qed.

(** The state after a call on a text that is not blank: the outcome of
    the keyword detection, unless the reply carries the marker. *)
Lemma generate_status fz t text a :
  all_blank text = false ->
  status_of (fst (generate_response fz t text a)) =
  if marked_reply fz t text a then "confirmed"
  else confirmation_status (detect text (booking_data a)).
Proof.
  intros Hb.
  assert (Hs : String.eqb text "" || String.eqb (Py.strip text) "" = false).
  { apply orb_false_iff. split.
    - destruct text; [done|reflexivity].
    - destruct (String.eqb_spec (Py.strip text) ""); [|done].
      apply strip_empty in e. congruence. }
  assert (Hd : status_of (_detect_confirmation text
                 (_extract_booking_info fz (at_input t) text a))
               = confirmation_status (detect text (booking_data a))).
  { unfold status_of at 1. simpl. apply detect_status_only.
    apply (extract_status fz (at_input t) text a). }
  unfold marked_reply, window_sent, generate_response. rewrite Hs.
  cbv zeta.
  destruct (negb (Py.truthy (api_key _))); [exact Hd|].
  destruct (llm t _) as [reply|]; cbn [fst]; [|exact Hd].
  destruct (check_booking_confirmed_marker reply); [done|].
  rewrite status_append, echo_extract_status, extract_status, status_append.
  exact Hd.
Qed.

Lemma confirm_not_blank text :
  any_keyword confirmation_keywords (Py.lower text) = true -> all_blank text = false.
Proof.
  intros H. apply keyword_not_blank. by rewrite any_keyword_app, H.
Qed.

Lemma reject_not_blank text :
  any_keyword rejection_keywords (Py.lower text) = true -> all_blank text = false.
Proof.
  intros H. apply keyword_not_blank. by rewrite any_keyword_app, H, orb_true_r.
Qed.

(** C2, as the code has it.  From [pending], an utterance that contains a
    confirmation keyword and a rejection keyword ends the keyword
    detection, and the whole call, in [confirmed]: the rejection check
    runs second but is guarded by the state still being [pending]. *)
Theorem confirmation_precedes_rejection (fz : Fuzz) (t : turn) (text : string)
    (a : LLMAgent) :
  status_of a = "pending" ->
  any_keyword confirmation_keywords (Py.lower text) = true ->
  any_keyword rejection_keywords (Py.lower text) = true ->
  status_of (_detect_confirmation text a) = "confirmed" /\
  status_of (fst (generate_response fz t text a)) = "confirmed".
Proof.
  intros Hp Hc _. split.
  - by apply detect_confirms.
  - rewrite generate_status by by apply confirm_not_blank.
    destruct (marked_reply fz t text a); [done|]. by apply detect_confirms.
Qed.

Lemma confirmation_precedes_rejection_witness :
  status_of (_detect_confirmation "Yes, cancel it" (__init__ None [] []))
    = "confirmed" /\
  status_of (fst (generate_response exact_fuzz silent_turn "Yes, cancel it"
                    (__init__ None [] []))) = "confirmed".
Proof.
  apply (confirmation_precedes_rejection exact_fuzz silent_turn "Yes, cancel it");
    reflexivity.
Defined.

(** The claim of C2 fails on the utterance "Yes, cancel it": it contains
    "yes" and "cancel", the state is [pending], and the detection ends in
    [confirmed], not in [not_interested]. *)
Lemma rejection_does_not_override :
  any_keyword confirmation_keywords (Py.lower "Yes, cancel it") = true /\
  any_keyword rejection_keywords (Py.lower "Yes, cancel it") = true /\
  confirmation_status new_booking = "pending" /\
  confirmation_status (detect "Yes, cancel it" new_booking) = "confirmed" /\
  String.eqb (confirmation_status (detect "Yes, cancel it" new_booking))
             "not_interested" = false.
Proof. repeat split; reflexivity. Qed.

Lemma blank_input_settled fz t text a :
  all_blank text = true -> fst (generate_response fz t text a) = a.
Proof.
  intros H%strip_empty. unfold generate_response. by rewrite H, orb_true_r.
Qed.

Lemma generate_settled fz t text a :
  settled (booking_data a) ->
  settled (booking_data (fst (generate_response fz t text a))).
Proof.
  intros Hs. destruct (all_blank text) eqn:Hb.
  - by rewrite blank_input_settled.
  - unfold settled. fold (status_of (fst (generate_response fz t text a))).
    rewrite generate_status by done.
    destruct (marked_reply fz t text a); [by left|].
    rewrite detect_settled by done. exact Hs.
Qed.

(** C7. Once the confirmation state is [confirmed] or [not_interested],
    no sequence of calls brings it back to [pending]; from [pending], an
    utterance with a confirmation keyword and no rejection keyword gives
    [confirmed] and one with a rejection keyword and no confirmation
    keyword gives [not_interested], at the keyword detection and at the
    end of the call (there, for a rejection, unless the reply carries the
    marker, which confirms). *)
Theorem confirmation_monotone (fz : Fuzz) :
  (forall calls a,
     settled (booking_data a) -> settled (booking_data (converse fz calls a))) /\
  (forall t text a,
     status_of a = "pending" ->
     any_keyword confirmation_keywords (Py.lower text) = true ->
     any_keyword rejection_keywords (Py.lower text) = false ->
     status_of (_detect_confirmation text a) = "confirmed" /\
     status_of (fst (generate_response fz t text a)) = "confirmed") /\
  (forall t text a,
     status_of a = "pending" ->
     any_keyword confirmation_keywords (Py.lower text) = false ->
     any_keyword rejection_keywords (Py.lower text) = true ->
     status_of (_detect_confirmation text a) = "not_interested" /\
     (marked_reply fz t text a = false ->
      status_of (fst (generate_response fz t text a)) = "not_interested")).
Proof.
  split; [|split].
  - induction calls as [|[t text] calls IH]; intros a Hs; simpl; [done|].
    apply IH. by apply generate_settled.
  - intros t text a Hp Hc _. split; [by apply detect_confirms|].
    rewrite generate_status by by apply confirm_not_blank.
    destruct (marked_reply fz t text a); [done|]. by apply detect_confirms.
  - intros t text a Hp Hc Hr. split; [by apply detect_rejects|].
    intros Hm. rewrite generate_status by by apply reject_not_blank.
    rewrite Hm. by apply detect_rejects.
Qed.

Lemma confirmation_monotone_witness :
  settled (booking_data
             (converse exact_fuzz [(silent_turn, "hello again")]
                (_detect_confirmation "cancel" (__init__ None [] [])))) /\
  status_of (_detect_confirmation "yes that's correct" (__init__ None [] []))
    = "confirmed" /\
  status_of (_detect_confirmation "I'm not interested" (__init__ None [] []))
    = "not_interested".
Proof.
  split; [|split].
  - apply (proj1 (confirmation_monotone exact_fuzz)). right. reflexivity.
  - apply (proj1 (proj2 (confirmation_monotone exact_fuzz)) silent_turn);
      reflexivity.
  - apply (proj2 (proj2 (confirmation_monotone exact_fuzz)) silent_turn);
      reflexivity.
Defined.

(** ** The history and its window *)

Lemma filter_system_others rest :
  forallb (fun m => negb (is_system m)) rest = true ->
  List.filter is_system rest = [] /\
  List.filter (fun m => negb (is_system m)) rest = rest.
Proof.
  induction rest as [|m rest IH]; simpl; [done|].
  intros [Hm Hr]%andb_true_iff. destruct (IH Hr) as [-> ->].
  rewrite Hm. by destruct (is_system m).
Qed.

Lemma keyed_append r c a :
  String.eqb r "system" = false -> keyed a -> keyed (append_message r c a).
Proof.
  intros Hr [Hk (rest & Hh & Hrest)]. split; [done|].
  exists (rest ++ [mkMessage r c])%list. simpl. rewrite Hh. split; [done|].
  rewrite forallb_app, Hrest. simpl. unfold is_system. simpl. by rewrite Hr.
Qed.

Lemma keyed_booking b a : keyed a -> keyed (with_booking b a).
Proof. intros H. exact H. Qed.

Lemma generate_keyed fz t text a :
  keyed a -> keyed (fst (generate_response fz t text a)).
Proof.
  intros Hk. unfold generate_response.
  destruct (_ || _); [done|]. cbv zeta.
  destruct (negb _); [apply keyed_booking, keyed_booking; exact Hk|].
  destruct (llm t _) as [reply|]; cbn [fst].
  - apply keyed_append; [reflexivity|].
    assert (keyed (_extract_from_confirmation reply
                     (_extract_booking_info fz (at_reply t) reply
                        (append_message "user" text
                           (_detect_confirmation text
                              (_extract_booking_info fz (at_input t) text a)))))).
    { apply keyed_booking, keyed_booking. apply keyed_append; [reflexivity|].
      apply keyed_booking, keyed_booking. exact Hk. }
    destruct (check_booking_confirmed_marker reply);
      [apply keyed_booking|]; assumption.
  - apply keyed_append; [reflexivity|]. apply keyed_booking, keyed_booking.
    exact Hk.
Qed.

Lemma generate_keyless fz t text a :
  keyless a ->
  keyless (fst (generate_response fz t text a)) /\ window_sent fz t text a = None.
Proof.
  intros [Hk Hh]. unfold generate_response, window_sent.
  destruct (_ || _); [done|]. cbv zeta.
  change (api_key (_detect_confirmation text
            (_extract_booking_info fz (at_input t) text a))) with (api_key a).
  by rewrite Hk.
Qed.

Lemma converse_keyed fz calls a : keyed a -> keyed (converse fz calls a).
Proof.
  revert a. induction calls as [|[t text] calls IH]; intros a Hk; simpl; [done|].
  apply IH. by apply generate_keyed.
Qed.

Lemma converse_keyless fz calls a : keyless a -> keyless (converse fz calls a).
Proof.
  revert a. induction calls as [|[t text] calls IH]; intros a Hk; simpl; [done|].
  apply IH. by apply generate_keyless.
Qed.

Lemma keyed_window a :
  keyed a ->
  exists rest,
    conversation_history a = system_turn :: rest /\
    system_turns (conversation_history a) = 1 /\
    _get_recent_messages 10 a = system_turn :: skipn (length rest - 20) rest.
Proof.
  intros [_ (rest & Hh & Hrest)]. exists rest. split; [done|].
  destruct (filter_system_others rest Hrest) as [Hs Ho].
  unfold system_turns, _get_recent_messages. rewrite Hh. simpl.
  by rewrite Hs, Ho.
Qed.

Lemma init_keyed key trucks bodies :
  Py.truthy key = true -> keyed (__init__ key trucks bodies).
Proof.
  intros H. split; [exact H|]. exists []. simpl. by rewrite H.
Qed.

Lemma init_keyless key trucks bodies :
  Py.truthy key = false -> keyless (__init__ key trucks bodies).
Proof. intros H. split; [exact H|]. simpl. by rewrite H. Qed.

Lemma window_sent_keyed fz t text a w :
  keyed a -> window_sent fz t text a = Some w ->
  exists rest,
    conversation_history a = system_turn :: rest /\
    w = system_turn ::
          skipn (length (rest ++ [user_turn text]) - 20) (rest ++ [user_turn text]).
Proof.
  intros Hk. unfold window_sent.
  destruct (_ || _); [done|]. cbv zeta. destruct (negb _); [done|].
  intros [= <-].
  set (b := _detect_confirmation text (_extract_booking_info fz (at_input t) text a)).
  assert (Hb : keyed (append_message "user" text b)).
  { apply keyed_append; [reflexivity|]. apply keyed_booking, keyed_booking.
    exact Hk. }
  destruct (keyed_window _ Hb) as (rest' & Hh' & _ & ->).
  destruct Hk as [_ (rest & Hh & _)]. exists rest. split; [exact Hh|].
  change (conversation_history (append_message "user" text b))
    with (conversation_history a ++ [user_turn text])%list in Hh'.
  rewrite Hh in Hh'. simpl in Hh'. by injection Hh' as <-.
Qed.

(** C8, as the code has it.  In every state a conversation reaches from
    an agent built with a key, the history is the system turn followed by
    turns of other roles, so it holds one system turn; the window is the
    system turn followed by the last 20 of the other turns, in their
    order, and so is every window a call sends to the completion service
    (there with the new user turn as the last one).  An agent built
    without a key never has a history and never sends a window. *)
Theorem window_keeps_system_turn (fz : Fuzz) (key : option string)
    (trucks bodies : list string) (calls : list (turn * string)) :
  let a := converse fz calls (__init__ key trucks bodies) in
  (Py.truthy key = true ->
   exists rest,
     conversation_history a = system_turn :: rest /\
     system_turns (conversation_history a) = 1 /\
     _get_recent_messages 10 a = system_turn :: skipn (length rest - 20) rest /\
     forall t text w,
       window_sent fz t text a = Some w ->
       w = system_turn ::
             skipn (length (rest ++ [user_turn text]) - 20)
                   (rest ++ [user_turn text])) /\
  (Py.truthy key = false ->
   conversation_history a = [] /\
   forall t text, window_sent fz t text a = None).
Proof.
  intros a. split; intros Hkey.
  - assert (Hk : keyed a) by by apply converse_keyed, init_keyed.
    destruct (keyed_window a Hk) as (rest & Hh & Hone & Hw).
    exists rest. repeat split; try assumption.
    intros t text w Hsent.
    destruct (window_sent_keyed fz t text a w Hk Hsent) as (rest' & Hh' & ->).
    rewrite Hh in Hh'. by injection Hh' as <-.
  - assert (Hk : keyless a) by by apply converse_keyless, init_keyless.
    split; [apply Hk|]. intros t text. by apply generate_keyless.
Qed.

Lemma window_keeps_system_turn_witness :
  system_turns
    (conversation_history
       (converse exact_fuzz
          [(answering "Which city is the pickup?", "hello");
           (silent_turn, "from Chennai to Bangalore")]
          (__init__ (Some "key") [] []))) = 1.
Proof.
  destruct (proj1 (window_keeps_system_turn exact_fuzz (Some "key") [] []
                     [(answering "Which city is the pickup?", "hello");
                      (silent_turn, "from Chennai to Bangalore")]) eq_refl)
    as (rest & _ & H & _).
  exact H.
Defined.

(** The claim of C8 fails for an agent built without a key: its history
    holds no system turn, at the start and after a call. *)
Lemma keyless_history_is_empty :
  system_turns (conversation_history (__init__ None [] [])) = 0 /\
  system_turns
    (conversation_history
       (converse exact_fuzz [(silent_turn, "hello")] (__init__ None [] []))) = 0.
Proof. split; reflexivity. Qed.

(** ** The trip date *)

(** Whoever says "day after tomorrow" says "tomorrow". *)
Lemma day_after_tomorrow_is_tomorrow text_lower :
  Py.contains "day after tomorrow" text_lower = true ->
  Py.contains "tomorrow" text_lower = true.
Proof. apply (contains_tail "day after " "tomorrow"). Qed.

(** The extractors before the last leave the trip date alone. *)
Lemma date_after_extraction fz kw e text b :
  trip_date (extract_all fz kw e text b) =
  trip_date (extract_trip_date e (Py.lower text) b).
Proof.
  unfold extract_all. cbv zeta.
  match goal with
  | |- trip_date (extract_trip_date _ _ ?b') = _ =>
      assert (H : differs_in [FName; FContact; FPickup; FDrop; FBody; FVehicle; FGoods]
                    b b')
  end.
  { repeat (eapply differs_in_trans;
            [|eapply differs_in_weaken; [|eauto with frames]; sub_list]).
    apply differs_in_refl. }
  pose proof (frame_get _ FDate _ _ H ltac:(not_in)) as Hd. simpl in Hd.
  unfold extract_trip_date. rewrite Hd.
  repeat case_match; simpl; auto.
Qed.

(** C1, what the code does.  On every utterance that contains "day
    after tomorrow", against a record with no trip date, the extraction
    stores the current date plus one day (the current date itself when
    the utterance also contains "today" or "now"), never plus two: the
    "tomorrow" branch comes first in the chain and takes every such
    utterance, so the branch that adds two days is reached by
    "overmorrow" only. *)
Theorem day_after_tomorrow_adds_one_day (fz : Fuzz) (e : env) (text : string)
    (a : LLMAgent) :
  Py.truthy (trip_date (booking_data a)) = false ->
  Py.contains "day after tomorrow" (Py.lower text) = true ->
  trip_date (booking_data (_extract_booking_info fz e text a))
  = Some (Calendar.strftime_ymd
            (today e + (if Py.contains "today" (Py.lower text)
                           || Py.contains "now" (Py.lower text)
                        then 0 else 1))).
Proof.
  intros Hd Hdat.
  rewrite booking_after, date_after_extraction. unfold extract_trip_date.
  rewrite Hd, (day_after_tomorrow_is_tomorrow _ Hdat). cbn [negb].
  destruct (_ || _); [|reflexivity]. by rewrite Z.add_0_r.
Qed.

Lemma day_after_tomorrow_adds_one_day_witness :
  trip_date (booking_data
               (_extract_booking_info exact_fuzz new_year
                  "The day after tomorrow" (__init__ None [] [])))
  = Some "2024-01-02" /\
  Calendar.strftime_ymd (today new_year + 2) = "2024-01-03".
Proof.
  split; [|reflexivity].
  apply (day_after_tomorrow_adds_one_day exact_fuzz new_year
           "The day after tomorrow" (__init__ None [] []));
    reflexivity.
Defined.

(** "overmorrow" alone does reach the branch that adds two days. *)
Lemma overmorrow_adds_two_days (fz : Fuzz) (e : env) (a : LLMAgent) :
  Py.truthy (trip_date (booking_data a)) = false ->
  trip_date (booking_data (_extract_booking_info fz e "overmorrow" a))
  = Some (Calendar.strftime_ymd (today e + 2)).
Proof.
  intros Hd. rewrite booking_after, date_after_extraction.
  unfold extract_trip_date. rewrite Hd. reflexivity.
Qed.

(** ** The vehicle type *)

Lemma fold_left_invariant {A B : Type} (P : A -> Prop) (f : A -> B -> A)
    (l : list B) (st : A) :
  P st -> (forall st x, P st -> P (f st x)) -> P (fold_left f l st).
Proof.
  intros H0 Hstep. revert st H0.
  induction l as [|x l IH]; simpl; auto.
Qed.

(** The keyword loop of the fuzzy stage never writes [best_vehicle]. *)
Lemma score_phrase_vehicle fz kw phrase st :
  best_vehicle (score_phrase fz kw phrase st) = best_vehicle st.
Proof.
  unfold score_phrase.
  apply (fold_left_invariant (fun st' => best_vehicle st' = best_vehicle st));
    [done|].
  intros st' kv H. by destruct (_ && _).
Qed.

Lemma fuzzy_scan_vehicle fz kw text_lower :
  best_vehicle (fuzzy_scan fz kw text_lower) = None.
Proof.
  unfold fuzzy_scan.
  apply (fold_left_invariant (fun st => best_vehicle st = None)); [done|].
  intros st i Hst.
  apply (fold_left_invariant (fun st => best_vehicle st = None)); [done|].
  intros st' j Hst'. destruct (skipped _); [done|].
  by rewrite score_phrase_vehicle.
Qed.

(** The fuzzy stage hands back the record it was given. *)
Lemma fuzzy_stage_inert fz kw text_lower b :
  extract_vehicle_fuzzy fz kw text_lower b = b.
Proof.
  unfold extract_vehicle_fuzzy. rewrite fuzzy_scan_vehicle. simpl.
  by destruct (negb _).
Qed.

(** C3, what the code does.  Whatever the scores, the scan of the fuzzy
    stage ends with no vehicle and the stage returns the record it was
    given: its loop updates [best_match] and [best_score] but never
    [best_vehicle], which the final test requires. *)
Theorem fuzzy_stage_sets_nothing (fz : Fuzz) (keywords : list (string * string))
    (text_lower : string) (b : BookingData) :
  best_vehicle (fuzzy_scan fz keywords text_lower) = None /\
  extract_vehicle_fuzzy fz keywords text_lower b = b.
Proof.
  split; [apply fuzzy_scan_vehicle|apply fuzzy_stage_inert].
Qed.

Lemma score_phrase_bounds fz kw phrase st :
  FuzzLaws fz ->
  (best_score st <= 100)%Z ->
  (best_score st <= best_score (score_phrase fz kw phrase st) <= 100)%Z.
Proof.
  intros L. unfold score_phrase. revert st.
  induction kw as [|kv kw IH]; intros st Hst; simpl; [lia|].
  pose proof (partial_range fz L phrase (fst kv)) as Hr.
  destruct (Z.ltb_spec (best_score st) (partial_ratio fz phrase (fst kv)));
    destruct (Z.leb_spec 85 (partial_ratio fz phrase (fst kv))); simpl;
    try (specialize (IH st Hst); lia).
  specialize (IH (mkBest (Some (fst kv)) (partial_ratio fz phrase (fst kv))
                    (best_vehicle st))).
  simpl in IH. lia.
Qed.

(** A phrase that is itself a keyword brings the best score to 100. *)
Lemma score_phrase_hit fz kw phrase st :
  FuzzLaws fz ->
  phrase <> "" ->
  In phrase (map fst kw) ->
  (best_score st <= 100)%Z ->
  best_score (score_phrase fz kw phrase st) = 100%Z.
Proof.
  intros L Hne. unfold score_phrase. revert st.
  induction kw as [|kv kw IH]; intros st Hin Hst; simpl in *; [done|].
  pose proof (partial_range fz L phrase (fst kv)) as Hr.
  destruct Hin as [<-|Hin].
  - rewrite (partial_same fz L _ Hne).
    destruct (Z.ltb_spec (best_score st) 100); simpl.
    + pose proof (score_phrase_bounds fz kw (fst kv)
                    (mkBest (Some (fst kv)) 100 (best_vehicle st)) L) as Hb.
      unfold score_phrase in Hb. simpl in Hb. lia.
    + pose proof (score_phrase_bounds fz kw (fst kv) st L) as Hb.
      unfold score_phrase in Hb. lia.
  - destruct (_ && _); apply IH; simpl; auto; lia.
Qed.


Ltac by_field f :=
  match f with
  | FName => change (customer_name ?x) with (get FName x)
  | FContact => change (contact ?x) with (get FContact x)
  | FPickup => change (pickup_location ?x) with (get FPickup x)
  | FDrop => change (drop_location ?x) with (get FDrop x)
  | FVehicle => change (vehicle_type ?x) with (get FVehicle x)
  | FBody => change (body_type ?x) with (get FBody x)
  | FGoods => change (goods_type ?x) with (get FGoods x)
  | FDate => change (trip_date ?x) with (get FDate x)
  end.

(** Rewrite away, under [get f], every extractor that cannot write [f]. *)
Ltac pass f :=
  repeat first
    [ rewrite (frame_get _ f _ _ (extract_name_frame _ _)) by not_in
    | rewrite (frame_get _ f _ _ (extract_phone_frame _ _)) by not_in
    | rewrite (frame_get _ f _ _ (extract_from_to_frame _ _)) by not_in
    | rewrite (frame_get _ f _ _ (extract_echo_frame _ _)) by not_in
    | rewrite (frame_get _ f _ _ (extract_body_frame _ _ _)) by not_in
    | rewrite (frame_get _ f _ _ (extract_vehicle_fuzzy_frame _ _ _ _)) by not_in
    | rewrite (frame_get _ f _ _ (extract_vehicle_truck_frame _ _ _ _)) by not_in
    | rewrite (frame_get _ f _ _ (extract_vehicle_fallback_frame _ _)) by not_in
    | rewrite (frame_get _ f _ _ (extract_goods_frame _ _)) by not_in
    | rewrite (frame_get _ f _ _ (extract_echo_goods_frame _ _)) by not_in
    | rewrite (frame_get _ f _ _ (extract_trip_date_frame _ _ _)) by not_in ].

Lemma vehicle_of_truck fz kw tl b :
  get FVehicle (extract_vehicle_truck fz kw tl b) =
  match Find.truck_mentioned tl with
  | Some mention =>
      let found := snd (best_keyword fz kw mention) in
      if Py.truthy found then found else get FVehicle b
  | None => get FVehicle b
  end.
Proof. unfold extract_vehicle_truck. by repeat case_match. Qed.

Lemma vehicle_of_fallback tl b :
  get FVehicle (extract_vehicle_fallback tl b) =
  if negb (Py.truthy (get FVehicle b)) then
    match Find.feet tl with
    | Some feet => Some (feet +:+ " Feet")
    | None => if Py.contains "truck" tl then Some "Truck" else get FVehicle b
    end
  else get FVehicle b.
Proof. unfold extract_vehicle_fallback. simpl. by repeat case_match. Qed.

Lemma vehicle_after_extraction fz kw e text b :
  vehicle_type (extract_all fz kw e text b)
  = vehicle_after fz kw (Py.lower text) (vehicle_type b).
Proof.
  unfold extract_all, vehicle_after. cbv zeta. by_field FVehicle.
  pass FVehicle. rewrite vehicle_of_fallback, vehicle_of_truck.
  rewrite fuzzy_stage_inert. pass FVehicle. reflexivity.
Qed.

Lemma locations_of_from_to tl b :
  get FPickup (extract_from_to tl b) =
    match Find.from_to tl with
    | Some (pickup, _) =>
        if empty_or_shorter (get FPickup b) pickup then Some pickup
        else get FPickup b
    | None => get FPickup b
    end /\
  get FDrop (extract_from_to tl b) =
    match Find.from_to tl with
    | Some (_, drop) =>
        if empty_or_shorter (get FDrop b) drop then Some drop else get FDrop b
    | None => get FDrop b
    end.
Proof.
  unfold extract_from_to.
  destruct (Find.from_to tl) as [[p d]|]; simpl; [|done].
  destruct (empty_or_shorter (pickup_location b) p); simpl;
    by destruct (empty_or_shorter (drop_location b) d).
Qed.

Lemma locations_of_echo tl b :
  get FPickup (extract_echo tl b) =
    match Find.echo tl with
    | Some (pickup, _) => if long_enough pickup then Some pickup else get FPickup b
    | None => get FPickup b
    end /\
  get FDrop (extract_echo tl b) =
    match Find.echo tl with
    | Some (_, drop) => if long_enough drop then Some drop else get FDrop b
    | None => get FDrop b
    end.
Proof.
  unfold extract_echo.
  destruct (Find.echo tl) as [[p d]|]; simpl; [|done].
  by destruct (long_enough p), (long_enough d).
Qed.

Lemma pickup_after_extraction fz kw e text b :
  pickup_location (extract_all fz kw e text b)
  = pickup_after (Py.lower text) (pickup_location b).
Proof.
  unfold extract_all, pickup_after. cbv zeta. by_field FPickup.
  pass FPickup. rewrite (proj1 (locations_of_echo _ _)).
  rewrite (proj1 (locations_of_from_to _ _)). pass FPickup. reflexivity.
Qed.

Lemma drop_after_extraction fz kw e text b :
  drop_location (extract_all fz kw e text b)
  = drop_after (Py.lower text) (drop_location b).
Proof.
  unfold extract_all, drop_after. cbv zeta. by_field FDrop.
  pass FDrop. rewrite (proj2 (locations_of_echo _ _)).
  rewrite (proj2 (locations_of_from_to _ _)). pass FDrop. reflexivity.
Qed.

(** On the utterance "tata ace" the premise of C3 holds for every scorer
    that meets the library's laws (the phrase "tata ace" is a keyword, so
    the best score is 100), and still the whole extraction leaves
    [vehicle_type] empty. *)
Lemma tata_ace_is_missed (fz : Fuzz) (e : env) :
  FuzzLaws fz ->
  best_score (fuzzy_scan fz default_vehicle_keywords "tata ace") = 100%Z /\
  vehicle_type (extract_all fz default_vehicle_keywords e "tata ace" new_booking)
  = None.
Proof.
  intros L. split.
  - change (fuzzy_scan fz default_vehicle_keywords "tata ace") with
      (score_phrase fz default_vehicle_keywords "ace"
         (score_phrase fz default_vehicle_keywords "tata ace"
            (score_phrase fz default_vehicle_keywords "tata" (mkBest None 0 None)))).
    set (s1 := score_phrase fz default_vehicle_keywords "tata" _).
    assert (H1 : (best_score s1 <= 100)%Z)
      by (apply (score_phrase_bounds fz _ _ (mkBest None 0 None) L); simpl; lia).
    apply score_phrase_hit; [done|done|simpl; auto 10|].
    apply score_phrase_bounds; [done|lia].
  - rewrite vehicle_after_extraction. reflexivity.
Qed.

(** ** The echo scenario *)

Lemma echo_utterance_reading :
  Find.from_to (Py.lower echo_utterance) = None /\
  Find.echo (Py.lower echo_utterance) = Some ("Chennai", "Bangalore") /\
  Find.truck_mentioned (Py.lower echo_utterance) = None /\
  Find.feet (Py.lower echo_utterance) = Some "32".
Proof. repeat split; vm_compute; reflexivity. Qed.




(** On a record with no vehicle the same utterance ends, through the
    feet fallback, in "32 Feet". *)
Lemma echo_scenario_empty_vehicle (fz : Fuzz) (e : env) (a : LLMAgent) :
  Py.truthy (vehicle_type (booking_data a)) = false ->
  vehicle_type (booking_data (_extract_booking_info fz e echo_utterance a))
  = Some "32 Feet".
Proof.
  destruct echo_utterance_reading as (_ & _ & Htruck & Hfeet).
  intros Hv. rewrite booking_after, vehicle_after_extraction.
  unfold vehicle_after. by rewrite Htruck, Hfeet, Hv.
Qed.

(** ** Fields that are already filled *)

Ltac keeps :=
  let Hf := fresh "Hf" in let Hv := fresh "Hv" in
  intros Hf Hv <-;
  match goal with
  | |- get ?f _ = _ =>
      destruct f; try (exfalso; revert Hf; unfold write_once; not_in)
  end;
  simpl in *; rewrite ?Hv; simpl; repeat case_match; simplify_eq; simpl;
  congruence.

Lemma extract_name_keeps f v t x :
  f ∈ write_once -> Py.truthy v = true -> get f x = v ->
  get f (extract_name t x) = v.
Proof. unfold extract_name. keeps. Qed.

Lemma extract_phone_keeps f v t x :
  f ∈ write_once -> Py.truthy v = true -> get f x = v ->
  get f (extract_phone t x) = v.
Proof. unfold extract_phone. keeps. Qed.

Lemma extract_from_to_keeps f v t x :
  f ∈ write_once -> Py.truthy v = true -> get f x = v ->
  get f (extract_from_to t x) = v.
Proof. unfold extract_from_to. keeps. Qed.

Lemma extract_echo_keeps f v t x :
  f ∈ write_once -> Py.truthy v = true -> get f x = v ->
  get f (extract_echo t x) = v.
Proof. unfold extract_echo. keeps. Qed.

Lemma extract_body_keeps f v e t x :
  f ∈ write_once -> Py.truthy v = true -> get f x = v ->
  get f (extract_body e t x) = v.
Proof. unfold extract_body. keeps. Qed.

Lemma extract_vehicle_fuzzy_keeps f v fz kw t x :
  f ∈ write_once -> Py.truthy v = true -> get f x = v ->
  get f (extract_vehicle_fuzzy fz kw t x) = v.
Proof. intros _ _. by rewrite fuzzy_stage_inert. Qed.

Lemma extract_vehicle_truck_keeps f v fz kw t x :
  f ∈ write_once -> Py.truthy v = true -> get f x = v ->
  get f (extract_vehicle_truck fz kw t x) = v.
Proof. unfold extract_vehicle_truck. keeps. Qed.

Lemma extract_vehicle_fallback_keeps f v t x :
  f ∈ write_once -> Py.truthy v = true -> get f x = v ->
  get f (extract_vehicle_fallback t x) = v.
Proof. unfold extract_vehicle_fallback. keeps. Qed.

Lemma extract_goods_keeps f v t x :
  f ∈ write_once -> Py.truthy v = true -> get f x = v ->
  get f (extract_goods t x) = v.
Proof. unfold extract_goods. keeps. Qed.

Lemma extract_echo_goods_keeps f v t x :
  f ∈ write_once -> Py.truthy v = true -> get f x = v ->
  get f (extract_echo_goods t x) = v.
Proof. unfold extract_echo_goods. keeps. Qed.

Lemma extract_trip_date_keeps f v e t x :
  f ∈ write_once -> Py.truthy v = true -> get f x = v ->
  get f (extract_trip_date e t x) = v.
Proof. unfold extract_trip_date. keeps. Qed.

(** The whole extraction leaves a filled write-once field as it is. *)
Lemma extract_all_keeps f fz kw e text b :
  f ∈ write_once -> Py.truthy (get f b) = true ->
  get f (extract_all fz kw e text b) = get f b.
Proof.
  intros Hf Hv. unfold extract_all. cbv zeta.
  apply extract_trip_date_keeps; [done..|].
  apply extract_echo_goods_keeps; [done..|].
  apply extract_goods_keeps; [done..|].
  apply extract_vehicle_fallback_keeps; [done..|].
  apply extract_vehicle_truck_keeps; [done..|].
  apply extract_vehicle_fuzzy_keeps; [done..|].
  apply extract_body_keeps; [done..|].
  apply extract_echo_keeps; [done..|].
  apply extract_from_to_keeps; [done..|].
  apply extract_phone_keeps; [done..|].
  by apply extract_name_keeps.
Qed.

Lemma echo_extract_keeps text a :
  (Py.truthy (customer_name (booking_data a)) = true ->
   customer_name (booking_data (_extract_from_confirmation text a))
   = customer_name (booking_data a)) /\
  (Py.truthy (contact (booking_data a)) = true ->
   contact (booking_data (_extract_from_confirmation text a))
   = contact (booking_data a)).
Proof.
  unfold _extract_from_confirmation. cbn [booking_data with_booking].
  split; intros H; rewrite ?H; simpl;
    repeat case_match; simpl in *; rewrite ?H in *; simplify_eq; reflexivity.
Qed.

(** What the keyword loop of the "truck [type]" stage ends with is the
    canonical name of a keyword that scored at least 65. *)
Lemma best_keyword_found fz kw mention v :
  snd (best_keyword fz kw mention) = Some v ->
  exists keyword,
    In (keyword, v) kw /\ (65 <= ratio fz (Py.lower mention) keyword)%Z.
Proof.
  unfold best_keyword.
  set (P := fun st : Z * option string =>
              forall v, snd st = Some v ->
              exists keyword,
                In (keyword, v) kw /\ (65 <= ratio fz (Py.lower mention) keyword)%Z).
  assert (H : forall l st, (forall x, In x l -> In x kw) -> P st ->
                P (fold_left
                     (fun st kv =>
                        let score := ratio fz (Py.lower mention) (fst kv) in
                        if Z.ltb (fst st) score && Z.leb 65 score
                        then (score, Some (snd kv)) else st) l st)).
  { induction l as [|kv l IH]; intros st Hl Hst; simpl; [done|].
    apply IH; [intros x Hx; apply Hl; by right|].
    destruct (Z.ltb _ _); simpl; [|done].
    destruct (Z.leb_spec 65 (ratio fz (Py.lower mention) (fst kv))); [|done].
    intros v' [= <-]. exists (fst kv). split; [|done].
    apply Hl. left. by destruct kv. }
  intros Hv. by apply (H kw (0%Z, None)).
Qed.

(** When the first keyword of the table is the mention itself, the loop
    ends with that keyword's canonical name. *)
Lemma best_keyword_first fz keyword name kw mention :
  FuzzLaws fz ->
  keyword <> "" ->
  Py.lower mention = keyword ->
  best_keyword fz ((keyword, name) :: kw) mention = (100%Z, Some name).
Proof.
  intros L Hne Hm. unfold best_keyword. simpl.
  rewrite Hm, (ratio_same fz L keyword Hne). simpl.
  induction kw as [|kv kw IH]; simpl; [done|].
  pose proof (ratio_range fz L keyword (fst kv)) as Hr.
  destruct (Z.ltb_spec 100 (ratio fz keyword (fst kv))); [lia|]. exact IH.
Qed.

Lemma exact_fuzz_laws : FuzzLaws exact_fuzz.
Proof.
  split; simpl; unfold exact_score; intros.
  - destruct (String.eqb a b); lia.
  - by rewrite String.eqb_refl.
  - destruct (String.eqb a b); lia.
  - by rewrite String.eqb_refl.
Qed.

(** C5, as the code has it.  Against a record in which a field is
    already filled, one run of the extraction leaves the name, the
    contact, the lead source, the body type, the goods and the trip date
    as they are; it changes a location only to the capture of the echo
    form (of more than two characters) or to a strictly longer capture of
    the from/to form; and it changes the vehicle type only through the
    "truck [type]" stage, to the canonical name of a keyword that scores
    at least 65 against the mention.  The echo form always overwrites: a
    capture of more than two characters is the location after the run. *)
Theorem filled_fields_kept (fz : Fuzz) (e : env) (text : string) (a : LLMAgent) :
  let b := booking_data a in
  let b' := booking_data (_extract_booking_info fz e text a) in
  let text_lower := Py.lower text in
  (forall f, f ∈ write_once -> Py.truthy (get f b) = true -> get f b' = get f b) /\
  (Py.truthy (pickup_location b) = true ->
   pickup_location b' = pickup_location b \/
   (exists pickup drop,
      Find.echo text_lower = Some (pickup, drop) /\
      long_enough pickup = true /\ pickup_location b' = Some pickup) \/
   (exists pickup drop,
      Find.from_to text_lower = Some (pickup, drop) /\
      (Py.len (Py.or_empty (pickup_location b)) < Py.len pickup)%nat /\
      pickup_location b' = Some pickup)) /\
  (Py.truthy (drop_location b) = true ->
   drop_location b' = drop_location b \/
   (exists pickup drop,
      Find.echo text_lower = Some (pickup, drop) /\
      long_enough drop = true /\ drop_location b' = Some drop) \/
   (exists pickup drop,
      Find.from_to text_lower = Some (pickup, drop) /\
      (Py.len (Py.or_empty (drop_location b)) < Py.len drop)%nat /\
      drop_location b' = Some drop)) /\
  (Py.truthy (vehicle_type b) = true ->
   vehicle_type b' = vehicle_type b \/
   exists mention keyword name,
     Find.truck_mentioned text_lower = Some mention /\
     In (keyword, name) (vehicle_keywords a) /\
     (65 <= ratio fz (Py.lower mention) keyword)%Z /\
     vehicle_type b' = Some name) /\
  (forall pickup drop,
     Find.echo text_lower = Some (pickup, drop) ->
     (long_enough pickup = true -> pickup_location b' = Some pickup) /\
     (long_enough drop = true -> drop_location b' = Some drop)).
Proof.
  cbv zeta. rewrite booking_after. repeat split;
    try (intros Hlong; rewrite ?pickup_after_extraction, ?drop_after_extraction;
         unfold pickup_after, drop_after;
         match goal with H : Find.echo _ = _ |- _ => rewrite H end;
         by rewrite Hlong).
  - intros f Hf Hv. by apply extract_all_keeps.
  - intros Hv. rewrite pickup_after_extraction. unfold pickup_after.
    destruct (Find.echo (Py.lower text)) as [[p d]|] eqn:Hecho.
    + destruct (long_enough p) eqn:Hp; [right; left; by exists p, d|].
      destruct (Find.from_to (Py.lower text)) as [[p' d']|]; [|by left].
      unfold empty_or_shorter. rewrite Hv. simpl.
      destruct (Nat.ltb_spec (Py.len (Py.or_empty (pickup_location (booking_data a))))
                  (Py.len p')); [|by left].
      right; right. by exists p', d'.
    + destruct (Find.from_to (Py.lower text)) as [[p' d']|]; [|by left].
      unfold empty_or_shorter. rewrite Hv. simpl.
      destruct (Nat.ltb_spec (Py.len (Py.or_empty (pickup_location (booking_data a))))
                  (Py.len p')); [|by left].
      right; right. by exists p', d'.
  - intros Hv. rewrite drop_after_extraction. unfold drop_after.
    destruct (Find.echo (Py.lower text)) as [[p d]|] eqn:Hecho.
    + destruct (long_enough d) eqn:Hd; [right; left; by exists p, d|].
      destruct (Find.from_to (Py.lower text)) as [[p' d']|]; [|by left].
      unfold empty_or_shorter. rewrite Hv. simpl.
      destruct (Nat.ltb_spec (Py.len (Py.or_empty (drop_location (booking_data a))))
                  (Py.len d')); [|by left].
      right; right. by exists p', d'.
    + destruct (Find.from_to (Py.lower text)) as [[p' d']|]; [|by left].
      unfold empty_or_shorter. rewrite Hv. simpl.
      destruct (Nat.ltb_spec (Py.len (Py.or_empty (drop_location (booking_data a))))
                  (Py.len d')); [|by left].
      right; right. by exists p', d'.
  - intros Hv. rewrite vehicle_after_extraction. unfold vehicle_after.
    destruct (Find.truck_mentioned (Py.lower text)) as [m|]; cbv zeta;
      [|rewrite Hv; by left].
    destruct (Py.truthy (snd (best_keyword fz (vehicle_keywords a) m))) eqn:Hf;
      [|rewrite Hv; by left].
    rewrite Hf. simpl.
    destruct (snd (best_keyword fz (vehicle_keywords a) m)) as [v|] eqn:Hb;
      [|done].
    destruct (best_keyword_found _ _ _ _ Hb) as (keyword & Hin & Hscore).
    right. by exists m, keyword, v.
Qed.

Lemma filled_fields_kept_witness :
  customer_name
    (booking_data
       (_extract_booking_info exact_fuzz new_year "my name is Sita" agent_with_route))
  = Some "Ravi Kumar".
Proof.
  apply (proj1 (filled_fields_kept exact_fuzz new_year "my name is Sita"
                  agent_with_route) FName).
  - apply list_elem_of_here.
  - reflexivity.
Defined.

(** The claim of C5 fails for the vehicle type: on the confirmation echo
    "truck tata ace, body open" the record that held "Truck" ends with
    "Tata Ace", for every scorer that meets the library's laws (and there
    is one). *)
Lemma truck_echo_overwrites_vehicle :
  vehicle_type (booking_data agent_with_truck) = Some "Truck" /\
  FuzzLaws exact_fuzz /\
  (forall fz e,
     FuzzLaws fz ->
     vehicle_type
       (booking_data (_extract_booking_info fz e truck_echo agent_with_truck))
     = Some "Tata Ace").
Proof.
  split; [reflexivity|]. split; [exact exact_fuzz_laws|].
  intros fz e L. rewrite booking_after, vehicle_after_extraction.
  unfold vehicle_after.
  replace (Find.truck_mentioned (Py.lower truck_echo)) with (Some "tata ace")
    by (vm_compute; reflexivity).
  change (vehicle_keywords agent_with_truck) with default_vehicle_keywords.
  unfold default_vehicle_keywords.
  rewrite (best_keyword_first fz "tata ace" "Tata Ace") by done.
  reflexivity.
Qed.

(** The two exceptions for the locations do occur: the echo form
    replaces a filled pair, and the from/to form replaces a location by a
    longer capture and keeps it against a shorter one. *)
Lemma location_overwrites :
  (forall fz e,
     let b' := booking_data
                 (_extract_booking_info fz e "Pickup Goa, drop Pune." agent_with_route) in
     pickup_location b' = Some "Goa" /\ drop_location b' = Some "Pune") /\
  (forall fz e,
     let b' := booking_data
                 (_extract_booking_info fz e "from Coimbatore to Goa" agent_with_route) in
     pickup_location b' = Some "Coimbatore" /\ drop_location b' = Some "Bangalore").
Proof.
  split; intros fz e; cbv zeta;
    rewrite booking_after, pickup_after_extraction, drop_after_extraction;
    split; vm_compute; reflexivity.
Qed.

(** ** The matcher on the constructs of the phone patterns *)

Lemma after_nothing cu : after "" (Re.rest cu) cu = cu.
Proof. destruct cu. unfold after. simpl. by rewrite Nat.add_0_r. Qed.

Lemma after_step c s t t' cu :
  after s t (Re.step c t' cu) = after (String c s) t cu.
Proof. unfold after, Re.step. simpl. f_equal. lia. Qed.




(** ** Character classes of the phone patterns *)

Ltac by_cases_on c := destruct c as [[] [] [] [] [] [] [] []]; try done.





(** ** The phone patterns on a written number *)






























Lemma scan_found r prev i s cs :
  Re.match_here r (Re.Cursor prev i s) = Some cs ->
  Re.scan r prev i s = Some cs.
Proof. intros H. destruct s; simpl; by rewrite H. Qed.


Lemma contact_of_phone t x :
  get FContact (extract_phone t x) =
  if negb (Py.truthy (get FContact x)) then
    match Find.phone t with
    | Some phone => Some phone
    | None => get FContact x
    end
  else get FContact x.
Proof. unfold extract_phone. simpl. by repeat case_match. Qed.

Lemma contact_after_extraction fz kw e text b :
  contact (extract_all fz kw e text b) =
  if negb (Py.truthy (contact b)) then
    match Find.phone text with
    | Some phone => Some phone
    | None => contact b
    end
  else contact b.
Proof.
  unfold extract_all. cbv zeta. by_field FContact. pass FContact.
  rewrite contact_of_phone. pass FContact. reflexivity.
Qed.




(** ** The end-to-end scenarios of the specification *)

Lemma name_of_extract t x :
  get FName (extract_name t x) =
  if negb (Py.truthy (get FName x)) then
    match Find.name t with
    | Some clean_name => Some clean_name
    | None => get FName x
    end
  else get FName x.
Proof. unfold extract_name. simpl. by repeat case_match. Qed.

Lemma name_after_extraction fz kw e text b :
  customer_name (extract_all fz kw e text b) =
  if negb (Py.truthy (customer_name b)) then
    match Find.name (Py.lower text) with
    | Some clean_name => Some clean_name
    | None => customer_name b
    end
  else customer_name b.
Proof.
  unfold extract_all. cbv zeta. by_field FName. pass FName.
  by rewrite name_of_extract.
Qed.

(** Scenario 1 of the specification: on a fresh agent, "my name is Ravi
    Kumar and I need a truck" gives the name "Ravi Kumar" and the vehicle type "Truck". *)
Theorem scenario_name_and_truck (fz : Fuzz) (e : env) (key : option string)
    (trucks bodies : list string) :
  let b' := booking_data
              (_extract_booking_info fz e "my name is Ravi Kumar and I need a truck"
                 (__init__ key trucks bodies)) in
  customer_name b' = Some "Ravi Kumar" /\ vehicle_type b' = Some "Truck".
Proof.
  cbv zeta. rewrite booking_after. split.
  - rewrite name_after_extraction. vm_compute. reflexivity.
  - rewrite vehicle_after_extraction. vm_compute. reflexivity.
Qed.

(** Scenario 2 of the specification: on a fresh agent, "from Chennai to
    Bangalore" gives the pickup "Chennai" and the drop "Bangalore". *)
Theorem scenario_from_to (fz : Fuzz) (e : env) (key : option string)
    (trucks bodies : list string) :
  let b' := booking_data
              (_extract_booking_info fz e "from Chennai to Bangalore"
                 (__init__ key trucks bodies)) in
  pickup_location b' = Some "Chennai" /\ drop_location b' = Some "Bangalore".
Proof.
  cbv zeta. rewrite booking_after. split.
  - rewrite pickup_after_extraction. vm_compute. reflexivity.
  - rewrite drop_after_extraction. vm_compute. reflexivity.
Qed.

(** Scenario 4 of the specification: on a fresh agent, the number spelled
    "nine zero six six five four two zero three one" gives the contact "9066542031". *)
Theorem scenario_spoken_number (fz : Fuzz) (e : env) (key : option string)
    (trucks bodies : list string) :
  contact
    (booking_data
       (_extract_booking_info fz e "nine zero six six five four two zero three one"
          (__init__ key trucks bodies)))
  = Some "9066542031".
Proof.
  rewrite booking_after, contact_after_extraction. vm_compute. reflexivity.
Qed.

(** Scenario 6 of the specification: on a fresh agent, "I need it
    tomorrow" gives the reference date plus one day as the trip date. *)
Theorem scenario_tomorrow (fz : Fuzz) (e : env) (key : option string)
    (trucks bodies : list string) :
  trip_date
    (booking_data
       (_extract_booking_info fz e "I need it tomorrow" (__init__ key trucks bodies)))
  = Some (Calendar.strftime_ymd (today e + 1)).
Proof.
  rewrite booking_after, date_after_extraction. reflexivity.
Qed.

(** [is_complete] holds exactly when the six required fields are filled,
    whatever the name and the contact. *)
Theorem is_complete_iff (b : BookingData) :
  is_complete b = true <->
  Forall (fun f => Py.truthy (get f b) = true)
         [FPickup; FDrop; FVehicle; FBody; FGoods; FDate].
Proof.
  unfold is_complete. rewrite !andb_true_iff. split.
  - intros [[[[[? ?] ?] ?] ?] ?]. repeat constructor; assumption.
  - intros H. repeat (apply Forall_cons in H as [? H]). simpl in *. tauto.
Qed.

(** ** Spoken numbers *)

Lemma lower_lowered s : is_lowered s = true -> Py.lower s = s.
Proof.
  unfold is_lowered. induction s as [|c s IH]; simpl; [done|].
  intros [Hc Hs]%andb_true_iff. rewrite (IH Hs). unfold Char.to_lower.
  by destruct (Char.is_upper c).
Qed.

(** [split] reads a token that is followed by a blank or by the end. *)
Lemma split_from_token w cur rest :
  all_chars (fun c => negb (Char.is_space c)) w = true ->
  Py.split_from cur (w +:+ rest)
  = Py.split_from (rev (list_ascii_of_string w) ++ cur) rest.
Proof.
  revert cur. induction w as [|c w IH]; intros cur Hw; simpl in *; [done|].
  apply andb_true_iff in Hw as [Hc Hw].
  apply negb_true_iff in Hc. rewrite Hc, (IH _ Hw).
  by rewrite <- app_assoc.
Qed.

Lemma split_join ws :
  forallb is_token ws = true -> Py.split (Py.join " " ws) = ws.
Proof.
  unfold Py.split. induction ws as [|w ws IH]; [done|].
  cbn [forallb]. intros [Hw Hws]%andb_true_iff.
  unfold is_token in Hw. apply andb_true_iff in Hw as [Hne Hw].
  assert (Hflush : forall l : list ascii,
             l = (rev (list_ascii_of_string w) ++ [])%list ->
             match l with
             | [] => []
             | _ => [string_of_list_ascii (rev l)]
             end = [w]).
  { intros l ->. rewrite app_nil_r.
    destruct w as [|c w]; [done|].
    destruct (rev (list_ascii_of_string (String c w))) eqn:E.
    - apply (f_equal (@length _)) in E. rewrite length_rev in E. done.
    - rewrite <- E, rev_involutive. by rewrite string_of_list_ascii_of_string. }
  destruct ws as [|w' ws].
  - cbn [Py.join]. rewrite <- (append_nil w) at 1.
    rewrite split_from_token by done.
    cbn [Py.split_from]. by apply Hflush.
  - change (Py.join " " (w :: w' :: ws)) with (w +:+ " " +:+ Py.join " " (w' :: ws)).
    rewrite split_from_token by done.
    change (" " +:+ Py.join " " (w' :: ws))
      with (String " " (Py.join " " (w' :: ws))).
    cbn [Py.split_from]. change (Char.is_space " ") with true. cbv iota.
    rewrite (Hflush _ eq_refl), (IH Hws). reflexivity.
Qed.

Lemma join_lowered ws :
  forallb is_lowered ws = true -> is_lowered (Py.join " " ws) = true.
Proof.
  assert (Happ : forall a b, is_lowered a = true -> is_lowered b = true ->
                             is_lowered (a +:+ b) = true).
  { unfold is_lowered. induction a as [|c a IHa]; simpl; [done|].
    intros b [-> Ha]%andb_true_iff Hb. simpl. auto. }
  induction ws as [|w ws IH]; [done|].
  cbn [forallb]. intros [Hw Hws]%andb_true_iff.
  destruct ws as [|w' ws]; [done|].
  change (Py.join " " (w :: w' :: ws)) with (w +:+ " " +:+ Py.join " " (w' :: ws)).
  apply Happ; [done|]. apply (Happ " "); [done|]. by apply IH.
Qed.

(** The words of spoken digits are tokens in lower case. *)
Lemma spoken_words_plain ts :
  Forall (fun t => spoken_digit t < 10) ts ->
  forallb is_token (concat (map spoken_words ts)) = true /\
  forallb is_lowered (concat (map spoken_words ts)) = true.
Proof.
  induction 1 as [|t ts Ht _ [IH1 IH2]]; [done|].
  cbn [map concat]. rewrite !forallb_app, IH1, IH2, !andb_true_r.
  destruct t as [n|n|n]; simpl in Ht;
    do 10 (destruct n as [|n]; [by split|]); lia.
Qed.

(** The loop of [words_to_digits] on the words of spoken digits. *)
Lemma digits_of_spoken ts :
  Forall (fun t => spoken_digit t < 10) ts ->
  Find.digits_of (concat (map spoken_words ts))
  = String.concat "" (map spoken_numerals ts).
Proof.
  induction 1 as [|t ts Ht Hts IH]; [done|].
  cbn [map concat].
  assert (Hnext : ts = [] \/
            exists w ws, concat (map spoken_words ts) = w :: ws /\
                         is_Some (Find.word_to_num w)).
  { destruct Hts as [|t' ts' Ht' _]; [by left|]. right.
    destruct t' as [n|n|n]; simpl in Ht'; cbn [map concat spoken_words app];
      eexists _, _; (split; [reflexivity|]);
      try (by eexists);
      do 10 (destruct n as [|n]; [by eexists|]); lia. }
  assert (Hcat : forall s, String.concat "" (s :: map spoken_numerals ts)
                           = s +:+ String.concat "" (map spoken_numerals ts)).
  { intros s. destruct ts; simpl; [by rewrite append_nil|done]. }
  rewrite Hcat, <- IH.
  destruct t as [n|n|n]; simpl in Ht; cbn [spoken_words app spoken_numerals];
    do 10 (destruct n as [|n];
           [destruct Hnext as [->|(w & ws & -> & [d Hd])];
            [reflexivity|cbn; rewrite ?Hd; reflexivity]|]);
    lia.
Qed.

(** X22. The spoken-digit property of the specification: for every sequence
    of digit words, each alone or after "double" or "triple", said one
    after the other: [words_to_digits] yields the numerals they stand
    for, and when these are ten and start with 6 to 9 the extraction sets
    an empty [contact] to them. *)
Theorem spoken_number_extracted (fz : Fuzz) (e : env) (a : LLMAgent)
    (ts : list spoken) :
  Forall (fun t => spoken_digit t < 10) ts ->
  let text := Py.join " " (concat (map spoken_words ts)) in
  let d := String.concat "" (map spoken_numerals ts) in
  Find.words_to_digits text = d /\
  (Find.spoken_ok d = true ->
   Py.truthy (contact (booking_data a)) = false ->
   contact (booking_data (_extract_booking_info fz e text a)) = Some d).
Proof.
  intros Hts text d.
  destruct (spoken_words_plain ts Hts) as [Htok Hlow].
  assert (Hd : Find.words_to_digits text = d).
  { unfold Find.words_to_digits, text.
    rewrite lower_lowered by by apply join_lowered.
    rewrite split_join by done. by apply digits_of_spoken. }
  split; [exact Hd|]. intros Hok Hempty.
  rewrite booking_after, contact_after_extraction, Hempty. cbn [negb].
  unfold Find.phone. by rewrite Hd, Hok.
Qed.

Lemma spoken_number_extracted_witness :
  contact
    (booking_data
       (_extract_booking_info exact_fuzz new_year
          "nine zero double six five four two zero three one"
          (__init__ None [] [])))
  = Some "9066542031".
Proof.
  apply (proj2 (spoken_number_extracted exact_fuzz new_year (__init__ None [] [])
                  [Once 9; Once 0; Twice 6; Once 5; Once 4; Once 2; Once 0;
                   Once 3; Once 1]
                  ltac:(repeat constructor)));
    reflexivity.
Defined.


(** ** What a conversation keeps *)

Lemma echo_extract_frame text a :
  differs_in [FName; FContact] (booking_data a)
    (booking_data (_extract_from_confirmation text a)).
Proof.
  unfold _extract_from_confirmation; cbn [booking_data with_booking]. frame.
Qed.

Lemma get_detect f text b : get f (detect text b) = get f b.
Proof. unfold detect. repeat case_match; by destruct f. Qed.

Lemma get_set_status f s b : get f (set_confirmation_status s b) = get f b.
Proof. by destruct f. Qed.

(** A property of the record that every step of [generate_response]
    keeps is kept by the call, and by a conversation; [kw] is the
    keyword table of the agent, which no call changes. *)
Lemma generate_invariant_for fz kw (P : BookingData -> Prop) :
  (forall e text b, P b -> P (extract_all fz kw e text b)) ->
  (forall text b, P b -> P (detect text b)) ->
  (forall text a,
     P (booking_data a) -> P (booking_data (_extract_from_confirmation text a))) ->
  (forall b, P b -> P (set_confirmation_status "confirmed" b)) ->
  forall t text a,
    vehicle_keywords a = kw ->
    P (booking_data a) ->
    P (booking_data (fst (generate_response fz t text a))) /\
    vehicle_keywords (fst (generate_response fz t text a)) = kw.
Proof.
  intros Hx Hd He Hs t text a <- Ha. unfold generate_response.
  case_match; [done|].
  assert (P (booking_data
               (_detect_confirmation text (_extract_booking_info fz (at_input t) text a))))
    as H1.
  { cbn [_detect_confirmation booking_data with_booking]. apply Hd.
    rewrite booking_after. by apply Hx. }
  case_match; [done|].
  case_match; [|done].
  cbn [fst]. unfold append_message at 1. cbn [booking_data with_history].
  split; [|by case_match].
  case_match.
  - cbn [booking_data with_booking]. apply Hs, He. rewrite booking_after. by apply Hx.
  - apply He. rewrite booking_after. by apply Hx.
Qed.

Lemma converse_invariant_for fz kw (P : BookingData -> Prop) :
  (forall e text b, P b -> P (extract_all fz kw e text b)) ->
  (forall text b, P b -> P (detect text b)) ->
  (forall text a,
     P (booking_data a) -> P (booking_data (_extract_from_confirmation text a))) ->
  (forall b, P b -> P (set_confirmation_status "confirmed" b)) ->
  forall calls a,
    vehicle_keywords a = kw ->
    P (booking_data a) -> P (booking_data (converse fz calls a)).
Proof.
  intros Hx Hd He Hs calls. induction calls as [|[t text] calls IH]; intros a Hkw Ha.
  - exact Ha.
  - cbn [converse].
    destruct (generate_invariant_for fz kw P Hx Hd He Hs t text a Hkw Ha) as [H1 H2].
    by apply IH.
Qed.

Lemma converse_invariant fz (P : BookingData -> Prop) :
  (forall kw e text b, P b -> P (extract_all fz kw e text b)) ->
  (forall text b, P b -> P (detect text b)) ->
  (forall text a,
     P (booking_data a) -> P (booking_data (_extract_from_confirmation text a))) ->
  (forall b, P b -> P (set_confirmation_status "confirmed" b)) ->
  forall calls a, P (booking_data a) -> P (booking_data (converse fz calls a)).
Proof.
  intros Hx Hd He Hs calls a.
  apply (converse_invariant_for fz (vehicle_keywords a)); auto.
Qed.

Lemma converse_field_invariant fz f (Q : option string -> Prop) :
  (forall kw e text b, Q (get f b) -> Q (get f (extract_all fz kw e text b))) ->
  (forall text a,
     Q (get f (booking_data a)) ->
     Q (get f (booking_data (_extract_from_confirmation text a)))) ->
  forall calls a,
    Q (get f (booking_data a)) -> Q (get f (booking_data (converse fz calls a))).
Proof.
  intros Hx He. apply (converse_invariant fz (fun b => Q (get f b))).
  - exact Hx.
  - intros. by rewrite get_detect.
  - exact He.
  - intros. by rewrite get_set_status.
Qed.

Lemma refines_refl b : refines b b.
Proof. intros f. by left. Qed.

Lemma refines_trans b1 b2 b3 : refines b1 b2 -> refines b2 b3 -> refines b1 b3.
Proof.
  intros H12 H23 f. destruct (H23 f) as [->|(s & Hs & Hne)]; [apply H12|].
  right. exists s. split; [done|]. intros Ht. apply Hne.
  destruct (H12 f) as [->|(s' & -> & Hne')]; [done|].
  simpl. specialize (Hne' Ht). by destruct s'.
Qed.

Lemma longer_not_empty (old : option string) (new : string) :
  Py.truthy old = true -> empty_or_shorter old new = true -> new <> "".
Proof.
  unfold empty_or_shorter. intros -> H. simpl in H.
  apply Nat.ltb_lt in H. intros ->. simpl in H. lia.
Qed.

Lemma long_not_empty s : long_enough s = true -> s <> "".
Proof. unfold long_enough. intros H ->. done. Qed.

Lemma truthy_some v : Py.truthy v = true -> exists s, v = Some s /\ s <> "".
Proof. destruct v as [s|]; [|done]. exists s. split; [done|]. intros ->. done. Qed.

Ltac refine_field :=
  let f := fresh "f" in
  intros f; destruct f; cbn [get customer_name contact lead_source pickup_location
    drop_location vehicle_type body_type goods_type trip_date
    set_customer_name set_contact set_pickup_location set_drop_location
    set_vehicle_type set_body_type set_goods_type set_trip_date];
  try (by left);
  right; eexists; (split; [reflexivity|]).

Lemma extract_name_refines t b : refines b (extract_name t b).
Proof.
  unfold extract_name. repeat case_match; try apply refines_refl.
  refine_field. intros Ht. simpl in *. by rewrite Ht in *.
Qed.

Lemma extract_phone_refines t b : refines b (extract_phone t b).
Proof.
  unfold extract_phone. repeat case_match; try apply refines_refl.
  refine_field. intros Ht. simpl in *. by rewrite Ht in *.
Qed.

Lemma extract_from_to_refines t b : refines b (extract_from_to t b).
Proof.
  unfold extract_from_to. destruct (Find.from_to t) as [[pickup drop]|];
    [|apply refines_refl].
  eapply refines_trans with
    (b2 := if empty_or_shorter (pickup_location b) pickup
           then set_pickup_location (Some pickup) b else b).
  - case_match; [|apply refines_refl]. refine_field.
    intros Ht. by eapply longer_not_empty.
  - cbv zeta. generalize (if empty_or_shorter (pickup_location b) pickup
                         then set_pickup_location (Some pickup) b else b).
    intros b'. case_match; [|apply refines_refl]. refine_field.
    intros Ht. by eapply longer_not_empty.
Qed.

Lemma extract_echo_refines t b : refines b (extract_echo t b).
Proof.
  unfold extract_echo. destruct (Find.echo t) as [[pickup drop]|];
    [|apply refines_refl].
  eapply refines_trans with
    (b2 := if long_enough pickup then set_pickup_location (Some pickup) b else b).
  - case_match; [|apply refines_refl]. refine_field.
    intros _. by apply long_not_empty.
  - cbv zeta. generalize (if long_enough pickup
                         then set_pickup_location (Some pickup) b else b).
    intros b'. case_match; [|apply refines_refl]. refine_field.
    intros _. by apply long_not_empty.
Qed.

Lemma extract_body_refines e t b : refines b (extract_body e t b).
Proof.
  unfold extract_body. destruct (body_type b) eqn:Hb; [apply refines_refl|].
  case_match; [|apply refines_refl]. refine_field.
  simpl. by rewrite Hb.
Qed.

Lemma extract_vehicle_truck_refines fz kw t b :
  refines b (extract_vehicle_truck fz kw t b).
Proof.
  unfold extract_vehicle_truck. case_match; [|apply refines_refl].
  case_match eqn:Hv; [|apply refines_refl].
  apply truthy_some in Hv as (name & -> & Hne). refine_field. done.
Qed.

Lemma extract_vehicle_fallback_refines t b : refines b (extract_vehicle_fallback t b).
Proof.
  unfold extract_vehicle_fallback. repeat case_match; try apply refines_refl;
    refine_field; intros Ht; simpl in *; by rewrite Ht in *.
Qed.

Lemma extract_goods_refines t b : refines b (extract_goods t b).
Proof.
  unfold extract_goods. repeat case_match; try apply refines_refl.
  refine_field. intros Ht. simpl in *. by rewrite Ht in *.
Qed.

Lemma extract_echo_goods_refines t b : refines b (extract_echo_goods t b).
Proof.
  unfold extract_echo_goods. repeat case_match; try apply refines_refl.
  refine_field. intros Ht. simpl in *. by rewrite Ht in *.
Qed.

Lemma extract_trip_date_refines e t b : refines b (extract_trip_date e t b).
Proof.
  unfold extract_trip_date. repeat case_match; try apply refines_refl;
    refine_field; intros Ht; simpl in *; by rewrite Ht in *.
Qed.

Lemma extract_all_refines fz kw e text b : refines b (extract_all fz kw e text b).
Proof.
  unfold extract_all. rewrite fuzzy_stage_inert.
  repeat (eapply refines_trans;
          [|first [apply extract_trip_date_refines | apply extract_echo_goods_refines
                  | apply extract_goods_refines | apply extract_vehicle_fallback_refines
                  | apply extract_vehicle_truck_refines | apply extract_body_refines
                  | apply extract_echo_refines | apply extract_from_to_refines
                  | apply extract_phone_refines | apply extract_name_refines]]).
  apply refines_refl.
Qed.

Lemma echo_extract_refines text a :
  refines (booking_data a) (booking_data (_extract_from_confirmation text a)).
Proof.
  unfold _extract_from_confirmation. cbn [booking_data with_booking].
  eapply refines_trans with
    (b2 := if negb (Py.truthy (customer_name (booking_data a))) then
             match find_echo_name (Py.lower text) with
             | Some name => set_customer_name (Some name) (booking_data a)
             | None => booking_data a
             end
           else booking_data a).
  - repeat case_match; try apply refines_refl.
    refine_field. intros Ht. simpl in *. by rewrite Ht in *.
  - cbv zeta.
    generalize (if negb (Py.truthy (customer_name (booking_data a))) then
                  match find_echo_name (Py.lower text) with
                  | Some name => set_customer_name (Some name) (booking_data a)
                  | None => booking_data a
                  end
                else booking_data a).
    intros b'. repeat case_match; try apply refines_refl;
      refine_field; intros Ht; simpl in *; by rewrite Ht in *.
Qed.

Lemma detect_refines text b : refines b (detect text b).
Proof. intros f. left. apply get_detect. Qed.

Lemma converse_refines fz calls a :
  refines (booking_data a) (booking_data (converse fz calls a)).
Proof.
  apply (converse_invariant fz (refines (booking_data a))).
  - intros. eapply refines_trans; [eassumption|apply extract_all_refines].
  - intros. eapply refines_trans; [eassumption|apply detect_refines].
  - intros. eapply refines_trans; [eassumption|apply echo_extract_refines].
  - intros b H f. rewrite get_set_status. apply H.
  - apply refines_refl.
Qed.

Lemma truthy_refined b b' f :
  refines b b' -> Py.truthy (get f b) = true -> Py.truthy (get f b') = true.
Proof.
  intros H Ht. destruct (H f) as [->|(s & -> & Hne)]; [done|].
  specialize (Hne Ht). simpl. by destruct s.
Qed.

Lemma set_refined b b' f : refines b b' -> is_unset (get f b') = true -> is_unset (get f b) = true.
Proof.
  intros H. destruct (H f) as [->|(s & -> & _)]; done.
Qed.

Lemma missing_fields b :
  get_missing_fields b = map label_of (List.filter (fun f => is_unset (get f b)) required).
Proof.
  unfold get_missing_fields. cbn.
  destruct (pickup_location b), (drop_location b), (vehicle_type b),
    (body_type b), (goods_type b), (trip_date b); reflexivity.
Qed.

Lemma filter_sublist {A} (p q : A -> bool) l :
  (forall x, p x = true -> q x = true) -> sublist (List.filter p l) (List.filter q l).
Proof.
  intros Hpq. induction l as [|x l IH]; simpl; [constructor|].
  destruct (p x) eqn:Hp.
  - rewrite (Hpq x Hp). by constructor.
  - destruct (q x); [by constructor|done].
Qed.

Lemma echo_extract_keeps_field f text a :
  Py.truthy (get f (booking_data a)) = true ->
  get f (booking_data (_extract_from_confirmation text a)) = get f (booking_data a).
Proof.
  intros Ht. destruct (echo_extract_keeps text a) as [Hname Hcontact].
  destruct f; try (by apply Hname); try (by apply Hcontact);
    apply (frame_get _ _ _ _ (echo_extract_frame text a)); not_in.
Qed.

Lemma converse_keeps fz calls a f :
  f ∈ write_once ->
  Py.truthy (get f (booking_data a)) = true ->
  get f (booking_data (converse fz calls a)) = get f (booking_data a).
Proof.
  intros Hf Ht.
  apply (converse_field_invariant fz f (fun v => v = get f (booking_data a)));
    [| |done].
  - intros kw e text b Hb. rewrite <- Hb. apply extract_all_keeps; [done|].
    by rewrite Hb.
  - intros text a' Ha'. rewrite <- Ha'. apply echo_extract_keeps_field.
    by rewrite Ha'.
Qed.

(** X1. Once a field of the record holds a non-empty string it holds one
    for the rest of the conversation, whatever is said and answered;
    the name, the contact, the lead source, the body type, the goods
    and the trip date even keep their value (only the two locations and
    the vehicle type can be replaced); so a booking that
    [is_booking_complete] reports complete stays complete. *)
Theorem filled_stays_filled (fz : Fuzz) (calls : list (turn * string))
    (a : LLMAgent) :
  (forall f,
     Py.truthy (get f (booking_data a)) = true ->
     Py.truthy (get f (booking_data (converse fz calls a))) = true) /\
  (forall f,
     f ∈ write_once ->
     Py.truthy (get f (booking_data a)) = true ->
     get f (booking_data (converse fz calls a)) = get f (booking_data a)) /\
  (is_booking_complete a = true ->
   is_booking_complete (converse fz calls a) = true).
Proof.
  pose proof (converse_refines fz calls a) as Hr.
  assert (forall f,
            Py.truthy (get f (booking_data a)) = true ->
            Py.truthy (get f (booking_data (converse fz calls a))) = true) as Hf
    by (intros f; by apply truthy_refined).
  split; [exact Hf|]. split; [intros f; apply converse_keeps|].
  unfold is_booking_complete, is_complete. rewrite !andb_true_iff.
  intros (((((H1 & H2) & H3) & H4) & H5) & H6).
  repeat split;
    [apply (Hf FPickup) | apply (Hf FDrop) | apply (Hf FVehicle)
    | apply (Hf FBody) | apply (Hf FGoods) | apply (Hf FDate)]; assumption.
Qed.

Lemma filled_stays_filled_witness :
  Py.truthy
    (get FPickup
       (booking_data
          (converse exact_fuzz [(silent_turn, "from Coimbatore to Goa")]
             agent_with_route))) = true /\
  get FName
    (booking_data
       (converse exact_fuzz [(silent_turn, "my name is Sita")] agent_with_route))
  = get FName (booking_data agent_with_route).
Proof.
  split.
  - apply (proj1 (filled_stays_filled exact_fuzz
                    [(silent_turn, "from Coimbatore to Goa")] agent_with_route)).
    reflexivity.
  - apply (proj1 (proj2 (filled_stays_filled exact_fuzz
                           [(silent_turn, "my name is Sita")] agent_with_route))).
    + unfold write_once. repeat constructor.
    + reflexivity.
Defined.

(** X2. The list [get_missing_fields] returns never gains a label during
    a conversation, and keeps the order of [REQUIRED_FIELDS]: the labels
    missing afterwards are a sublist of the labels missing before. *)
Theorem missing_fields_shrink (fz : Fuzz) (calls : list (turn * string))
    (a : LLMAgent) :
  sublist (get_missing_fields (booking_data (converse fz calls a)))
          (get_missing_fields (booking_data a)).
Proof.
  rewrite !missing_fields. apply (fmap_sublist label_of), filter_sublist.
  intros f. apply set_refined, converse_refines.
Qed.

(** X3. [is_complete] and [get_missing_fields] agree up to the empty
    string: the record is complete exactly when no label is missing and
    no required field holds [""] (which [get_missing_fields] does not
    report, as it tests [is None]). *)
Theorem complete_iff_nothing_missing (b : BookingData) :
  is_complete b = true <->
  get_missing_fields b = [] /\
  forallb (fun f => negb (holds_empty (get f b))) required = true.
Proof.
  rewrite missing_fields. unfold is_complete. cbn.
  destruct (pickup_location b) as [[|? ?]|], (drop_location b) as [[|? ?]|],
    (vehicle_type b) as [[|? ?]|], (body_type b) as [[|? ?]|],
    (goods_type b) as [[|? ?]|], (trip_date b) as [[|? ?]|];
    cbn; split; try done; intros [? ?]; done.
Qed.

Lemma complete_iff_nothing_missing_witness :
  get_missing_fields
    (mkBooking None None None (Some "Salem") (Some "Erode") (Some "Truck")
       (Some "Open") (Some "Cement") (Some "2024-01-02") "pending" ∅) = [] /\
  forallb
    (fun f =>
       negb (holds_empty
               (get f (mkBooking None None None (Some "Salem") (Some "Erode")
                         (Some "Truck") (Some "Open") (Some "Cement")
                         (Some "2024-01-02") "pending" ∅))))
    required = true.
Proof.
  apply (proj1 (complete_iff_nothing_missing
                  (mkBooking None None None (Some "Salem") (Some "Erode") (Some "Truck")
                     (Some "Open") (Some "Cement") (Some "2024-01-02") "pending" ∅))).
  reflexivity.
Defined.

(** ** The history, turn by turn *)

Lemma generate_history fz t text a :
  conversation_history (fst (generate_response fz t text a))
  = (conversation_history a ++ appended fz t text a)%list.
Proof.
  unfold generate_response, appended, window_sent.
  case_match; [by rewrite app_nil_r|].
  case_match; [by rewrite app_nil_r|].
  case_match; [|reflexivity].
  cbn [fst append_message conversation_history with_history].
  case_match; cbn; by rewrite <- app_assoc.
Qed.

Lemma generate_frame fz t text a :
  api_key (fst (generate_response fz t text a)) = api_key a /\
  vehicle_keywords (fst (generate_response fz t text a)) = vehicle_keywords a /\
  body_types (fst (generate_response fz t text a)) = body_types a.
Proof.
  unfold generate_response. repeat case_match; done.
Qed.

Lemma converse_frame fz calls a :
  api_key (converse fz calls a) = api_key a /\
  vehicle_keywords (converse fz calls a) = vehicle_keywords a /\
  body_types (converse fz calls a) = body_types a.
Proof.
  revert a. induction calls as [|[t text] calls IH]; intros a; [done|].
  cbn [converse]. destruct (IH (fst (generate_response fz t text a))) as (-> & -> & ->).
  apply generate_frame.
Qed.


Lemma turns_of_app r h1 h2 : turns_of r (h1 ++ h2) = turns_of r h1 + turns_of r h2.
Proof. unfold turns_of. by rewrite List.filter_app, length_app. Qed.

Lemma appended_turns fz t text a :
  Forall (fun m => role m = "user" \/ role m = "assistant") (appended fz t text a) /\
  turns_of "system" (appended fz t text a) = 0 /\
  turns_of "assistant" (appended fz t text a) <= turns_of "user" (appended fz t text a) <= 1 /\
  length (appended fz t text a)
  = turns_of "user" (appended fz t text a) + turns_of "assistant" (appended fz t text a).
Proof.
  unfold appended, turns_of, user_turn.
  repeat case_match; cbn; repeat split; try lia;
    repeat first [apply Forall_nil_2 | apply Forall_cons_2; [cbn; auto|]].
Qed.

Lemma converse_history fz calls a :
  exists new,
    conversation_history (converse fz calls a) = (conversation_history a ++ new)%list /\
    Forall (fun m => role m = "user" \/ role m = "assistant") new /\
    turns_of "system" new = 0 /\
    turns_of "assistant" new <= turns_of "user" new <= length calls /\
    length new = turns_of "user" new + turns_of "assistant" new.
Proof.
  revert a. induction calls as [|[t text] calls IH]; intros a.
  - exists []. rewrite app_nil_r. cbn. repeat split; auto.
  - cbn [converse].
    destruct (IH (fst (generate_response fz t text a)))
      as (new & -> & Hroles & Hsys & Hcount & Hlen).
    rewrite generate_history.
    destruct (appended_turns fz t text a) as (Hroles' & Hsys' & Hcount' & Hlen').
    exists (appended fz t text a ++ new)%list. rewrite app_assoc.
    split; [done|]. split; [by apply Forall_app|].
    rewrite !turns_of_app, length_app. cbn [length]. lia.
Qed.

(** X4. A conversation only appends to the history: the history before
    is a prefix of the history after, each call adds nothing (blank
    input, echo mode), the user's turn alone (the completion failed) or
    the user's turn followed by the reply, and no [system] turn is ever
    added. *)
Theorem history_append_only (fz : Fuzz) (calls : list (turn * string))
    (a : LLMAgent) :
  (exists new,
     conversation_history (converse fz calls a)
     = (conversation_history a ++ new)%list /\
     Forall (fun m => role m = "user" \/ role m = "assistant") new /\
     system_turns (conversation_history (converse fz calls a))
     = system_turns (conversation_history a)) /\
  (forall t text,
     conversation_history (fst (generate_response fz t text a))
     = (conversation_history a ++ appended fz t text a)%list).
Proof.
  split; [|intros; apply generate_history].
  destruct (converse_history fz calls a) as (new & Hh & Hroles & Hsys & _).
  exists new. split; [done|]. split; [done|].
  rewrite Hh. unfold system_turns. rewrite List.filter_app, length_app.
  unfold turns_of in Hsys. unfold is_system.
  change (fun msg : message => role msg =? "system")
    with (fun m : message => String.eqb (role m) "system") in Hsys.
  rewrite Hsys. lia.
Qed.

(** X5. The two lists [get_conversation_summary] counts: after any
    conversation of a freshly constructed agent there are at most as
    many assistant turns as user turns, at most one user turn per call,
    and the history holds nothing else but the system turn of an agent
    with a key. *)
Theorem turn_counts (fz : Fuzz) (key : option string) (trucks bodies : list string)
    (calls : list (turn * string)) :
  let a := converse fz calls (__init__ key trucks bodies) in
  length (messages_of "assistant" a) <= length (messages_of "user" a) /\
  length (messages_of "user" a) <= length calls /\
  length (conversation_history a)
  = (if Py.truthy key then 1 else 0)
    + length (messages_of "user" a) + length (messages_of "assistant" a).
Proof.
  intros a. subst a.
  destruct (converse_history fz calls (__init__ key trucks bodies))
    as (new & Hh & _ & _ & Hcount & Hlen).
  unfold messages_of. rewrite Hh, !List.filter_app, !length_app.
  fold (turns_of "user" new). fold (turns_of "assistant" new).
  cbn [__init__ conversation_history]. destruct (Py.truthy key); cbn; lia.
Qed.

(** ** The size of the window *)

Lemma last_skipn {A} (l : list A) k : k < length l -> last (skipn k l) = last l.
Proof.
  revert k. induction l as [|x l IH]; intros k Hk; [cbn in Hk; lia|].
  destruct k as [|k]; [done|]. cbn [skipn]. cbn [length] in Hk.
  rewrite IH by lia. destruct l; [cbn in Hk; lia|done].
Qed.

(** X23. The window sent to the completion service is bounded: for an
    agent with a key, after any conversation, it holds at most 21
    messages, the first of them the system turn and the last the
    message the user has just sent. *)
Theorem window_is_bounded (fz : Fuzz) (key : option string)
    (trucks bodies : list string) (calls : list (turn * string))
    (t : turn) (text : string) (w : list message) :
  Py.truthy key = true ->
  window_sent fz t text (converse fz calls (__init__ key trucks bodies)) = Some w ->
  length w <= 21 /\ head w = Some system_turn /\ last w = Some (user_turn text).
Proof.
  intros Hkey Hw.
  pose proof (converse_keyed fz calls _ (init_keyed key trucks bodies Hkey)) as Hk.
  destruct (window_sent_keyed fz t text _ w Hk Hw) as (rest & _ & ->).
  assert (length (rest ++ [user_turn text]) - 20 < length (rest ++ [user_turn text]))
    as Hlt by (rewrite length_app; cbn; lia).
  repeat split.
  - cbn [length]. rewrite length_skipn. lia.
  - destruct (skipn _ _) eqn:Hs.
    + apply (f_equal (@length _)) in Hs. rewrite length_skipn in Hs. cbn in Hs. lia.
    + change (last (system_turn :: m :: l)) with (last (m :: l)).
      rewrite <- Hs, last_skipn by done. apply last_snoc.
Qed.

Lemma window_is_bounded_witness :
  length [system_turn; user_turn "hello"] <= 21 /\
  head [system_turn; user_turn "hello"] = Some system_turn /\
  last [system_turn; user_turn "hello"] = Some (user_turn "hello").
Proof.
  apply (window_is_bounded exact_fuzz (Some "key") [] [] [] silent_turn "hello").
  - reflexivity.
  - reflexivity.
Defined.

(** ** The end of the call *)

Lemma lower_app s t : Py.lower (s +:+ t) = Py.lower s +:+ Py.lower t.
Proof. induction s as [|c s IH]; simpl; [done|by rewrite IH]. Qed.

Lemma contains_lower needle hay :
  Py.contains needle hay = true -> Py.contains (Py.lower needle) (Py.lower hay) = true.
Proof.
  intros H. apply contains_split in H as (pre & post & ->).
  rewrite !lower_app. apply contains_app.
Qed.

Lemma last_assistant_reply h r :
  last_assistant_message (h ++ [mkMessage "assistant" r]) = Some (Py.lower r).
Proof. unfold last_assistant_message. by rewrite rev_unit. Qed.

Lemma last_assistant_user h text :
  last_assistant_message (h ++ [user_turn text]) = last_assistant_message h.
Proof. unfold last_assistant_message. by rewrite rev_unit. Qed.

Lemma call_complete_last a :
  is_call_complete a =
  match last_assistant_message (conversation_history a) with
  | Some last_message =>
      Py.contains "booking_confirmed" last_message
      || any_keyword closing_phrases last_message
  | None => false
  end.
Proof.
  unfold is_call_complete. destruct (conversation_history a) as [|m h]; [done|].
  destruct (last_assistant_message (m :: h)) as [[|c s]|]; [done| |done].
  cbn [Py.truthy String.eqb negb Py.or_empty].
  by destruct (Py.contains "booking_confirmed" (String c s)).
Qed.

Lemma generate_call_complete fz t text a :
  is_call_complete (fst (generate_response fz t text a)) =
  match window_sent fz t text a with
  | Some w =>
      match llm t w with
      | Some response_text => closes response_text
      | None => is_call_complete a
      end
  | None => is_call_complete a
  end.
Proof.
  rewrite !call_complete_last, generate_history. unfold appended.
  destruct (window_sent fz t text a) as [w|]; [|by rewrite app_nil_r].
  destruct (llm t w) as [r|].
  - change (user_turn text :: [mkMessage "assistant" r])
      with ([user_turn text] ++ [mkMessage "assistant" r])%list.
    by rewrite app_assoc, last_assistant_reply.
  - by rewrite last_assistant_user.
Qed.

Lemma window_needs_text fz t text a w :
  window_sent fz t text a = Some w -> all_blank text = false.
Proof.
  unfold window_sent. destruct (all_blank text) eqn:Hb; [|done].
  apply strip_empty in Hb. rewrite Hb. cbn. by rewrite orb_true_r.
Qed.

(** X6. The marker ends the call: when the reply of a call carries
    [BOOKING_CONFIRMED], the confirmation state is [confirmed] and
    [is_call_complete] holds right after the call, whatever the state,
    the history and the user's words were. *)
Theorem marker_ends_call (fz : Fuzz) (t : turn) (text : string) (a : LLMAgent) :
  marked_reply fz t text a = true ->
  status_of (fst (generate_response fz t text a)) = "confirmed" /\
  is_call_complete (fst (generate_response fz t text a)) = true.
Proof.
  intros Hm. split.
  - rewrite generate_status, Hm; [done|].
    unfold marked_reply in Hm.
    destruct (window_sent fz t text a) as [w|] eqn:Hw; [|done].
    by eapply window_needs_text.
  - rewrite generate_call_complete. unfold marked_reply in Hm.
    destruct (window_sent fz t text a) as [w|]; [|done].
    destruct (llm t w) as [r|]; [|done].
    unfold closes. apply contains_lower in Hm.
    change (Py.lower "BOOKING_CONFIRMED") with "booking_confirmed" in Hm.
    by rewrite Hm.
Qed.

Lemma marker_ends_call_witness :
  status_of
    (fst (generate_response exact_fuzz
            (answering "Your booking is confirmed. BOOKING_CONFIRMED")
            "no, cancel" (__init__ (Some "key") [] []))) = "confirmed" /\
  is_call_complete
    (fst (generate_response exact_fuzz
            (answering "Your booking is confirmed. BOOKING_CONFIRMED")
            "no, cancel" (__init__ (Some "key") [] []))) = true.
Proof.
  apply (marker_ends_call exact_fuzz
           (answering "Your booking is confirmed. BOOKING_CONFIRMED")
           "no, cancel" (__init__ (Some "key") [] [])).
  vm_compute. reflexivity.
Defined.

(** X7. [is_call_complete] looks at the latest reply only: after a call
    that obtained a reply it holds exactly when that reply, lower-cased,
    contains [booking_confirmed] or a closing phrase; a call that
    obtained none (blank input, echo mode, failed completion) leaves it
    as it was. *)
Theorem call_complete_by_last_reply (fz : Fuzz) (t : turn) (text : string)
    (a : LLMAgent) :
  is_call_complete (fst (generate_response fz t text a)) =
  match window_sent fz t text a with
  | Some w =>
      match llm t w with
      | Some response_text => closes response_text
      | None => is_call_complete a
      end
  | None => is_call_complete a
  end.
Proof. apply generate_call_complete. Qed.

(** X8. In echo mode the call never completes: an agent constructed
    without a key answers every call but [is_call_complete] stays false
    after any conversation. *)
Theorem echo_mode_never_completes (fz : Fuzz) (key : option string)
    (trucks bodies : list string) (calls : list (turn * string)) :
  Py.truthy key = false ->
  is_call_complete (converse fz calls (__init__ key trucks bodies)) = false.
Proof.
  intros Hk. pose proof (converse_keyless fz calls _ (init_keyless key trucks bodies Hk))
    as [_ Hh].
  unfold is_call_complete. by rewrite Hh.
Qed.

Lemma echo_mode_never_completes_witness :
  is_call_complete
    (converse exact_fuzz [(answering "Thank you, goodbye", "bye")]
       (__init__ None [] [])) = false.
Proof.
  apply (echo_mode_never_completes exact_fuzz None [] []
           [(answering "Thank you, goodbye", "bye")]).
  reflexivity.
Defined.

(** ** The keyword of the "truck [type] X" stage *)

Lemma best_keyword_snoc fz kw kv mention :
  best_keyword fz (kw ++ [kv]) mention =
  let st := best_keyword fz kw mention in
  let score := ratio fz (Py.lower mention) (fst kv) in
  if Z.ltb (fst st) score && Z.leb 65 score then (score, Some (snd kv)) else st.
Proof. unfold best_keyword. by rewrite fold_left_app. Qed.

(** X9. The "truck [type] X" stage picks the first keyword of the table
    among those with the highest [fuzz.ratio] against the mention, and
    picks none when no keyword reaches 65. *)
Theorem best_keyword_first_best (fz : Fuzz) (kw : list (string * string))
    (mention : string) :
  let score kv := ratio fz (Py.lower mention) (fst kv) in
  match snd (best_keyword fz kw mention) with
  | Some name =>
      exists pre kv post,
        kw = (pre ++ kv :: post)%list /\ snd kv = name /\
        fst (best_keyword fz kw mention) = score kv /\
        (65 <= score kv)%Z /\
        Forall (fun x => (score x < score kv)%Z) pre /\
        Forall (fun x => (score x <= score kv)%Z) post
  | None =>
      fst (best_keyword fz kw mention) = 0%Z /\
      Forall (fun x => (score x < 65)%Z) kw
  end.
Proof.
  intros score. induction kw as [|kv kw IH] using rev_ind.
  - cbn. split; [done|constructor].
  - rewrite best_keyword_snoc. cbv zeta. fold (score kv).
    destruct (best_keyword fz kw mention) as [s [name|]]; cbn [fst snd] in *.
    + destruct IH as (pre & kv0 & post & -> & Hname & -> & H65 & Hpre & Hpost).
      destruct (Z.ltb_spec (score kv0) (score kv)) as [Hlt|Hge];
        destruct (Z.leb_spec 65 (score kv)) as [Hok|Hlow]; cbn [andb snd fst].
      * exists (pre ++ kv0 :: post)%list, kv, []. repeat split; try done.
        apply Forall_app. split; [|apply Forall_cons; split; [done|]].
        -- eapply Forall_impl; [exact Hpre|]. cbn. intros. lia.
        -- eapply Forall_impl; [exact Hpost|]. cbn. intros. lia.
      * lia.
      * exists pre, kv0, (post ++ [kv])%list. rewrite <- app_assoc. repeat split; try done.
        apply Forall_app. split; [done|]. apply Forall_cons. split; [lia|constructor].
      * exists pre, kv0, (post ++ [kv])%list. rewrite <- app_assoc. repeat split; try done.
        apply Forall_app. split; [done|]. apply Forall_cons. split; [lia|constructor].
    + destruct IH as (-> & Hall).
      destruct (Z.ltb_spec 0 (score kv)) as [Hlt|Hge];
        destruct (Z.leb_spec 65 (score kv)) as [Hok|Hlow]; cbn [andb snd fst].
      * exists kw, kv, []. repeat split; try done.
        eapply Forall_impl; [exact Hall|]. cbn. intros. lia.
      * split; [done|]. apply Forall_app. split; [done|].
        apply Forall_cons. split; [lia|constructor].
      * lia.
      * split; [done|]. apply Forall_app. split; [done|].
        apply Forall_cons. split; [lia|constructor].
Qed.

(** ** What a match has read *)

Lemma all_chars_app p s t : all_chars p (s +:+ t) = all_chars p s && all_chars p t.
Proof. induction s as [|c s IH]; simpl; [done|]. by rewrite IH, andb_assoc. Qed.

Lemma len_app s t : Py.len (s +:+ t) = Py.len s + Py.len t.
Proof.
  unfold Py.len. induction s as [|c s IH]; cbn [String.append String.length]; [done|].
  by rewrite IH.
Qed.

Lemma take_app s t : Py.take (Py.len s) (s +:+ t) = s.
Proof. induction s as [|c s IH]; simpl; [by destruct t|]. by rewrite IH. Qed.


(** Where a literal matches, the text goes on with it. *)
Lemma eat_sound l cu cu' :
  Re.eat l cu = Some cu' ->
  exists t, Re.rest cu = l +:+ t /\ cu' = after l t cu.
Proof.
  revert cu. induction l as [|a l IH]; intros cu H; simpl in H.
  - simplify_eq. exists (Re.rest cu'). split; [done|]. by rewrite after_nothing.
  - destruct (Re.rest cu) as [|c t0] eqn:Hr; [done|].
    destruct (Ascii.eqb_spec a c) as [->|]; [|done].
    apply IH in H as (t & Ht & ->). cbn [Re.step Re.rest] in Ht. subst t0.
    exists t. split; [done|]. apply after_step.
Qed.

Lemma run_lit {A} l cu cs (k : Re.cursor -> Re.caps -> option A) x :
  Re.run (Re.Lit l) cu cs k = Some x ->
  exists t, Re.rest cu = l +:+ t /\ k (after l t cu) cs = Some x.
Proof.
  cbn [Re.run]. destruct (Re.eat l cu) as [cu'|] eqn:He; [|done].
  apply eat_sound in He as (t & Ht & ->). intros H. by exists t.
Qed.

(** Where a repetition of a class matches, the text goes on with
    characters of the class, as many as the bounds allow. *)
Lemma rounds_cls {A} (p : ascii -> bool) greedy lo hi
    (body : Re.cursor -> Re.caps -> (Re.cursor -> Re.caps -> option A) -> option A)
    (k : Re.cursor -> Re.caps -> option A) (cs : Re.caps) :
  (forall cu cs k0, body cu cs k0 = Re.run (Re.Cls p) cu cs k0) ->
  forall fuel n cu x,
    Re.rounds body greedy lo hi k fuel n cu cs = Some x ->
    exists w t,
      Re.rest cu = w +:+ t /\ all_chars p w = true /\
      lo <= n + Py.len w /\
      (forall h, hi = Some h -> n <= h -> n + Py.len w <= h) /\
      k (after w t cu) cs = Some x.
Proof.
  intros Hbody fuel. induction fuel as [|fuel IH]; intros n cu x H; [done|].
  cbn [Re.rounds] in H.
  assert (forall y,
            (if Nat.leb lo n then k cu cs else None) = Some y ->
            exists w t,
              Re.rest cu = w +:+ t /\ all_chars p w = true /\
              lo <= n + Py.len w /\
              (forall h, hi = Some h -> n <= h -> n + Py.len w <= h) /\
              k (after w t cu) cs = Some y) as Hstop.
  { intros y Hy. destruct (Nat.leb_spec lo n) as [Hlo|]; [|done].
    exists "", (Re.rest cu). rewrite after_nothing. cbn. repeat split; try done; lia. }
  assert (forall y,
            (if Re.below hi n
             then body cu cs (fun cu' cs' =>
                    if Nat.ltb (Re.pos cu) (Re.pos cu')
                    then Re.rounds body greedy lo hi k fuel (S n) cu' cs'
                    else None)
             else None) = Some y ->
            exists w t,
              Re.rest cu = w +:+ t /\ all_chars p w = true /\
              lo <= n + Py.len w /\
              (forall h, hi = Some h -> n <= h -> n + Py.len w <= h) /\
              k (after w t cu) cs = Some y) as Hagain.
  { intros y Hy. destruct (Re.below hi n) eqn:Hb; [|done].
    rewrite Hbody in Hy. cbn [Re.run] in Hy.
    destruct (Re.rest cu) as [|c t0] eqn:Hr; [done|].
    destruct (p c) eqn:Hp; [|done].
    cbn [Re.step Re.pos] in Hy.
    destruct (Nat.ltb_spec (Re.pos cu) (S (Re.pos cu))) as [_|]; [|lia].
    apply IH in Hy as (w & t & Ht & Hw & Hlo & Hhi & Hk).
    cbn [Re.step Re.rest] in Ht. subst t0.
    exists (String c w), t. cbn [String.append all_chars Py.len String.length].
    rewrite Hp, Hw. repeat split; try done.
    - unfold Py.len in Hlo. lia.
    - intros h -> Hn. unfold Re.below in Hb. apply Nat.ltb_lt in Hb.
      specialize (Hhi h eq_refl). unfold Py.len in Hhi. lia.
    - rewrite <- Hk. f_equal. symmetry. apply (after_step c w t t cu). }
  destruct greedy.
  - destruct (if Re.below hi n then _ else None) as [y|] eqn:Ha.
    + simplify_eq. by apply Hagain.
    + by apply Hstop.
  - destruct (if Nat.leb lo n then k cu cs else None) as [y|] eqn:Hs.
    + simplify_eq. by apply Hstop.
    + by apply Hagain.
Qed.

Lemma run_rep_cls {A} (p : ascii -> bool) greedy lo hi cu cs
    (k : Re.cursor -> Re.caps -> option A) x :
  Re.run (Re.Rep greedy lo hi (Re.Cls p)) cu cs k = Some x ->
  exists w t,
    Re.rest cu = w +:+ t /\ all_chars p w = true /\
    lo <= Py.len w /\
    (forall h, hi = Some h -> Py.len w <= h) /\
    k (after w t cu) cs = Some x.
Proof.
  cbn [Re.run]. intros H.
  eapply (rounds_cls p) in H as (w & t & Ht & Hw & Hlo & Hhi & Hk); [|done].
  exists w, t. repeat split; try done. intros h Hh. apply (Hhi h Hh). lia.
Qed.


Lemma run_cls {A} (p : ascii -> bool) cu cs (k : Re.cursor -> Re.caps -> option A) x :
  Re.run (Re.Cls p) cu cs k = Some x ->
  exists c t, Re.rest cu = String c t /\ p c = true /\
              k (after (String c "") t cu) cs = Some x.
Proof.
  cbn [Re.run]. destruct (Re.rest cu) as [|c t] eqn:Hr; [done|].
  destruct (p c) eqn:Hp; [|done]. intros H. exists c, t. repeat split; try done.
  rewrite <- H. f_equal. unfold after, Re.step. cbn. f_equal. lia.
Qed.

Lemma run_alt {A} r1 r2 cu cs (k : Re.cursor -> Re.caps -> option A) x :
  Re.run (Re.Alt r1 r2) cu cs k = Some x ->
  Re.run r1 cu cs k = Some x \/ Re.run r2 cu cs k = Some x.
Proof. cbn [Re.run]. destruct (Re.run r1 cu cs k); [left|right]; done. Qed.

Lemma run_wordb {A} cu cs (k : Re.cursor -> Re.caps -> option A) x :
  Re.run Re.Wordb cu cs k = Some x -> k cu cs = Some x.
Proof. cbn [Re.run]. by case_match. Qed.

(** The text a group has read, once its end is known. *)
Lemma group_text w t cu :
  Re.rest cu = w +:+ t ->
  Py.take (Re.pos (after w t cu) - Re.pos cu) (Re.rest cu) = w.
Proof.
  intros ->. unfold after. cbn [Re.pos].
  replace (Re.pos cu + Py.len w - Re.pos cu) with (Py.len w) by lia.
  apply take_app.
Qed.

Lemma rest_after w t cu : Re.rest (after w t cu) = t.
Proof. done. Qed.

Lemma run_cat {A} r1 r2 cu cs (k : Re.cursor -> Re.caps -> option A) :
  Re.run (Re.Cat r1 r2) cu cs k
  = Re.run r1 cu cs (fun cu' cs' => Re.run r2 cu' cs' k).
Proof. done. Qed.

Lemma run_grp {A} i r cu cs (k : Re.cursor -> Re.caps -> option A) :
  Re.run (Re.Grp i r) cu cs k
  = Re.run r cu cs (fun cu' cs' =>
      k cu' ((i, Py.take (Re.pos cu' - Re.pos cu) (Re.rest cu)) :: cs')).
Proof. done. Qed.










Lemma first_some_found {A B} (f : A -> option B) l y :
  Find.first_some f l = Some y -> exists x, In x l /\ f x = Some y.
Proof.
  induction l as [|x l IH]; [done|]. cbn [Find.first_some].
  destruct (f x) as [y'|] eqn:Hx.
  - intros [= ->]. exists x. split; [by left|done].
  - intros H. apply IH in H as (x' & Hin & Hy). exists x'. split; [by right|done].
Qed.














(** ** The keyword tables *)

Lemma dict_get_set k v k' d :
  dict_get k' (dict_set k v d) = if String.eqb k' k then Some v else dict_get k' d.
Proof.
  induction d as [|[k0 v0] d IH]; cbn [dict_set dict_get].
  - done.
  - destruct (String.eqb_spec k k0) as [->|Hk]; cbn [dict_get].
    + by destruct (String.eqb_spec k' k0).
    + rewrite IH. destruct (String.eqb_spec k' k0) as [->|]; [|done].
      by destruct (String.eqb_spec k0 k) as [->|].
Qed.

Lemma dict_set_keys k v d :
  exists new, map fst (dict_set k v d) = (map fst d ++ new)%list.
Proof.
  induction d as [|[k0 v0] d [new IH]]; cbn [dict_set map fst].
  - by exists [k].
  - destruct (String.eqb_spec k k0) as [->|]; cbn [map fst].
    + exists []. by rewrite app_nil_r.
    + exists new. by rewrite IH.
Qed.

Lemma last_filter_snoc {A} (p : A -> bool) l x :
  last (List.filter p (l ++ [x])) = if p x then Some x else last (List.filter p l).
Proof.
  rewrite List.filter_app. cbn [List.filter]. destruct (p x).
  - apply last_snoc.
  - by rewrite app_nil_r.
Qed.

Lemma truck_table_get k names defaults :
  dict_get k (fold_left add_truck names defaults) = filed truck_key k names defaults.
Proof.
  unfold filed. induction names as [|name names IH] using rev_ind; [done|].
  rewrite fold_left_app, last_filter_snoc. cbn [fold_left]. unfold add_truck at 1.
  rewrite !dict_get_set, IH. unfold truck_key.
  destruct (String.eqb k (Py.replace "-" " " (Py.lower name)));
    destruct (String.eqb k (Py.lower name)); done.
Qed.

Lemma body_table_get k names defaults :
  dict_get k (fold_left add_body names defaults) = filed body_key k names defaults.
Proof.
  unfold filed. induction names as [|name names IH] using rev_ind; [done|].
  rewrite fold_left_app, last_filter_snoc. cbn [fold_left]. unfold add_body at 1.
  rewrite dict_get_set, IH. unfold body_key. by destruct (String.eqb k (Py.lower name)).
Qed.

Lemma table_keys (add : list (string * string) -> string -> list (string * string))
    names defaults :
  (forall d name, exists new, map fst (add d name) = (map fst d ++ new)%list) ->
  map fst defaults `prefix_of` map fst (fold_left add names defaults).
Proof.
  intros Hadd. induction names as [|name names IH] using rev_ind; [done|].
  rewrite fold_left_app. cbn [fold_left].
  destruct (Hadd (fold_left add names defaults) name) as [new ->].
  by apply prefix_app_r.
Qed.

(** X12. The keyword table of a constructed agent: a key reads the last
    catalogue truck filed under it (its lower-cased name, or that with
    blanks for hyphens) and a default keyword otherwise, and the default
    keys keep the first places of the table, in their order. *)
Theorem vehicle_keywords_of_catalogue (key : option string)
    (trucks bodies : list string) :
  let table := vehicle_keywords (__init__ key trucks bodies) in
  (forall k, dict_get k table = filed truck_key k trucks default_vehicle_keywords) /\
  map fst default_vehicle_keywords `prefix_of` map fst table.
Proof.
  cbn [__init__ vehicle_keywords]. split.
  - intros k. apply truck_table_get.
  - apply table_keys. intros d name. unfold add_truck.
    destruct (dict_set_keys (Py.lower name) name d) as [new1 H1].
    destruct (dict_set_keys (Py.replace "-" " " (Py.lower name)) name
                (dict_set (Py.lower name) name d)) as [new2 H2].
    exists (new1 ++ new2)%list. by rewrite H2, H1, app_assoc.
Qed.

Lemma body_table_shape names :
  exists open container rest,
    fold_left add_body names default_body_types
    = ("open", open) :: ("container", container) :: rest.
Proof.
  induction names as [|name names (open & container & rest & IH)] using rev_ind.
  - by exists "Open", "Container", [].
  - rewrite fold_left_app. cbn [fold_left]. rewrite IH. unfold add_body.
    cbn [dict_set].
    destruct (String.eqb_spec (Py.lower name) "open") as [->|]; [by eauto|].
    destruct (String.eqb_spec (Py.lower name) "container") as [->|]; by eauto.
Qed.

(** X13. The body type follows the order of the table, not of the
    words: on a record without body type, a text that contains "open"
    gets the body type filed under "open" (the last catalogue row of
    that name, ["Open"] without one), whatever else it contains; a text
    without "open" that contains "container" gets the one filed under
    "container". *)
Theorem open_takes_precedence (e : env) (text_lower : string) (b : BookingData) :
  body_type b = None ->
  (Py.contains "open" text_lower = true ->
   body_type (extract_body e text_lower b)
   = filed body_key "open" (db_bodies e) default_body_types) /\
  (Py.contains "open" text_lower = false ->
   Py.contains "container" text_lower = true ->
   body_type (extract_body e text_lower b)
   = filed body_key "container" (db_bodies e) default_body_types).
Proof.
  intros Hb. unfold extract_body. rewrite Hb.
  rewrite <- !body_table_get. unfold local_body_types.
  destruct (body_table_shape (db_bodies e)) as (open & container & rest & ->).
  cbn [Find.first_some fst snd dict_get String.eqb Ascii.eqb Bool.eqb].
  split.
  - by intros ->.
  - by intros -> ->.
Qed.

Lemma open_takes_precedence_witness :
  body_type (extract_body new_year "a container, open on top" new_booking)
  = Some "Open".
Proof.
  apply (open_takes_precedence new_year "a container, open on top" new_booking);
    reflexivity.
Defined.

(** ** The record as a dictionary *)








(** ** The name *)

Lemma all_chars_of_list p l :
  all_chars p (string_of_list_ascii l) = forallb p l.
Proof. induction l as [|c l IH]; cbn; [done|by rewrite IH]. Qed.

Lemma forallb_rev {A} (p : A -> bool) l : forallb p (rev l) = forallb p l.
Proof.
  induction l as [|x l IH]; cbn; [done|].
  rewrite forallb_app, IH. cbn. by rewrite andb_true_r, andb_comm.
Qed.

Lemma split_from_tokens cur s :
  forallb (fun c => negb (Char.is_space c)) cur = true ->
  forallb is_token (Py.split_from cur s) = true.
Proof.
  revert cur. induction s as [|c s IH]; intros cur Hcur; cbn [Py.split_from].
  - destruct cur as [|a cur]; [done|]. cbn [forallb]. rewrite andb_true_r.
    unfold is_token. rewrite all_chars_of_list, forallb_rev, Hcur, andb_true_r.
    cbn [rev]. destruct (rev cur); done.
  - destruct (Char.is_space c) eqn:Hc.
    + rewrite forallb_app, (IH []), andb_true_r by done.
      destruct cur as [|a cur]; [done|]. cbn [forallb]. rewrite andb_true_r.
      unfold is_token. rewrite all_chars_of_list, forallb_rev, Hcur, andb_true_r.
      cbn [rev]. destruct (rev cur); done.
    + apply IH. cbn [forallb]. by rewrite Hc, Hcur.
Qed.

Lemma split_tokens s : forallb is_token (Py.split s) = true.
Proof. by apply split_from_tokens. Qed.

Lemma forallb_filter_of {A} (p q : A -> bool) l :
  forallb p l = true -> forallb p (List.filter q l) = true.
Proof.
  induction l as [|x l IH]; cbn; [done|]. rewrite andb_true_iff. intros [Hx Hl].
  destruct (q x); cbn; [by rewrite Hx, IH|by apply IH].
Qed.

Lemma forallb_filter_self {A} (q : A -> bool) l : forallb q (List.filter q l) = true.
Proof.
  induction l as [|x l IH]; cbn; [done|].
  destruct (q x) eqn:Hx; cbn; [by rewrite Hx, IH|done].
Qed.

Lemma name_of_clean cs n :
  Find.name_of cs = Some n ->
  2 <= Py.len n /\
  Py.mem (Py.lower n) Find.name_cities = false /\
  forallb (fun word => negb (Py.mem (Py.lower word) Find.stop_words)) (Py.split n)
  = true /\
  Py.join " " (Py.split n) = n.
Proof.
  unfold Find.name_of. cbv zeta.
  set (parts := List.filter _ (Py.split _)).
  assert (Py.split (Py.join " " parts) = parts) as Hsplit.
  { apply split_join. apply forallb_filter_of, split_tokens. }
  assert (forallb (fun word => negb (Py.mem (Py.lower word) Find.stop_words)) parts
          = true) as Hstop by apply forallb_filter_self.
  destruct parts as [|p0 parts'] eqn:Hparts; [done|]. rewrite <- Hparts in *.
  destruct (Nat.leb_spec 2 (Py.len (Py.join " " parts))) as [Hlen|]; [|done].
  destruct (Py.mem (Py.lower (Py.join " " parts)) Find.name_cities) eqn:Hcity; [done|].
  cbn [negb]. intros [= <-]. by rewrite Hsplit.
Qed.

Lemma name_reading (text_lower n : string) :
  Find.name text_lower = Some n ->
  2 <= Py.len n /\
  Py.mem (Py.lower n) Find.name_cities = false /\
  forallb (fun word => negb (Py.mem (Py.lower word) Find.stop_words)) (Py.split n)
  = true /\
  Py.join " " (Py.split n) = n.
Proof.
  unfold Find.name. intros H. apply first_some_found in H as (pattern & _ & H).
  destruct (Re.search pattern text_lower) as [cs|]; [|done].
  by apply (name_of_clean cs).
Qed.

(** X15. A name taken from the user's words is clean: at least two
    characters long, not one of the six listed cities, free of the
    twelve stop words, and made of words separated by single blanks,
    with no blank at either end. *)
Theorem extracted_name_clean (text_lower n : string) :
  Find.name text_lower = Some n ->
  2 <= Py.len n /\
  Py.mem (Py.lower n) Find.name_cities = false /\
  forallb (fun word => negb (Py.mem (Py.lower word) Find.stop_words)) (Py.split n)
  = true /\
  Py.join " " (Py.split n) = n.
Proof. apply name_reading. Qed.

Lemma extracted_name_clean_witness :
  2 <= Py.len "Ravi Kumar" /\
  Py.mem (Py.lower "Ravi Kumar") Find.name_cities = false /\
  forallb (fun word => negb (Py.mem (Py.lower word) Find.stop_words))
          (Py.split "Ravi Kumar") = true /\
  Py.join " " (Py.split "Ravi Kumar") = "Ravi Kumar".
Proof.
  apply (extracted_name_clean "my name is the ravi kumar and i need a truck").
  vm_compute. reflexivity.
Defined.

(** ** The values a field may take *)






Lemma name_of_echo text a :
  customer_name (booking_data (_extract_from_confirmation text a)) =
  if negb (Py.truthy (customer_name (booking_data a))) then
    match find_echo_name (Py.lower text) with
    | Some name => Some name
    | None => customer_name (booking_data a)
    end
  else customer_name (booking_data a).
Proof.
  unfold _extract_from_confirmation. cbn [booking_data with_booking].
  repeat case_match; reflexivity.
Qed.

Lemma echo_name_reading text_lower name :
  find_echo_name text_lower = Some name ->
  Py.mem (Py.lower name) Find.name_cities = false.
Proof.
  unfold find_echo_name. destruct (Re.search Pat.echo_name_pattern text_lower); [|done].
  cbv zeta. destruct (Py.mem _ echo_cities) eqn:Hc; [done|]. intros [= <-].
  unfold Py.mem, echo_cities in Hc. cbn [existsb] in Hc.
  rewrite !orb_false_iff in Hc. destruct Hc as (H1 & H2 & H3 & H4 & H5 & H6 & _).
  unfold Py.mem, Find.name_cities. cbn [existsb]. by rewrite H1, H2, H3, H4, H5, H6.
Qed.

(** X17. The customer name is never one of the six cities the name
    extractor lists, whether it was read from the user's words or from
    the assistant's confirmation echo. *)
Theorem name_is_never_a_city (fz : Fuzz) (calls : list (turn * string))
    (a : LLMAgent) :
  name_ok (customer_name (booking_data a)) = true ->
  name_ok (customer_name (booking_data (converse fz calls a))) = true.
Proof.
  apply (converse_field_invariant fz FName (fun v => name_ok v = true)).
  - intros kw e text b Hb. cbn [get] in *. rewrite name_after_extraction.
    destruct (negb (Py.truthy (customer_name b))); [|done].
    destruct (Find.name (Py.lower text)) as [n|] eqn:Hn; [|done].
    apply name_reading in Hn as (_ & Hcity & _). cbn [name_ok]. by rewrite Hcity.
  - intros text a' Ha'. cbn [get] in *. rewrite name_of_echo.
    destruct (negb (Py.truthy (customer_name (booking_data a')))); [|done].
    destruct (find_echo_name (Py.lower text)) as [n|] eqn:Hn; [|done].
    apply echo_name_reading in Hn. cbn [name_ok]. by rewrite Hn.
Qed.

Lemma name_is_never_a_city_witness :
  name_ok
    (customer_name
       (booking_data
          (converse exact_fuzz [(silent_turn, "this is chennai")]
             (__init__ None [] [])))) = true.
Proof.
  apply (name_is_never_a_city exact_fuzz [(silent_turn, "this is chennai")]
           (__init__ None [] [])).
  reflexivity.
Defined.

Lemma detect_known text b :
  known_status (confirmation_status b) = true ->
  known_status (confirmation_status (detect text b)) = true.
Proof. unfold detect. repeat case_match; done. Qed.

(** X18. What a conversation never touches, and the values the
    confirmation state takes: the key, the keyword table, the body
    types, [lead_source] and the attributes beyond the ten of
    [__init__] are after any conversation what they were before, and
    the state stays one of [pending], [confirmed] and
    [not_interested]. *)
Theorem conversation_frame (fz : Fuzz) (calls : list (turn * string))
    (a : LLMAgent) :
  api_key (converse fz calls a) = api_key a /\
  vehicle_keywords (converse fz calls a) = vehicle_keywords a /\
  body_types (converse fz calls a) = body_types a /\
  lead_source (booking_data (converse fz calls a)) = lead_source (booking_data a) /\
  shadowed (booking_data (converse fz calls a)) = shadowed (booking_data a) /\
  (known_status (status_of a) = true ->
   known_status (status_of (converse fz calls a)) = true).
Proof.
  destruct (converse_frame fz calls a) as (-> & -> & ->).
  repeat split.
  - apply (converse_field_invariant fz FLead
             (fun v => v = lead_source (booking_data a))); [| |done].
    + intros kw e text b Hb. rewrite <- Hb.
      apply (frame_get _ FLead _ _ (extract_all_frame fz kw e text b)). not_in.
    + intros text a' Ha'. rewrite <- Ha'.
      apply (frame_get _ FLead _ _ (echo_extract_frame text a')). not_in.
  - apply (converse_invariant fz (fun b => shadowed b = shadowed (booking_data a)));
      [| | | |done].
    + intros kw e text b <-. apply (extract_all_frame fz kw e text b).
    + intros text b <-. unfold detect. by repeat case_match.
    + intros text a' <-. apply (echo_extract_frame text a').
    + by intros b <-.
  - unfold status_of.
    apply (converse_invariant fz (fun b => known_status (confirmation_status b) = true)).
    + intros kw e text b Hb.
      by rewrite (proj1 (proj2 (extract_all_frame fz kw e text b))).
    + intros text b. apply detect_known.
    + intros text a' Ha'.
      by rewrite (proj1 (proj2 (echo_extract_frame text a'))).
    + done.
Qed.

Lemma conversation_frame_witness :
  known_status
    (status_of (converse exact_fuzz [(silent_turn, "no, cancel it")]
                  (__init__ None [] []))) = true.
Proof.
  apply (conversation_frame exact_fuzz [(silent_turn, "no, cancel it")]
           (__init__ None [] [])).
  reflexivity.
Defined.

Lemma after_nothing' t cu : Re.rest cu = t -> after "" t cu = cu.
Proof. intros <-. apply after_nothing. Qed.
(** ** The lazy groups on a single word *)

(** A lazy repetition of a class reads the whole of a word of the class
    when what follows the repetition refuses every earlier stop and
    accepts the end of the word. *)
Lemma rounds_lazy_word {A} (p : ascii -> bool)
    (body : Re.cursor -> Re.caps -> (Re.cursor -> Re.caps -> option A) -> option A)
    (k : Re.cursor -> Re.caps -> option A) (cs : Re.caps) (x : A) (t : string) :
  (forall cu cs k0, body cu cs k0 = Re.run (Re.Cls p) cu cs k0) ->
  forall w fuel n cu,
    Re.rest cu = w +:+ t ->
    Py.len (w +:+ t) < fuel ->
    all_chars p w = true ->
    (n = 0 -> w <> "") ->
    (forall w1 c w2,
       w = w1 +:+ String c w2 -> (n = 0 -> w1 <> "") ->
       k (after w1 (String c w2 +:+ t) cu) cs = None) ->
    k (after w t cu) cs = Some x ->
    Re.rounds body false 1 None k fuel n cu cs = Some x.
Proof.
  intros Hbody w. induction w as [|c w IH]; intros fuel n cu Hr Hfuel Hw Hn Hk Hx.
  - destruct fuel as [|fuel]; [cbn in Hfuel; lia|]. cbn [Re.rounds].
    destruct n as [|n]; [by destruct Hn|]. cbn [Nat.leb].
    rewrite after_nothing' in Hx by done. by rewrite Hx.
  - destruct fuel as [|fuel]; [cbn in Hfuel; lia|]. cbn [Re.rounds].
    cbn [all_chars] in Hw. apply andb_true_iff in Hw as [Hc Hw].
    assert ((if Nat.leb 1 n then k cu cs else None) = None) as ->.
    { destruct n as [|n]; [done|]. cbn [Nat.leb].
      specialize (Hk "" c w eq_refl). rewrite after_nothing' in Hk by done.
      apply Hk. lia. }
    cbn [Re.below]. rewrite Hbody. cbn [Re.run]. rewrite Hr. cbn [String.append].
    rewrite Hc. cbn [Re.step Re.pos].
    destruct (Nat.ltb_spec (Re.pos cu) (S (Re.pos cu))) as [_|]; [|lia].
    apply IH.
    + done.
    + cbn [String.append Py.len String.length] in Hfuel. unfold Py.len. lia.
    + done.
    + lia.
    + intros w1 c' w2 -> _.
      change (Re.Cursor (Some c) (S (Re.pos cu)) (w1 +:+ String c' w2 +:+ t))
        with (Re.step c (w1 +:+ String c' w2 +:+ t) cu).
      rewrite after_step. apply (Hk (String c w1) c' w2); [done|done].
    + change (Re.Cursor (Some c) (S (Re.pos cu)) (w +:+ t))
        with (Re.step c (w +:+ t) cu).
      by rewrite after_step.
Qed.

Lemma run_alt_eq {A} r1 r2 cu cs (k : Re.cursor -> Re.caps -> option A) :
  Re.run (Re.Alt r1 r2) cu cs k =
  match Re.run r1 cu cs k with
  | Some x => Some x
  | None => Re.run r2 cu cs k
  end.
Proof. done. Qed.

Lemma eat_here l prev i t :
  Re.eat l (Re.Cursor prev i (l +:+ t)) = Some (after l t (Re.Cursor prev i (l +:+ t))).
Proof.
  revert prev i. induction l as [|a l IH]; intros prev i.
  - cbn [Re.eat String.append]. by rewrite after_nothing'.
  - cbn [Re.eat String.append Re.rest]. rewrite Ascii.eqb_refl.
    unfold Re.step at 1. cbn [Re.pos]. rewrite IH. f_equal.
    change (Re.Cursor (Some a) (S i) (l +:+ t))
      with (Re.step a (l +:+ t) (Re.Cursor prev i (String a (l +:+ t)))).
    apply after_step.
Qed.

Lemma run_lit_here {A} l prev i t cs (k : Re.cursor -> Re.caps -> option A) :
  Re.run (Re.Lit l) (Re.Cursor prev i (l +:+ t)) cs k
  = k (after l t (Re.Cursor prev i (l +:+ t))) cs.
Proof. cbn [Re.run]. by rewrite eat_here. Qed.

Lemma run_lit_miss {A} a l prev i c t cs (k : Re.cursor -> Re.caps -> option A) :
  Ascii.eqb a c = false ->
  Re.run (Re.Lit (String a l)) (Re.Cursor prev i (String c t)) cs k = None.
Proof. intros H. cbn [Re.run Re.eat Re.rest]. by rewrite H. Qed.

Lemma run_lit_end {A} a l prev i cs (k : Re.cursor -> Re.caps -> option A) :
  Re.run (Re.Lit (String a l)) (Re.Cursor prev i "") cs k = None.
Proof. done. Qed.

(** [\s+] before a character that is not blank. *)
Lemma run_blank {A} prev i c t cs (k : Re.cursor -> Re.caps -> option A) :
  Char.is_space c = false ->
  Re.run (Re.plus Re.sp) (Re.Cursor prev i (String " " (String c t))) cs k
  = k (Re.Cursor (Some " "%char) (S i) (String c t)) cs.
Proof.
  intros Hc. unfold Re.plus, Re.sp.
  cbn [Re.run Re.rounds Re.rest Py.len String.length Re.below Nat.leb Re.step Re.pos
       Char.is_space].
  change (Char.is_space " ") with true. cbn iota. rewrite Hc.
  destruct (Nat.ltb_spec i (S i)) as [_|]; [|lia].
  by destruct (k _ cs).
Qed.

Lemma run_blank_miss {A} prev i c t cs (k : Re.cursor -> Re.caps -> option A) :
  Char.is_space c = false ->
  Re.run (Re.plus Re.sp) (Re.Cursor prev i (String c t)) cs k = None.
Proof.
  intros Hc. unfold Re.plus, Re.sp.
  cbn [Re.run Re.rounds Re.rest Py.len String.length Re.below Nat.leb]. by rewrite Hc.
Qed.

(** A lazy group reads the whole of a word of its class when what
    follows refuses every earlier stop and accepts the end of the
    word. *)
Lemma run_lazy_group {A} i (p : ascii -> bool) cu cs
    (k : Re.cursor -> Re.caps -> option A) w t x :
  Re.rest cu = w +:+ t ->
  w <> "" ->
  all_chars p w = true ->
  (forall w1 c w2,
     w = w1 +:+ String c w2 -> w1 <> "" ->
     k (after w1 (String c w2 +:+ t) cu) ((i, w1) :: cs) = None) ->
  k (after w t cu) ((i, w) :: cs) = Some x ->
  Re.run (Re.Grp i (Re.plus_lazy (Re.Cls p))) cu cs k = Some x.
Proof.
  intros Hr Hne Hw Hk Hx. rewrite run_grp. unfold Re.plus_lazy. cbn [Re.run].
  apply (rounds_lazy_word p _ _ cs x t) with (w := w); try done.
  - rewrite Hr. lia.
  - intros w1 c w2 Hsplit Hw1. rewrite group_text.
    + apply Hk; [done|]. by apply Hw1.
    + rewrite Hr, Hsplit. by rewrite append_assoc.
  - by rewrite group_text.
Qed.

Lemma lower_facts c :
  Char.is_lower c = true ->
  Pat.letter_or_blank c = true /\ Pat.alnum_or_blank c = true /\
  Char.is_space c = false /\ Char.is_word c = true /\
  Ascii.eqb "," c = false /\ Ascii.eqb "." c = false /\ Ascii.eqb c "010" = false.
Proof. by_cases_on c. Qed.

Lemma lower_word_shape w :
  lower_word w = true -> exists c w', w = String c w' /\ all_chars Char.is_lower w = true.
Proof.
  unfold lower_word. destruct w as [|c w']; [done|]. cbn [String.eqb negb andb].
  intros H. by exists c, w'.
Qed.

Lemma all_chars_impl (p q : ascii -> bool) s :
  (forall c, p c = true -> q c = true) -> all_chars p s = true -> all_chars q s = true.
Proof.
  intros Hpq. induction s as [|c s IH]; cbn [all_chars]; [done|].
  rewrite !andb_true_iff. intros [Hc Hs]. split; [by apply Hpq|by apply IH].
Qed.

Lemma last_char_class (p : ascii -> bool) w prev :
  w <> "" -> all_chars p w = true ->
  exists c, last_char w prev = Some c /\ p c = true.
Proof.
  revert prev. induction w as [|a w IH]; intros prev Hne Hw; [done|].
  cbn [all_chars] in Hw. apply andb_true_iff in Hw as [Ha Hw]. cbn [last_char].
  destruct w as [|b w]; [by exists a|]. by apply IH.
Qed.

Lemma split_class (p : ascii -> bool) w w1 c w2 :
  w = w1 +:+ String c w2 -> all_chars p w = true ->
  all_chars p w1 = true /\ p c = true.
Proof.
  intros -> H. rewrite all_chars_app in H. cbn [all_chars] in H.
  rewrite !andb_true_iff in H. by destruct H as (? & ? & ?).
Qed.

(** The end of the "from X to Y" form: refused inside a word, accepted
    at the end of the text. *)
Lemma from_to_end_inside {A} cu c t cs (k : Re.cursor -> Re.caps -> option A) :
  Re.rest cu = String c t ->
  Char.is_lower c = true ->
  Re.word_at (Re.before cu) = true ->
  Re.run (Re.alt [Re.sp; Re.Lit ","; Re.Eol; Re.Lit ".";
                  Re.seq [Re.Wordb; Re.Lit "and"; Re.Wordb]]) cu cs k = None.
Proof.
  intros Hr Hc Hb. destruct (lower_facts c Hc) as (_ & _ & Hsp & Hw & Hcomma & Hdot & Hnl).
  destruct cu as [prev i s]. cbn [Re.rest Re.before] in *. subst s.
  cbn [Re.alt Re.seq]. rewrite !run_alt_eq.
  rewrite !run_lit_miss by done.
  rewrite run_cat.
  cbn [Re.run Re.sp Re.rest Re.at_end Re.before Re.peek Re.word_at].
  rewrite Hsp, Hb, Hw. cbn [xorb]. destruct t; [by rewrite Hnl|done].
Qed.

Lemma from_to_end_last {A} prev i cs (k : Re.cursor -> Re.caps -> option A) :
  Re.run (Re.alt [Re.sp; Re.Lit ","; Re.Eol; Re.Lit ".";
                  Re.seq [Re.Wordb; Re.Lit "and"; Re.Wordb]]) (Re.Cursor prev i "") cs k
  = k (Re.Cursor prev i "") cs.
Proof.
  cbn [Re.alt Re.seq]. rewrite !run_alt_eq.
  cbn [Re.run Re.sp Re.rest Re.eat Re.at_end].
  destruct (k _ cs); [done|]. by case_match.
Qed.

Lemma run_lit_miss' {A} a l prev i c s t cs (k : Re.cursor -> Re.caps -> option A) :
  Ascii.eqb a c = false ->
  Re.run (Re.Lit (String a l)) (Re.Cursor prev i (String c s +:+ t)) cs k = None.
Proof. intros H. cbn [Re.run Re.eat Re.rest String.append]. by rewrite H. Qed.

(** The "from X to Y" form from the blank after its first word on, for
    two words in lower case. *)
Lemma from_to_tail prev i mid x y :
  In mid ["to"; "drop"] ->
  lower_word x = true -> lower_word y = true ->
  Re.run
    (Re.seq [Re.plus Re.sp; Re.Grp 1 (Re.plus_lazy (Re.Cls Pat.letter_or_blank));
             Re.plus Re.sp; Re.alt [Re.Lit "to"; Re.Lit "drop"]; Re.plus Re.sp;
             Re.Grp 2 (Re.plus_lazy (Re.Cls Pat.letter_or_blank));
             Re.alt [Re.sp; Re.Lit ","; Re.Eol; Re.Lit ".";
                     Re.seq [Re.Wordb; Re.Lit "and"; Re.Wordb]]])
    (Re.Cursor prev i (" " +:+ x +:+ " " +:+ mid +:+ " " +:+ y)) []
    (fun _ cs => Some cs)
  = Some [(2, y); (1, x)].
Proof.
  intros Hmid Hx Hy.
  destruct (lower_word_shape x Hx) as (cx & x' & -> & Hxl).
  destruct (lower_word_shape y Hy) as (cy & y' & -> & Hyl).
  assert (Char.is_lower cx = true /\ Char.is_lower cy = true) as [Hcx Hcy].
  { cbn [all_chars] in Hxl, Hyl. by destruct (Char.is_lower cx), (Char.is_lower cy). }
  destruct (lower_facts cx Hcx) as (_ & _ & Hsx & _).
  destruct (lower_facts cy Hcy) as (_ & _ & Hsy & _).
  cbn [Re.seq]. rewrite run_cat.
  change (" " +:+ String cx x' +:+ " " +:+ mid +:+ " " +:+ String cy y')
    with (String " " (String cx (x' +:+ " " +:+ mid +:+ " " +:+ String cy y'))).
  rewrite run_blank by done. rewrite run_cat.
  apply (run_lazy_group 1 Pat.letter_or_blank _ _ _ (String cx x')
           (" " +:+ mid +:+ " " +:+ String cy y')); [done|done| | |].
  - eapply all_chars_impl; [|exact Hxl]. intros c Hc. by apply lower_facts.
  - intros w1 c w2 Hsplit Hw1.
    destruct (split_class _ _ _ _ _ Hsplit Hxl) as [_ Hc].
    destruct (lower_facts c Hc) as (_ & _ & Hsc & _).
    rewrite run_cat. unfold after. cbn [String.append]. by rewrite run_blank_miss.
  - rewrite run_cat. unfold after at 1. cbn [Re.before Re.pos].
    assert (exists cm m', mid = String cm m' /\ Char.is_space cm = false
                          /\ (mid = "to" \/ mid = "drop")) as (cm & m' & Hm & Hcm & Hmid').
    { destruct Hmid as [<-|[<-|[]]]; eexists _, _; (split; [reflexivity|]); split; auto. }
    rewrite Hm at 1.
    change (" " +:+ String cm m' +:+ " " +:+ String cy y')
      with (String " " (String cm (m' +:+ " " +:+ String cy y'))).
    rewrite run_blank by done. rewrite run_cat.
    change (String cm (m' +:+ " " +:+ String cy y'))
      with (String cm m' +:+ " " +:+ String cy y').
    assert (forall cs (k : Re.cursor -> Re.caps -> option Re.caps) prev i t,
              Re.run (Re.alt [Re.Lit "to"; Re.Lit "drop"])
                (Re.Cursor prev i (String cm m' +:+ t)) cs k
              = match k (after (String cm m') t
                           (Re.Cursor prev i (String cm m' +:+ t))) cs with
                | Some r => Some r
                | None => None
                end) as ->.
    { intros cs k prev0 i0 t. cbn [Re.alt]. rewrite run_alt_eq.
      destruct Hmid' as [Hto|Hdrop].
      - rewrite Hto in Hm. injection Hm as <- <-. rewrite run_lit_here.
        destruct (k _ cs); [done|]. by rewrite run_lit_miss'.
      - rewrite Hdrop in Hm. injection Hm as <- <-.
        rewrite run_lit_miss' by done. rewrite run_lit_here. by destruct (k _ cs). }
    rewrite run_cat. unfold after at 1. cbn [Re.before Re.pos].
    change (" " +:+ String cy y') with (String " " (String cy y')).
    rewrite run_blank by done. rewrite run_cat.
    erewrite (run_lazy_group 2 Pat.letter_or_blank _ _ _ (String cy y') "");
      [done|by rewrite append_nil|done| | |].
    + eapply all_chars_impl; [|exact Hyl]. intros c Hc. by apply lower_facts.
    + intros w1 c w2 Hsplit Hw1.
      destruct (split_class _ _ _ _ _ Hsplit Hyl) as [Hw1l Hc].
      apply from_to_end_inside with (c := c) (t := w2 +:+ ""); [done|done|].
      unfold after. cbn [Re.before].
      destruct (last_char_class Char.is_lower w1 (Some " "%char) Hw1 Hw1l)
        as (c' & -> & Hc').
      cbn [Re.word_at]. by apply lower_facts.
    + unfold after. by rewrite from_to_end_last.
Qed.

(** ** What a match has passed over *)

Lemma rounds_reaches {A}
    (body : Re.cursor -> Re.caps -> (Re.cursor -> Re.caps -> option A) -> option A)
    greedy lo hi (k : Re.cursor -> Re.caps -> option A) :
  (forall cu cs k0 x,
     body cu cs k0 = Some x ->
     exists cu' cs' w, k0 cu' cs' = Some x /\ Re.rest cu = w +:+ Re.rest cu') ->
  forall fuel n cu cs x,
    Re.rounds body greedy lo hi k fuel n cu cs = Some x ->
    exists cu' cs' w, k cu' cs' = Some x /\ Re.rest cu = w +:+ Re.rest cu'.
Proof.
  intros Hbody fuel. induction fuel as [|fuel IH]; intros n cu cs x H; [done|].
  cbn [Re.rounds] in H.
  assert (forall y,
            (if Nat.leb lo n then k cu cs else None) = Some y ->
            exists cu' cs' w, k cu' cs' = Some y /\ Re.rest cu = w +:+ Re.rest cu')
    as Hstop.
  { intros y Hy. destruct (Nat.leb lo n); [|done]. by exists cu, cs, "". }
  assert (forall y,
            (if Re.below hi n
             then body cu cs (fun cu' cs' =>
                    if Nat.ltb (Re.pos cu) (Re.pos cu')
                    then Re.rounds body greedy lo hi k fuel (S n) cu' cs'
                    else None)
             else None) = Some y ->
            exists cu' cs' w, k cu' cs' = Some y /\ Re.rest cu = w +:+ Re.rest cu')
    as Hagain.
  { intros y Hy. destruct (Re.below hi n); [|done].
    apply Hbody in Hy as (cu1 & cs1 & w1 & Hy & Hr1).
    destruct (Nat.ltb (Re.pos cu) (Re.pos cu1)); [|done].
    apply IH in Hy as (cu2 & cs2 & w2 & Hy & Hr2).
    exists cu2, cs2, (w1 +:+ w2). split; [done|].
    by rewrite Hr1, Hr2, append_assoc. }
  destruct greedy.
  - destruct (if Re.below hi n then _ else None) as [y|] eqn:Ha.
    + simplify_eq. by apply Hagain.
    + by apply Hstop.
  - destruct (if Nat.leb lo n then k cu cs else None) as [y|] eqn:Hs.
    + simplify_eq. by apply Hstop.
    + by apply Hagain.
Qed.

(** A match hands what follows it a position further on in the text. *)
Lemma run_reaches {A} r :
  forall cu cs (k : Re.cursor -> Re.caps -> option A) x,
    Re.run r cu cs k = Some x ->
    exists cu' cs' w, k cu' cs' = Some x /\ Re.rest cu = w +:+ Re.rest cu'.
Proof.
  induction r as [l|p|r1 IH1 r2 IH2|r1 IH1 r2 IH2|greedy lo hi r IH|i r IH| |];
    intros cu cs k x H.
  - apply run_lit in H as (t & Hr & H). by exists (after l t cu), cs, l.
  - apply run_cls in H as (c & t & Hr & _ & H).
    by exists (after (String c "") t cu), cs, (String c "").
  - rewrite run_cat in H. apply IH1 in H as (cu1 & cs1 & w1 & H & Hr1).
    apply IH2 in H as (cu2 & cs2 & w2 & H & Hr2).
    exists cu2, cs2, (w1 +:+ w2). split; [done|]. by rewrite Hr1, Hr2, append_assoc.
  - apply run_alt in H as [H|H]; [by apply IH1 in H|by apply IH2 in H].
  - cbn [Re.run] in H. by apply (rounds_reaches _ _ _ _ _ IH) in H.
  - rewrite run_grp in H. apply IH in H as (cu1 & cs1 & w1 & H & Hr1). eauto.
  - cbn [Re.run] in H. destruct (Re.at_end cu); [|done]. by exists cu, cs, "".
  - apply run_wordb in H. by exists cu, cs, "".
Qed.

Lemma scan_reaches r prev i s cs :
  Re.scan r prev i s = Some cs ->
  exists prev' i' pre s',
    s = pre +:+ s' /\ Re.match_here r (Re.Cursor prev' i' s') = Some cs.
Proof.
  revert prev i. induction s as [|c s IH]; intros prev i H; cbn [Re.scan] in H.
  - destruct (Re.match_here r (Re.Cursor prev i "")) eqn:Hm; [|done].
    simplify_eq. by exists prev, i, "", "".
  - destruct (Re.match_here r (Re.Cursor prev i (String c s))) eqn:Hm.
    + simplify_eq. by exists prev, i, "", (String c s).
    + apply IH in H as (prev' & i' & pre & s' & -> & H).
      by exists prev', i', (String c pre), s'.
Qed.

(** The confirmation echo of the locations needs a comma. *)
Lemma echo_needs_comma text_lower :
  all_chars (fun c => negb (Ascii.eqb "," c)) text_lower = true ->
  Find.echo text_lower = None.
Proof.
  intros Hno. unfold Find.echo.
  destruct (Re.search Pat.confirmation_pattern text_lower) as [cs|] eqn:Hs; [|done].
  exfalso. apply scan_reaches in Hs as (prev & i & pre & s & -> & Hm).
  unfold Re.match_here, Pat.confirmation_pattern in Hm. cbn [Re.seq] in Hm.
  rewrite run_cat in Hm. apply run_reaches in Hm as (cu1 & cs1 & w1 & Hm & Hr1).
  rewrite run_cat in Hm. apply run_reaches in Hm as (cu2 & cs2 & w2 & Hm & Hr2).
  rewrite run_cat in Hm. apply run_reaches in Hm as (cu3 & cs3 & w3 & Hm & Hr3).
  rewrite run_cat in Hm. apply run_reaches in Hm as (cu4 & cs4 & w4 & Hm & Hr4).
  rewrite run_cat in Hm. apply run_lit in Hm as (t & Hr5 & _).
  cbn [Re.rest] in Hr1. rewrite Hr1, Hr2, Hr3, Hr4, Hr5 in Hno.
  rewrite !all_chars_app in Hno. cbn [all_chars String.append] in Hno.
  rewrite Ascii.eqb_refl in Hno. cbn [negb andb] in Hno.
  by rewrite !andb_false_r in Hno.
Qed.

(** ** The route "from X to Y" *)

Lemma lstrip_word s :
  match s with
  | String c _ => Char.is_space c = false
  | EmptyString => True
  end -> Py.lstrip s = s.
Proof. destruct s as [|c s]; [done|]. intros H. cbn [Py.lstrip]. by rewrite H. Qed.

Lemma rstrip_word s :
  all_chars (fun c => negb (Char.is_space c)) s = true -> Py.rstrip s = s.
Proof.
  induction s as [|c s IH]; [done|]. cbn [all_chars Py.rstrip].
  rewrite andb_true_iff. intros [Hc Hs]. rewrite IH by done.
  destruct s; [|done]. by destruct (Char.is_space c).
Qed.

Lemma strip_word w : lower_word w = true -> Py.strip w = w.
Proof.
  intros Hw. destruct (lower_word_shape w Hw) as (c & w' & -> & Hl).
  assert (all_chars (fun c => negb (Char.is_space c)) (String c w') = true) as Hns.
  { eapply all_chars_impl; [|exact Hl]. intros a Ha.
    destruct (lower_facts a Ha) as (_ & _ & -> & _). done. }
  unfold Py.strip. rewrite lstrip_word; [by apply rstrip_word|].
  cbn [all_chars] in Hns. by destruct (Char.is_space c).
Qed.

Lemma lower_word_lowered w : lower_word w = true -> is_lowered w = true.
Proof.
  intros Hw. destruct (lower_word_shape w Hw) as (c & w' & -> & Hl).
  eapply all_chars_impl; [|exact Hl]. intros a. by_cases_on a.
Qed.

Lemma route_text_plain start mid x y :
  In start ["from"; "pickup"; "trip from"] -> In mid ["to"; "drop"] ->
  lower_word x = true -> lower_word y = true ->
  is_lowered (route_text start x mid y) = true /\
  all_chars (fun c => negb (Ascii.eqb "," c)) (route_text start x mid y) = true.
Proof.
  intros Hstart Hmid Hx Hy.
  destruct (lower_word_shape x Hx) as (cx & x' & -> & Hxl).
  destruct (lower_word_shape y Hy) as (cy & y' & -> & Hyl).
  assert (forall w, all_chars Char.is_lower w = true ->
            is_lowered w = true /\
            all_chars (fun c => negb (Ascii.eqb "," c)) w = true) as Hword.
  { intros w Hw. split; (eapply all_chars_impl; [|exact Hw]); intros a; by_cases_on a. }
  destruct (Hword _ Hxl) as [Hx1 Hx2]. destruct (Hword _ Hyl) as [Hy1 Hy2].
  unfold route_text, is_lowered.
  rewrite !all_chars_app. fold (is_lowered (String cx x')) (is_lowered (String cy y')).
  rewrite Hx1, Hx2, Hy1, Hy2.
  destruct Hstart as [<-|[<-|[<-|[]]]]; destruct Hmid as [<-|[<-|[]]]; done.
Qed.

Lemma route_reading start mid x y :
  In start ["from"; "pickup"; "trip from"] -> In mid ["to"; "drop"] ->
  lower_word x = true -> lower_word y = true ->
  Find.from_to (route_text start x mid y) = Some (Py.title x, Py.title y).
Proof.
  intros Hstart Hmid Hx Hy. unfold Find.from_to, Re.search.
  assert (Re.match_here Pat.from_to_pattern
            (Re.Cursor None 0 (route_text start x mid y))
          = Some [(2, y); (1, x)]) as Hm.
  { unfold Re.match_here, Pat.from_to_pattern, route_text.
    cbn [Re.seq]. rewrite run_cat. cbn [Re.alt]. rewrite !run_alt_eq.
    pose proof (from_to_tail) as Htail. cbn [Re.seq] in Htail.
    destruct Hstart as [<-|[<-|[<-|[]]]].
    - rewrite run_lit_here. unfold after. by rewrite (Htail _ _ mid x y).
    - rewrite run_lit_miss' by done. rewrite run_lit_here.
      unfold after. by rewrite (Htail _ _ mid x y).
    - rewrite !run_lit_miss' by done. rewrite run_lit_here.
      unfold after. by rewrite (Htail _ _ mid x y). }
  rewrite (scan_found _ _ _ _ _ Hm). cbn [Re.group Nat.eqb]. by rewrite !strip_word.
Qed.

Lemma route_locations tl p :
  Find.echo tl = None ->
  pickup_after tl p =
    match Find.from_to tl with
    | Some (pickup, _) => if empty_or_shorter p pickup then Some pickup else p
    | None => p
    end /\
  drop_after tl p =
    match Find.from_to tl with
    | Some (_, drop) => if empty_or_shorter p drop then Some drop else p
    | None => p
    end.
Proof. unfold pickup_after, drop_after. by intros ->. Qed.

(** X19. The route is read for every pair of words: each of the
    utterances "from X to Y", "pickup X drop Y", "trip from X to Y" (and
    the three with the other linking word), for any two words X and Y
    of lower-case letters, sets the pickup to X and the drop to Y, each
    with a capital first letter, on a field that is empty or holds a
    shorter value, and leaves a field that holds a value at least as
    long. *)
Theorem route_extracted (fz : Fuzz) (e : env) (a : LLMAgent)
    (start mid x y : string) :
  In start ["from"; "pickup"; "trip from"] -> In mid ["to"; "drop"] ->
  lower_word x = true -> lower_word y = true ->
  let b := booking_data a in
  let b' := booking_data (_extract_booking_info fz e (route_text start x mid y) a) in
  pickup_location b'
  = (if empty_or_shorter (pickup_location b) (Py.title x)
     then Some (Py.title x) else pickup_location b) /\
  drop_location b'
  = (if empty_or_shorter (drop_location b) (Py.title y)
     then Some (Py.title y) else drop_location b).
Proof.
  intros Hstart Hmid Hx Hy b b'. subst b b'. rewrite booking_after.
  rewrite pickup_after_extraction, drop_after_extraction.
  destruct (route_text_plain start mid x y Hstart Hmid Hx Hy) as [Hlow Hcomma].
  rewrite lower_lowered by done.
  destruct (route_locations (route_text start x mid y) (pickup_location (booking_data a))
              (echo_needs_comma _ Hcomma)) as [-> _].
  destruct (route_locations (route_text start x mid y) (drop_location (booking_data a))
              (echo_needs_comma _ Hcomma)) as [_ ->].
  by rewrite route_reading.
Qed.

Lemma route_extracted_witness :
  pickup_location
    (booking_data
       (_extract_booking_info exact_fuzz new_year (route_text "pickup" "salem" "drop" "erode")
          (__init__ None [] []))) = Some "Salem" /\
  drop_location
    (booking_data
       (_extract_booking_info exact_fuzz new_year (route_text "pickup" "salem" "drop" "erode")
          (__init__ None [] []))) = Some "Erode".
Proof.
  apply (route_extracted exact_fuzz new_year (__init__ None [] [])
           "pickup" "drop" "salem" "erode").
  - right; left; reflexivity.
  - right; left; reflexivity.
  - reflexivity.
  - reflexivity.
Defined.

(** ** The name after its introduction *)

Lemma run_blank_end {A} prev i cs (k : Re.cursor -> Re.caps -> option A) :
  Re.run (Re.plus Re.sp) (Re.Cursor prev i "") cs k = None.
Proof. done. Qed.

Lemma name_end_inside {A} cu c t cs (k : Re.cursor -> Re.caps -> option A) :
  Re.rest cu = String c t ->
  Char.is_lower c = true ->
  Re.run Pat.name_end cu cs k = None.
Proof.
  intros Hr Hc. destruct (lower_facts c Hc) as (_ & _ & Hsp & Hw & Hcomma & Hdot & Hnl).
  destruct cu as [prev i s]. cbn [Re.rest] in Hr. subst s.
  unfold Pat.name_end. cbn [Re.alt]. rewrite !run_alt_eq, !run_cat.
  rewrite !run_blank_miss, !run_lit_miss by done.
  cbn [Re.run Re.at_end Re.rest]. destruct t; [by rewrite Hnl|done].
Qed.

Lemma name_end_last {A} prev i cs (k : Re.cursor -> Re.caps -> option A) :
  Re.run Pat.name_end (Re.Cursor prev i "") cs k = k (Re.Cursor prev i "") cs.
Proof.
  unfold Pat.name_end. cbn [Re.alt]. rewrite !run_alt_eq, !run_cat.
  by rewrite !run_blank_end, !run_lit_end.
Qed.

Lemma name_tail prev i x :
  lower_word x = true ->
  Re.run (Re.seq [Re.plus Re.sp; Re.Grp 1 (Re.plus_lazy (Re.Cls Pat.letter_or_blank));
                  Pat.name_end])
    (Re.Cursor prev i (" " +:+ x)) [] (fun _ cs => Some cs)
  = Some [(1, x)].
Proof.
  intros Hx. destruct (lower_word_shape x Hx) as (cx & x' & -> & Hxl).
  assert (Char.is_lower cx = true) as Hcx.
  { cbn [all_chars] in Hxl. by destruct (Char.is_lower cx). }
  destruct (lower_facts cx Hcx) as (_ & _ & Hsx & _).
  cbn [Re.seq]. rewrite run_cat.
  change (" " +:+ String cx x') with (String " " (String cx x')).
  rewrite run_blank by done. rewrite run_cat.
  apply (run_lazy_group 1 Pat.letter_or_blank _ _ _ (String cx x') "");
    [by rewrite append_nil|done| | |].
  - eapply all_chars_impl; [|exact Hxl]. intros c Hc. by apply lower_facts.
  - intros w1 c w2 Hsplit Hw1.
    destruct (split_class _ _ _ _ _ Hsplit Hxl) as [_ Hc].
    by apply name_end_inside with (c := c) (t := w2 +:+ "").
  - unfold after. by rewrite name_end_last.
Qed.

Lemma name_match intro x :
  In intro name_intros -> lower_word x = true ->
  Re.match_here (hd (Re.Lit "") Pat.name_patterns) (Re.Cursor None 0 (intro +:+ " " +:+ x))
  = Some [(1, x)].
Proof.
  intros Hintro Hx. unfold Re.match_here. cbn [hd Pat.name_patterns Re.seq].
  pose proof (name_tail) as Htail. cbn [Re.seq] in Htail.
  rewrite run_cat.
  set (k := fun cu' cs' =>
              Re.run (Re.Cat (Re.plus Re.sp)
                        (Re.Cat (Re.Grp 1 (Re.plus_lazy (Re.Cls Pat.letter_or_blank)))
                           Pat.name_end)) cu' cs' (fun _ cs => Some cs)).
  assert (forall prev i, k (Re.Cursor prev i (String " " x)) [] = Some [(1, x)]) as Hk
    by (intros prev i; by apply Htail).
  clearbody k. unfold name_intros in Hintro.
  destruct Hintro as [<-|[<-|[<-|[<-|[<-|[]]]]]];
    cbn [Re.alt Re.run Re.eat Re.rest Re.step Re.pos String.append Ascii.eqb Bool.eqb];
    unfold Re.step; by rewrite Hk.
Qed.

Lemma lower_title prev_cased s : Py.lower (Py.title_from prev_cased s) = Py.lower s.
Proof.
  revert prev_cased. induction s as [|c s IH]; intros prev_cased; [done|].
  cbn [Py.title_from Py.lower].
  destruct (Char.is_alpha c) eqn:Hc; cbn [Py.lower]; rewrite IH; f_equal.
  destruct prev_cased; revert Hc; by_cases_on c.
Qed.

Lemma len_title prev_cased s : Py.len (Py.title_from prev_cased s) = Py.len s.
Proof.
  unfold Py.len. revert prev_cased. induction s as [|c s IH]; intros prev_cased; [done|].
  cbn [Py.title_from]. destruct (Char.is_alpha c); cbn [String.length]; by rewrite IH.
Qed.

Lemma title_token prev_cased s :
  all_chars (fun c => negb (Char.is_space c)) (Py.title_from prev_cased s)
  = all_chars (fun c => negb (Char.is_space c)) s.
Proof.
  revert prev_cased. induction s as [|c s IH]; intros prev_cased; [done|].
  cbn [Py.title_from]. destruct (Char.is_alpha c) eqn:Hc; cbn [all_chars]; rewrite IH;
    f_equal. destruct prev_cased; revert Hc; by_cases_on c.
Qed.

Lemma name_of_word x :
  lower_word x = true -> 2 <= Py.len x ->
  Py.mem x Find.stop_words = false -> Py.mem x Find.name_cities = false ->
  Find.name_of [(1, x)] = Some (Py.title x).
Proof.
  intros Hx Hlen Hstop Hcity. unfold Find.name_of. cbn [Re.group Nat.eqb].
  rewrite strip_word by done.
  assert (Py.lower (Py.title x) = x) as Hlow.
  { unfold Py.title. rewrite lower_title. by apply lower_lowered, lower_word_lowered. }
  assert (Py.split (Py.title x) = [Py.title x]) as ->.
  { apply (split_join [Py.title x]). cbn [forallb]. rewrite andb_true_r.
    unfold is_token, Py.title. rewrite title_token.
    destruct (lower_word_shape x Hx) as (c & x' & -> & Hl).
    apply andb_true_iff. split.
    - cbn [Py.title_from]. by destruct (Char.is_alpha c).
    - eapply all_chars_impl; [|exact Hl]. intros a Ha.
      destruct (lower_facts a Ha) as (_ & _ & -> & _). done. }
  cbn [List.filter]. rewrite Hlow, Hstop. cbn [negb Py.join].
  unfold Py.title at 1. rewrite len_title.
  destruct (Nat.leb_spec 2 (Py.len x)) as [_|]; [|lia].
  by rewrite Hlow, Hcity.
Qed.

Lemma name_intro_reading intro x :
  In intro name_intros -> lower_word x = true -> 2 <= Py.len x ->
  Py.mem x Find.stop_words = false -> Py.mem x Find.name_cities = false ->
  Find.name (intro +:+ " " +:+ x) = Some (Py.title x).
Proof.
  intros Hintro Hx Hlen Hstop Hcity. unfold Find.name.
  pose proof (name_match intro x Hintro Hx) as Hm.
  unfold Pat.name_patterns in *. cbn [hd] in Hm. cbn [Find.first_some].
  unfold Re.search. rewrite (scan_found _ _ _ _ _ Hm).
  by rewrite name_of_word.
Qed.

(** X20. The name is read after each of its five introductions: "my
    name is X", "i am X", "this is X", "name is X" and "i'm X", for any
    word X of two or more lower-case letters that is neither a stop
    word nor a listed city, set an empty customer name to X with a
    capital first letter. *)
Theorem name_extracted (fz : Fuzz) (e : env) (a : LLMAgent) (intro x : string) :
  In intro name_intros ->
  lower_word x = true -> 2 <= Py.len x ->
  Py.mem x Find.stop_words = false -> Py.mem x Find.name_cities = false ->
  Py.truthy (customer_name (booking_data a)) = false ->
  customer_name (booking_data (_extract_booking_info fz e (intro +:+ " " +:+ x) a))
  = Some (Py.title x).
Proof.
  intros Hintro Hx Hlen Hstop Hcity Hempty.
  rewrite booking_after, name_after_extraction, Hempty. cbn [negb].
  rewrite lower_lowered.
  - by rewrite name_intro_reading.
  - unfold is_lowered. rewrite !all_chars_app.
    fold (is_lowered x). rewrite (lower_word_lowered x Hx).
    unfold name_intros in Hintro.
    destruct Hintro as [<-|[<-|[<-|[<-|[<-|[]]]]]]; done.
Qed.

Lemma name_extracted_witness :
  customer_name
    (booking_data
       (_extract_booking_info exact_fuzz new_year ("i'm" +:+ " " +:+ "lokesh")
          (__init__ None [] [])))
  = Some "Lokesh".
Proof.
  apply (name_extracted exact_fuzz new_year (__init__ None [] []) "i'm" "lokesh").
  - do 4 right; left; reflexivity.
  - reflexivity.
  - cbn. lia.
  - reflexivity.
  - reflexivity.
  - reflexivity.
Defined.

(** ** A number of feet *)

(** A greedy repetition of a class reads the whole of a run of the class
    that ends the text or is followed by a character outside the class,
    when what follows the repetition accepts the end of the run. *)
Lemma rounds_greedy_word {A} (p : ascii -> bool) lo
    (body : Re.cursor -> Re.caps -> (Re.cursor -> Re.caps -> option A) -> option A)
    (k : Re.cursor -> Re.caps -> option A) (cs : Re.caps) (x : A) (t : string) :
  (forall cu cs k0, body cu cs k0 = Re.run (Re.Cls p) cu cs k0) ->
  match t with
  | String c _ => p c = false
  | EmptyString => True
  end ->
  forall w fuel n cu,
    Re.rest cu = w +:+ t ->
    Py.len (w +:+ t) < fuel ->
    all_chars p w = true ->
    lo <= n + Py.len w ->
    k (after w t cu) cs = Some x ->
    Re.rounds body true lo None k fuel n cu cs = Some x.
Proof.
  intros Hbody Ht w. induction w as [|c w IH]; intros fuel n cu Hr Hfuel Hw Hlo Hx.
  - destruct fuel as [|fuel]; [cbn in Hfuel; lia|]. cbn [Re.rounds Re.below].
    rewrite Hbody. cbn [Re.run]. rewrite Hr. cbn [String.append].
    rewrite after_nothing' in Hx by done.
    assert (Nat.leb lo n = true) as -> by (apply Nat.leb_le; cbn in Hlo; lia).
    destruct t as [|c t]; [done|]. by rewrite Ht.
  - destruct fuel as [|fuel]; [cbn in Hfuel; lia|]. cbn [Re.rounds Re.below].
    cbn [all_chars] in Hw. apply andb_true_iff in Hw as [Hc Hw].
    rewrite Hbody. cbn [Re.run]. rewrite Hr. cbn [String.append].
    rewrite Hc. cbn [Re.step Re.pos].
    destruct (Nat.ltb_spec (Re.pos cu) (S (Re.pos cu))) as [_|]; [|lia].
    erewrite IH; [done|done| | | |].
    + cbn [String.append Py.len String.length] in Hfuel. unfold Py.len. lia.
    + done.
    + cbn [Py.len String.length] in Hlo. unfold Py.len. lia.
    + change (Re.Cursor (Some c) (S (Re.pos cu)) (w +:+ t))
        with (Re.step c (w +:+ t) cu).
      by rewrite after_step.
Qed.

Lemma run_greedy {A} (p : ascii -> bool) lo cu cs
    (k : Re.cursor -> Re.caps -> option A) w t x :
  Re.rest cu = w +:+ t ->
  match t with
  | String c _ => p c = false
  | EmptyString => True
  end ->
  all_chars p w = true ->
  lo <= Py.len w ->
  k (after w t cu) cs = Some x ->
  Re.run (Re.Rep true lo None (Re.Cls p)) cu cs k = Some x.
Proof.
  intros Hr Ht Hw Hlo Hx. cbn [Re.run].
  apply (rounds_greedy_word p lo _ _ cs x t) with (w := w); try done.
  rewrite Hr. lia.
Qed.

Lemma truck_needs_r text_lower :
  all_chars (fun c => negb (Ascii.eqb "r" c)) text_lower = true ->
  Find.truck_mentioned text_lower = None.
Proof.
  intros Hno. unfold Find.truck_mentioned.
  destruct (Re.search Pat.truck_type_pattern text_lower) as [cs|] eqn:Hs; [|done].
  exfalso. apply scan_reaches in Hs as (prev & i & pre & s & -> & Hm).
  unfold Re.match_here, Pat.truck_type_pattern in Hm. cbn [Re.seq] in Hm.
  rewrite run_cat in Hm. apply run_lit in Hm as (t & Hr & _).
  cbn [Re.rest] in Hr. rewrite Hr in Hno.
  rewrite !all_chars_app in Hno. cbn [all_chars String.append] in Hno.
  rewrite Ascii.eqb_refl in Hno. cbn [negb andb] in Hno.
  by rewrite !andb_false_r in Hno.
Qed.

Lemma digit_facts' c :
  Char.is_digit c = true ->
  Char.is_space c = false /\ Char.is_upper c = false /\ Ascii.eqb "r" c = false.
Proof. by_cases_on c. Qed.

Lemma feet_match n sep unit :
  all_chars Char.is_digit n = true -> 1 <= Py.len n ->
  In sep [""; " "] -> In unit ["feet"; "ft"; "foot"] ->
  Re.match_here Pat.feet_pattern (Re.Cursor None 0 (n +:+ sep +:+ unit))
  = Some [(1, n)].
Proof.
  intros Hn Hlen Hsep Hunit. unfold Re.match_here, Pat.feet_pattern.
  cbn [Re.seq]. rewrite run_cat, run_grp. unfold Re.plus, Re.dg.
  apply (run_greedy Char.is_digit 1 _ _ _ n (sep +:+ unit)); [done| |done|done|].
  { destruct Hsep as [<-|[<-|[]]]; destruct Hunit as [<-|[<-|[<-|[]]]]; done. }
  rewrite group_text by done. rewrite run_cat. unfold Re.star, Re.sp.
  apply (run_greedy Char.is_space 0 _ _ _ sep unit); [done| | |lia|].
  { destruct Hunit as [<-|[<-|[<-|[]]]]; done. }
  { destruct Hsep as [<-|[<-|[]]]; done. }
  unfold after. cbn [Re.before Re.pos].
  destruct Hunit as [<-|[<-|[<-|[]]]]; reflexivity.
Qed.

Lemma feet_text_plain n sep unit :
  all_chars Char.is_digit n = true ->
  In sep [""; " "] -> In unit ["feet"; "ft"; "foot"] ->
  is_lowered (n +:+ sep +:+ unit) = true /\
  all_chars (fun c => negb (Ascii.eqb "r" c)) (n +:+ sep +:+ unit) = true.
Proof.
  intros Hn Hsep Hunit. unfold is_lowered. rewrite !all_chars_app.
  assert (all_chars (fun c => negb (Char.is_upper c)) n = true /\
          all_chars (fun c => negb (Ascii.eqb "r" c)) n = true) as [-> ->].
  { split; (eapply all_chars_impl; [|exact Hn]); intros c Hc;
      destruct (digit_facts' c Hc) as (_ & Hu & Hr); by rewrite ?Hu, ?Hr. }
  destruct Hsep as [<-|[<-|[]]]; destruct Hunit as [<-|[<-|[<-|[]]]]; done.
Qed.

(** X24. A number of feet is read as it is said: for every numeral N
    and each of the units "feet", "ft" and "foot", with or without a
    blank between them, the utterance sets an empty vehicle type to
    ["N Feet"], for every keyword table and scorer (so "32 feet" gives
    ["32 Feet"], not the canonical name the table holds for it), and
    leaves a vehicle type that is already filled. *)
Theorem feet_extracted (fz : Fuzz) (e : env) (a : LLMAgent) (n sep unit : string) :
  all_chars Char.is_digit n = true -> 1 <= Py.len n ->
  In sep [""; " "] -> In unit ["feet"; "ft"; "foot"] ->
  vehicle_type (booking_data (_extract_booking_info fz e (n +:+ sep +:+ unit) a))
  = if Py.truthy (vehicle_type (booking_data a))
    then vehicle_type (booking_data a)
    else Some (n +:+ " Feet").
Proof.
  intros Hn Hlen Hsep Hunit.
  rewrite booking_after, vehicle_after_extraction.
  destruct (feet_text_plain n sep unit Hn Hsep Hunit) as (Hlow & Hr).
  rewrite lower_lowered by done. unfold vehicle_after.
  rewrite truck_needs_r by done.
  destruct (Py.truthy (vehicle_type (booking_data a))); cbn [negb]; [done|].
  unfold Find.feet, Re.search.
  by rewrite (scan_found _ _ _ _ _ (feet_match n sep unit Hn Hlen Hsep Hunit)).
Qed.

Lemma feet_extracted_witness :
  vehicle_type
    (booking_data
       (_extract_booking_info exact_fuzz new_year ("32" +:+ " " +:+ "feet")
          (__init__ None [] [])))
  = Some "32 Feet".
Proof.
  apply (feet_extracted exact_fuzz new_year (__init__ None [] []) "32" " " "feet").
  - reflexivity.
  - cbn. lia.
  - right; left; reflexivity.
  - left; reflexivity.
Defined.

(** ** The goods after their verb *)

Lemma material_end_inside {A} cu c t cs (k : Re.cursor -> Re.caps -> option A) :
  Re.rest cu = String c t ->
  Char.is_lower c = true ->
  Re.run Pat.material_end cu cs k = None.
Proof.
  intros Hr Hc. destruct (lower_facts c Hc) as (_ & _ & Hsp & Hw & Hcomma & Hdot & Hnl).
  destruct cu as [prev i s]. cbn [Re.rest] in Hr. subst s.
  unfold Pat.material_end. cbn [Re.alt]. rewrite !run_alt_eq, !run_cat.
  rewrite !run_blank_miss, !run_lit_miss by done.
  cbn [Re.run Re.at_end Re.rest]. destruct t; [by rewrite Hnl|done].
Qed.

Lemma material_end_last {A} prev i cs (k : Re.cursor -> Re.caps -> option A) :
  Re.run Pat.material_end (Re.Cursor prev i "") cs k = k (Re.Cursor prev i "") cs.
Proof.
  unfold Pat.material_end. cbn [Re.alt]. rewrite !run_alt_eq, !run_cat.
  by rewrite !run_blank_end, !run_lit_end.
Qed.

Lemma verb_match verb x :
  lower_word x = true ->
  Re.match_here (Pat.after_verb verb) (Re.Cursor None 0 (verb +:+ " " +:+ x))
  = Some [(1, x)].
Proof.
  intros Hx. destruct (lower_word_shape x Hx) as (cx & x' & -> & Hxl).
  assert (Char.is_lower cx = true) as Hcx.
  { cbn [all_chars] in Hxl. by destruct (Char.is_lower cx). }
  destruct (lower_facts cx Hcx) as (_ & _ & Hsx & _).
  unfold Re.match_here, Pat.after_verb. cbn [Re.seq].
  rewrite run_cat, run_lit_here. unfold after at 1. rewrite run_cat.
  change (" " +:+ String cx x') with (String " " (String cx x')).
  rewrite run_blank by done. rewrite run_cat.
  apply (run_lazy_group 1 Pat.alnum_or_blank _ _ _ (String cx x') "");
    [by rewrite append_nil|done| | |].
  - eapply all_chars_impl; [|exact Hxl]. intros c Hc. by apply lower_facts.
  - intros w1 c w2 Hsplit Hw1.
    destruct (split_class _ _ _ _ _ Hsplit Hxl) as [_ Hc].
    by apply material_end_inside with (c := c) (t := w2 +:+ "").
  - unfold after. by rewrite material_end_last.
Qed.

(** Two texts that agree up to their first blank. *)
Lemma first_blank a c u b c' u' :
  all_chars (fun x => negb (Char.is_space x)) a = true ->
  Char.is_space c' = true ->
  a +:+ String c u = b +:+ String c' u' ->
  b = a \/ exists b', b = a +:+ String c b' /\ u = b' +:+ String c' u'.
Proof.
  revert b. induction a as [|x a IH]; intros b Ha Hc' Heq.
  - destruct b as [|y b]; [by left|]. cbn [String.append] in Heq.
    injection Heq as -> ->. right. by exists b.
  - cbn [all_chars] in Ha. apply andb_true_iff in Ha as [Hx Ha].
    destruct b as [|y b]; cbn [String.append] in Heq.
    + injection Heq as -> _. by rewrite Hc' in Hx.
    + injection Heq as -> Heq. destruct (IH b Ha Hc' Heq) as [->|(b' & -> & ->)].
      * by left.
      * right. by exists b'.
Qed.

Lemma verb_needed verb verb' x :
  all_chars (fun c => negb (Char.is_space c)) verb = true ->
  lower_word x = true ->
  (forall pre, pre +:+ verb' <> verb) ->
  Re.search (Pat.after_verb verb') (verb +:+ " " +:+ x) = None.
Proof.
  intros Hverb Hx Hne.
  destruct (Re.search (Pat.after_verb verb') (verb +:+ " " +:+ x)) as [cs|] eqn:Hs;
    [|done].
  exfalso. apply scan_reaches in Hs as (prev & i & pre & s & Htext & Hm).
  unfold Re.match_here, Pat.after_verb in Hm. cbn [Re.seq] in Hm.
  rewrite run_cat in Hm. apply run_lit in Hm as (t & Hr & Hm).
  rewrite run_cat in Hm. unfold Re.plus, Re.sp in Hm.
  apply run_rep_cls in Hm as (w & t' & Hr' & Hw & Hlo & _).
  cbn [Re.rest] in Hr. rewrite rest_after in Hr'. subst s t.
  destruct w as [|c w]; [cbn in Hlo; lia|].
  cbn [all_chars] in Hw. apply andb_true_iff in Hw as [Hc _].
  rewrite <- (append_assoc pre verb' (String c w +:+ t')) in Htext.
  apply (first_blank verb " " x (pre +:+ verb') c (w +:+ t')) in Htext
    as [Heq|(b' & _ & Hx')]; [| |done|done].
  - by apply (Hne pre).
  - destruct (lower_word_shape x Hx) as (cx & x' & -> & Hxl).
    rewrite Hx' in Hxl. rewrite all_chars_app in Hxl. cbn [all_chars] in Hxl.
    rewrite !andb_true_iff in Hxl. destruct Hxl as (_ & Hcl & _).
    destruct (lower_facts c Hcl) as (_ & _ & Hsc & _). by rewrite Hsc in Hc.
Qed.

Lemma replace_word old new s c0 :
  all_chars (fun c => negb (Char.is_space c)) s = true ->
  Char.is_space c0 = true ->
  Py.replace_from (String c0 old) new 0 s = s.
Proof.
  intros Hs Hc0. induction s as [|c s IH]; [done|].
  cbn [all_chars] in Hs. apply andb_true_iff in Hs as [Hc Hs].
  cbn [Py.replace_from Py.startswith].
  destruct (Ascii.eqb_spec c0 c) as [->|_]; [by rewrite Hc0 in Hc|].
  cbn [andb]. by rewrite IH.
Qed.

Lemma material_of_word verb x :
  In verb goods_verbs -> lower_word x = true -> 3 <= Py.len x ->
  Find.material (verb +:+ " " +:+ x) = Some (Py.title x).
Proof.
  intros Hverb Hx Hlen. unfold Find.material.
  assert (forall cs, cs = [(1, x)] ->
            (let material :=
               Py.replace " And " " and " (Py.title (Py.strip (Re.group 1 cs))) in
             if Nat.ltb 2 (Py.len material) then Some material else None)
            = Some (Py.title x)) as Hread.
  { intros cs ->. cbn [Re.group Nat.eqb]. cbv zeta. rewrite strip_word by done.
    unfold Py.replace. rewrite (replace_word "And " " and " (Py.title x) " ").
    - unfold Py.title. rewrite len_title.
      destruct (Nat.ltb_spec 2 (Py.len x)) as [_|]; [done|lia].
    - unfold Py.title. rewrite title_token.
      destruct (lower_word_shape x Hx) as (c & x' & -> & Hl).
      eapply all_chars_impl; [|exact Hl]. intros a Ha.
      destruct (lower_facts a Ha) as (_ & _ & -> & _). done.
    - done. }
  unfold Pat.material_patterns. cbn [Find.first_some].
  unfold goods_verbs in Hverb. destruct Hverb as [<-|[<-|[<-|[]]]].
  - unfold Re.search. rewrite (scan_found _ _ _ _ _ (verb_match "carrying" x Hx)).
    by rewrite Hread.
  - rewrite (verb_needed "transporting" "carrying" x); [|done|done|].
    2: { intros pre Hpre. apply (f_equal Py.len) in Hpre as Hl. rewrite len_app in Hl.
         do 5 (destruct pre as [|? pre]; [by simplify_eq|]). cbn in Hl. lia. }
    unfold Re.search. rewrite (scan_found _ _ _ _ _ (verb_match "transporting" x Hx)).
    by rewrite Hread.
  - rewrite (verb_needed "moving" "carrying" x); [|done|done|].
    2: { intros pre Hpre. apply (f_equal Py.len) in Hpre as Hl. rewrite len_app in Hl.
         cbn in Hl. lia. }
    rewrite (verb_needed "moving" "transporting" x); [|done|done|].
    2: { intros pre Hpre. apply (f_equal Py.len) in Hpre as Hl. rewrite len_app in Hl.
         cbn in Hl. lia. }
    unfold Re.search. rewrite (scan_found _ _ _ _ _ (verb_match "moving" x Hx)).
    by rewrite Hread.
Qed.

Lemma material_filled text_lower material :
  Find.material text_lower = Some material -> Py.truthy (Some material) = true.
Proof.
  unfold Find.material. intros Hm. apply first_some_found in Hm as (p & _ & Hm).
  destruct (Re.search p text_lower) as [cs|]; [|done]. cbv zeta in Hm.
  destruct (Nat.ltb_spec 2 (Py.len (Py.replace " And " " and "
                                       (Py.title (Py.strip (Re.group 1 cs))))))
    as [Hl|]; [|done].
  injection Hm as <-. cbn [Py.truthy].
  destruct (Py.replace _ _ _); [cbn in Hl; lia|done].
Qed.

Lemma goods_after_extraction fz kw e text b :
  Py.truthy (goods_type b) = false ->
  goods_type (extract_all fz kw e text b) =
  match Find.material (Py.lower text) with
  | Some material => Some material
  | None =>
      match Find.echo_material (Py.lower text) with
      | Some material => Some material
      | None => goods_type b
      end
  end.
Proof.
  intros Hempty. unfold extract_all. by_field FGoods. pass FGoods. cbn [get].
  set (B := extract_vehicle_fallback _ _).
  assert (goods_type B = goods_type b) as HB.
  { subst B. by_field FGoods. pass FGoods. done. }
  unfold extract_goods. rewrite HB, Hempty. cbn [negb].
  destruct (Find.material (Py.lower text)) as [m|] eqn:Hm.
  - unfold extract_echo_goods. cbn [goods_type set_goods_type].
    by rewrite (material_filled _ _ Hm).
  - unfold extract_echo_goods. rewrite HB, Hempty. cbn [negb].
    by destruct (Find.echo_material (Py.lower text)).
Qed.

(** X25. The goods are read after their verb: "carrying X",
    "transporting X" and "moving X", for any word X of three or more
    lower-case letters, set an empty goods type to X with a capital
    first letter. *)
Theorem goods_extracted (fz : Fuzz) (e : env) (a : LLMAgent) (verb x : string) :
  In verb goods_verbs ->
  lower_word x = true -> 3 <= Py.len x ->
  Py.truthy (goods_type (booking_data a)) = false ->
  goods_type (booking_data (_extract_booking_info fz e (verb +:+ " " +:+ x) a))
  = Some (Py.title x).
Proof.
  intros Hverb Hx Hlen Hempty.
  rewrite booking_after, goods_after_extraction by done.
  rewrite lower_lowered.
  - by rewrite material_of_word.
  - unfold is_lowered. rewrite !all_chars_app.
    fold (is_lowered x). rewrite (lower_word_lowered x Hx).
    unfold goods_verbs in Hverb. destruct Hverb as [<-|[<-|[<-|[]]]]; done.
Qed.

Lemma goods_extracted_witness :
  goods_type
    (booking_data
       (_extract_booking_info exact_fuzz new_year ("moving" +:+ " " +:+ "cement")
          (__init__ None [] [])))
  = Some "Cement".
Proof.
  apply (goods_extracted exact_fuzz new_year (__init__ None [] []) "moving" "cement").
  - do 2 right; left; reflexivity.
  - reflexivity.
  - cbn. lia.
  - reflexivity.
Defined.

(** ** The request of a record *)

Lemma to_dict_value b f : dict_value (to_dict b) (key_of f) = get f b.
Proof. destruct f; by vm_compute. Qed.

Lemma to_dict_sent b f : get_or_empty (to_dict b) (key_of f) = sent (get f b).
Proof.
  unfold get_or_empty, sent.
  assert (to_dict b !! key_of f = Some (get f b)) as -> by (destruct f; by vm_compute).
  by destruct (get f b).
Qed.

Lemma payload_of_record db b :
  payload db (to_dict b) =
  let ids :=
    if negb (db_up db) then (None, None)
    else
      match (if Py.truthy (vehicle_type b)
             then get_truck_type_id db (Py.or_empty (vehicle_type b))
             else Some None) with
      | None => (None, None)
      | Some truck_type_id =>
          match (if Py.truthy (body_type b)
                 then get_body_type_id db (Py.or_empty (body_type b))
                 else Some None) with
          | None => (truck_type_id, None)
          | Some body_type_id => (truck_type_id, body_type_id)
          end
      end in
  [ ("name", sent (customer_name b));
    ("contact", sent (contact b));
    ("pickup_location", sent (pickup_location b));
    ("drop_location", sent (drop_location b));
    ("truck_type", id_or (fst ids) (sent (vehicle_type b)));
    ("body_type", id_or (snd ids) (sent (body_type b)));
    ("material", sent (goods_type b));
    ("required_date", sent (trip_date b)) ].
Proof.
  unfold payload, fetch_ids.
  rewrite (to_dict_sent b FName : get_or_empty _ "customer_name" = _),
    (to_dict_sent b FContact : get_or_empty _ "contact" = _),
    (to_dict_sent b FPickup : get_or_empty _ "pickup_location" = _),
    (to_dict_sent b FDrop : get_or_empty _ "drop_location" = _),
    (to_dict_sent b FVehicle : get_or_empty _ "vehicle_type" = _),
    (to_dict_sent b FBody : get_or_empty _ "body_type" = _),
    (to_dict_sent b FGoods : get_or_empty _ "goods_type" = _),
    (to_dict_sent b FDate : get_or_empty _ "trip_date" = _).
  by rewrite (to_dict_value b FVehicle : dict_value _ "vehicle_type" = _),
    (to_dict_value b FBody : dict_value _ "body_type" = _).
Qed.

(** X21. The request [send_booking] builds from the dictionary of a
    record: eight entries, in which a field that is [None] goes out as
    [None] (the default [""] of [get] only applies to a missing key,
    and [to_dict] has them all); the truck and body type go out as the
    label unless the catalogue can be set up, the label is not empty
    and the look-up (for the body type: after a truck look-up that did
    not raise) answers an identifier other than 0; [lead_source] and
    [confirmation_status] are not sent and do not bear on the result,
    so a booking goes out the same whether it is confirmed or not. *)
Theorem request_of_record (db : catalogue) (b : BookingData) :
  let p := payload db (to_dict b) in
  map fst p = ["name"; "contact"; "pickup_location"; "drop_location";
               "truck_type"; "body_type"; "material"; "required_date"] /\
  entry "name" p = Some (sent (customer_name b)) /\
  entry "contact" p = Some (sent (contact b)) /\
  entry "pickup_location" p = Some (sent (pickup_location b)) /\
  entry "drop_location" p = Some (sent (drop_location b)) /\
  entry "material" p = Some (sent (goods_type b)) /\
  entry "required_date" p = Some (sent (trip_date b)) /\
  entry "truck_type" p
  = Some (match (if db_up db then id_sent (get_truck_type_id db) (vehicle_type b)
                 else None) with
          | Some n => PId n
          | None => sent (vehicle_type b)
          end) /\
  entry "body_type" p
  = Some (match (if db_up db
                    && negb (Py.truthy (vehicle_type b)
                             && raised (get_truck_type_id db
                                          (Py.or_empty (vehicle_type b))))
                 then id_sent (get_body_type_id db) (body_type b)
                 else None) with
          | Some n => PId n
          | None => sent (body_type b)
          end) /\
  (forall post status source,
     send_booking db post
       (to_dict (set_confirmation_status status (set_lead_source source b)))
     = send_booking db post (to_dict b)).
Proof.
  intros p. subst p. split; [|split; [|split; [|split; [|split; [|split; [|split;
    [|split; [|split]]]]]]]];
    try (intros post status source; unfold send_booking);
    rewrite ?payload_of_record; try reflexivity.
  - unfold id_sent. cbn [entry String.eqb Ascii.eqb Bool.eqb].
    destruct (db_up db); cbn [negb andb fst snd id_or]; [|done].
    destruct (Py.truthy (vehicle_type b)); cbn [andb negb].
    + destruct (get_truck_type_id db (Py.or_empty (vehicle_type b))) as [[n|]|];
        cbn [fst snd id_or raised negb];
        destruct (Py.truthy (body_type b));
        try destruct (get_body_type_id db (Py.or_empty (body_type b))) as [[m|]|];
        cbn [fst snd id_or]; repeat case_match; done.
    + destruct (Py.truthy (body_type b));
        try destruct (get_body_type_id db (Py.or_empty (body_type b))) as [[m|]|];
        cbn [fst snd id_or]; repeat case_match; done.
  - unfold id_sent. cbn [entry String.eqb Ascii.eqb Bool.eqb].
    destruct (db_up db); cbn [negb andb fst snd id_or]; [|done].
    destruct (Py.truthy (vehicle_type b)); cbn [andb negb].
    + destruct (get_truck_type_id db (Py.or_empty (vehicle_type b))) as [[n|]|];
        cbn [fst snd id_or raised negb];
        destruct (Py.truthy (body_type b));
        try destruct (get_body_type_id db (Py.or_empty (body_type b))) as [[m|]|];
        cbn [fst snd id_or]; repeat case_match; done.
    + destruct (Py.truthy (body_type b));
        try destruct (get_body_type_id db (Py.or_empty (body_type b))) as [[m|]|];
        cbn [fst snd id_or]; repeat case_match; done.
Qed.
